(** * PLY decoder (draco/io/ply_decoder.cc): shallow embedding and properties

    The decoder turns a parsed PLY property table into a point cloud or a
    mesh.  The embedding follows [ply_decoder.cc] function by function:
    [CountNumTriangles], [DecodeFaceData], [ReadPropertiesToAttribute],
    [DecodeVertexData] and [DecodeInternal].  The decoder mutates the output
    geometry in place and returns a [Status]; here this is a small state and
    error monad [Dec] over the decoder object, whose final state is observable
    whatever the outcome. *)

From Stdlib Require Import ZArith Lia.
From Stdlib Require SpecFloat.
From stdpp Require Import base option list strings.

Local Open Scope string_scope.
Local Open Scope list_scope.
Local Open Scope Z_scope.

(** ** Primitive data types (draco/core/draco_types.h) *)

Inductive DataType : Type :=
  | DT_INVALID | DT_INT8 | DT_UINT8 | DT_INT16 | DT_UINT16 | DT_INT32
  | DT_UINT32 | DT_INT64 | DT_UINT64 | DT_FLOAT32 | DT_FLOAT64 | DT_BOOL.

#[global] Instance DataType_eq_dec : EqDecision DataType.
Proof. solve_decision. Defined.

(** Modelled from the spec: [DataTypeLength] (draco_types.cc is not among the
    sources) gives the byte size of a primitive type; the spec fixes the three
    types consumed here as 32-bit float, 32-bit signed integer and 8-bit
    unsigned integer, the others follow their names. *)
Definition DataTypeLength (dt : DataType) : Z :=
  match dt with
  | DT_INT8 | DT_UINT8 => 1
  | DT_INT16 | DT_UINT16 => 2
  | DT_INT32 | DT_UINT32 => 4
  | DT_INT64 | DT_UINT64 => 8
  | DT_FLOAT32 => 4
  | DT_FLOAT64 => 8
  | DT_BOOL => 1
  | DT_INVALID => -1
  end.

(** [static_cast<int>] of a 64-bit value: reduction to 32-bit two's
    complement. *)
Definition static_cast_int (z : Z) : Z := (z + 2 ^ 31) mod 2 ^ 32 - 2 ^ 31.

(** ** Values and their conversion *)

(** A value of the table or of an attribute buffer is kept as a numeral: a
    value of an integer type as that integer, a value of a floating-point
    type as its IEEE 754 encoding (binary32 for float32, binary64 for
    float64) read as an unsigned integer. *)

(** The integer types: whether they are signed, and their width in bits. *)
Definition integer_type (dt : DataType) : option (bool * Z) :=
  match dt with
  | DT_INT8 => Some (true, 8)
  | DT_UINT8 => Some (false, 8)
  | DT_INT16 => Some (true, 16)
  | DT_UINT16 => Some (false, 16)
  | DT_INT32 => Some (true, 32)
  | DT_UINT32 => Some (false, 32)
  | DT_INT64 => Some (true, 64)
  | DT_UINT64 => Some (false, 64)
  | _ => None
  end.

(** The floating-point types: precision and exponent bound of the format. *)
Definition float_type (dt : DataType) : option (Z * Z) :=
  match dt with
  | DT_FLOAT32 => Some (24, 128)
  | DT_FLOAT64 => Some (53, 1024)
  | _ => None
  end.

(** Reduction of an integer to an integer type of [bits] bits, in two's
    complement when the type is signed. *)
Definition wrap (signed : bool) (bits : Z) (z : Z) : Z :=
  if signed then (z + 2 ^ (bits - 1)) mod 2 ^ bits - 2 ^ (bits - 1)
  else z mod 2 ^ bits.

Definition exponent_bits (emax : Z) : Z := Z.log2 emax + 1.

Definition sign_bit (prec emax : Z) (s : bool) : Z :=
  if s then 2 ^ (exponent_bits emax + prec - 1) else 0.

(** Decoding and encoding of the IEEE 754 format of precision [prec] and
    exponent bound [emax]: sign, biased exponent, fraction. *)
Definition float_of_bits (prec emax : Z) (b : Z) : SpecFloat.spec_float :=
  let mw := prec - 1 in
  let ew := exponent_bits emax in
  let s := Z.testbit b (ew + mw) in
  let E := (b / 2 ^ mw) mod 2 ^ ew in
  let M := b mod 2 ^ mw in
  if E =? 0 then
    if M =? 0 then SpecFloat.S754_zero s
    else SpecFloat.S754_finite s (Z.to_pos M) (SpecFloat.emin prec emax)
  else if E =? 2 ^ ew - 1 then
    if M =? 0 then SpecFloat.S754_infinity s else SpecFloat.S754_nan
  else
    SpecFloat.S754_finite s (Z.to_pos (M + 2 ^ mw))
      (E + SpecFloat.emin prec emax - 1).

Definition bits_of_float (prec emax : Z) (f : SpecFloat.spec_float) : Z :=
  let mw := prec - 1 in
  let ew := exponent_bits emax in
  match f with
  | SpecFloat.S754_zero s => sign_bit prec emax s
  | SpecFloat.S754_infinity s => sign_bit prec emax s + (2 ^ ew - 1) * 2 ^ mw
  | SpecFloat.S754_nan => (2 ^ ew - 1) * 2 ^ mw + 2 ^ (mw - 1)
  | SpecFloat.S754_finite s m e =>
      if Z.pos m <? 2 ^ mw then sign_bit prec emax s + Z.pos m
      else sign_bit prec emax s +
           (e - SpecFloat.emin prec emax + 1) * 2 ^ mw + (Z.pos m - 2 ^ mw)
  end.

(** A floating-point value to an integer: the fraction is discarded.  Where
    C++ leaves the conversion undefined (a NaN, an infinity, a value outside
    the integer type) the embedding goes on with 0, or with the truncated
    value reduced like an integer. *)
Definition truncate (f : SpecFloat.spec_float) : Z :=
  match f with
  | SpecFloat.S754_finite s m e =>
      let magnitude :=
        if 0 <=? e then Z.pos m * 2 ^ e else Z.pos m / 2 ^ (- e) in
      if s then - magnitude else magnitude
  | _ => 0
  end.

(** A floating-point value to another format: rounding to nearest, ties to
    even. *)
Definition round_float (prec emax : Z) (f : SpecFloat.spec_float)
    : SpecFloat.spec_float :=
  match f with
  | SpecFloat.S754_finite s m e => SpecFloat.binary_round prec emax s m e
  | _ => f
  end.

(** A NaN to another format: the quiet NaN with the same sign and the
    leading bits of the payload. *)
Definition nan_bits (prec emax prec' emax' : Z) (b : Z) : Z :=
  let mw := prec - 1 in
  let mw' := prec' - 1 in
  sign_bit prec' emax' (Z.testbit b (exponent_bits emax + mw)) +
  (2 ^ exponent_bits emax' - 1) * 2 ^ mw' +
  Z.lor (2 ^ (mw' - 1)) (Z.shiftl (b mod 2 ^ mw) (mw' - mw)).

(** [static_cast<To>(v)] of a value [v] of type [from]: nothing between equal
    types; to an integer type, reduction to its width (of the truncated value
    when [v] is floating-point); to a floating-point type, the nearest value
    of the format. *)
Definition static_cast (from to : DataType) (v : Z) : Z :=
  if decide (from = to) then v
  else
    match integer_type to, float_type to with
    | Some (signed, bits), _ =>
        wrap signed bits
          match float_type from with
          | Some (prec, emax) => truncate (float_of_bits prec emax v)
          | None => v
          end
    | None, Some (prec', emax') =>
        match float_type from with
        | Some (prec, emax) =>
            match float_of_bits prec emax v with
            | SpecFloat.S754_nan => nan_bits prec emax prec' emax' v
            | f => bits_of_float prec' emax' (round_float prec' emax' f)
            end
        | None =>
            bits_of_float prec' emax'
              (SpecFloat.binary_normalize prec' emax' v 0 false)
        end
    | None, None =>
        match to with
        | DT_BOOL =>
            match float_type from with
            | Some (prec, emax) =>
                match float_of_bits prec emax v with
                | SpecFloat.S754_zero _ => 0
                | _ => 1
                end
            | None => if v =? 0 then 0 else 1
            end
        | _ => v
        end
    end.

(** ** The property table (external collaborator) *)

(** Modelled from the spec: [PlyProperty] (ply_reader.h is not among the
    sources).  A property has a primitive data type and is either scalar or
    list-valued; values are read by random access on a value index, and a
    list-valued property gives, per entry, the offset of its first value and
    its number of values.  [GetDataEntry] gives the stored value, of the
    property's data type. *)
Record PlyProperty : Type := {
  data_type : DataType;
  is_list : bool;
  GetListEntryOffset : nat -> Z;
  GetListEntryNumValues : nat -> Z;
  GetDataEntry : Z -> Z;
}.

(** Modelled from the spec: [PlyElement], a named group of entries with an
    entry count and a lookup of its properties by name; a property that is
    absent is [None] (a null pointer in the source). *)
Record PlyElement : Type := {
  num_entries : nat;
  GetPropertyByName : string -> option PlyProperty;
}.

(** Modelled from the spec: [PlyReader], the parsed table, with a lookup of
    its elements by name. *)
Record PlyReader : Type := {
  GetElementByName : string -> option PlyElement;
}.

(** ** The output geometry (external collaborator) *)

Inductive AttributeType : Type :=
  | INVALID | POSITION | NORMAL | COLOR | TEX_COORD | GENERIC
  | FDC | FREST | OPACITY | SCALE | ROT.

#[global] Instance AttributeType_eq_dec : EqDecision AttributeType.
Proof. solve_decision. Defined.

(** The fields set by [GeometryAttribute::Init]; the buffer argument is
    [nullptr] at every call of the decoder and is left out. *)
Record GeometryAttribute : Type := Init {
  attribute_type : AttributeType;
  num_components : nat;
  att_data_type : DataType;
  normalized : bool;
  byte_stride : Z;
  byte_offset : Z;
}.

(** Modelled from the spec: a [PointAttribute] is a geometry attribute with
    its backing buffer, one interleaved tuple per attribute value. *)
Record PointAttribute : Type := {
  descriptor : GeometryAttribute;
  identity_mapping : bool;
  buffer : list (list Z);
}.

(** Modelled from the spec: a point index ([PointIndex], an index type over
    [uint32_t]; geometry_indices.h is not among the sources). *)
Record PointIndex : Type := {
  value : Z;
  value_fits : bool_decide (0 <= value < 2 ^ 32);
}.

(** The point index made from a [uint32_t] value. *)
Definition PointIndex_of (z : Z) : PointIndex :=
  {| value := z mod 2 ^ 32;
     value_fits := bool_decide_pack _ (Z.mod_pos_bound z (2 ^ 32) eq_refl) |}.

(** A face is three point indices ([std::array<PointIndex, 3>]). *)
Definition Face : Type := (PointIndex * PointIndex * PointIndex)%type.

(** A default-constructed face, [Mesh::Face()]. *)
Definition default_face : Face :=
  (PointIndex_of 0, PointIndex_of 0, PointIndex_of 0).

Definition face_set (face : Face) (c : Z) (v : PointIndex) : Face :=
  let '(f0, f1, f2) := face in
  if c =? 0 then (v, f1, f2)
  else if c =? 1 then (f0, v, f2)
  else if c =? 2 then (f0, f1, v)
  else face.

(** Modelled from the spec: the output geometry, a point cloud (point count
    and attributes) which, when it is a mesh, also owns the face list. *)
Record Geometry : Type := {
  num_points : nat;
  attributes : list PointAttribute;
  faces : list Face;
}.

Definition empty_geometry : Geometry :=
  {| num_points := 0; attributes := []; faces := [] |}.

Definition num_faces (g : Geometry) : nat := length (faces g).

(** ** Status and the decoder monad *)

Inductive Code : Type :=
  | OK | DRACO_ERROR | IO_ERROR | INVALID_PARAMETER
  | UNSUPPORTED_VERSION | UNKNOWN_VERSION | UNSUPPORTED_FEATURE.

Record Status : Type := mkStatus { code : Code; error_msg : string }.

(** Behaviour the C++ standard leaves undefined and that a run of the decoder
    can meet: following a null pointer, indexing outside a container. *)
Inductive Undefined : Type :=
  | NullDereference
  | OutOfRange.

Inductive Result (A : Type) : Type :=
  | Done (a : A)
  | Failed (s : Status)
  | UB (u : Undefined).
Arguments Done {A} a.
Arguments Failed {A} s.
Arguments UB {A} u.

(** The decoder object: [out_mesh_] is null exactly when a point cloud was
    requested; when set it points to the same object as [out_point_cloud_]. *)
Record PlyDecoder : Type := {
  out_mesh_ : bool;
  out_point_cloud_ : Geometry;
}.

Definition Dec (A : Type) : Type := PlyDecoder -> Result A * PlyDecoder.

Definition ret {A} (a : A) : Dec A := fun d => (Done a, d).
Definition bind {A B} (m : Dec A) (k : A -> Dec B) : Dec B :=
  fun d =>
    match m d with
    | (Done a, d') => k a d'
    | (Failed s, d') => (Failed s, d')
    | (UB u, d') => (UB u, d')
    end.
Definition fail {A} (c : Code) (msg : string) : Dec A :=
  fun d => (Failed (mkStatus c msg), d).
Definition undefined {A} (u : Undefined) : Dec A := fun d => (UB u, d).

Declare Scope dec_scope.
Delimit Scope dec_scope with dec.
Notation "x <- m ;; k" := (bind m (fun x => k))
  (at level 100, m at next level, right associativity) : dec_scope.
Notation "m ;;; k" := (bind m (fun _ => k))
  (at level 100, right associativity) : dec_scope.
Local Open Scope dec_scope.

(** [for (i = start; i < start + count; ++i) body], threading the loop
    variables [s]. *)
Fixpoint for_range {St : Type} (start count : nat)
    (body : nat -> St -> Dec St) (s : St) : Dec St :=
  match count with
  | O => ret s
  | S count' => s' <- body start s ;; for_range (S start) count' body s'
  end.

(** *** Operations on the output geometry *)

Definition update_geometry (f : Geometry -> Geometry) : Dec unit :=
  fun d => (Done tt, {| out_mesh_ := out_mesh_ d;
                        out_point_cloud_ := f (out_point_cloud_ d) |}).

(** Every [out_mesh_->] of the source. *)
Definition through_out_mesh (f : Geometry -> Geometry) : Dec unit :=
  fun d => if out_mesh_ d then update_geometry f d else (UB NullDereference, d).

Definition set_num_points (n : nat) : Dec unit :=
  update_geometry (fun g =>
    {| num_points := n; attributes := attributes g; faces := faces g |}).

(** Modelled from the spec: [Mesh::SetNumFaces] sizes the face list, new
    faces being default ones. *)
Definition SetNumFaces (n : Z) : Dec unit :=
  through_out_mesh (fun g =>
    {| num_points := num_points g; attributes := attributes g;
       faces := resize (Z.to_nat n) default_face (faces g) |}).

(** Modelled from the spec: [Mesh::SetFace] overwrites one face of the sized
    list; an index outside it is outside the vector. *)
Definition SetFace (face_index : nat) (face : Face) : Dec unit :=
  fun d =>
    if out_mesh_ d then
      if decide (face_index < length (faces (out_point_cloud_ d)))%nat then
        update_geometry (fun g =>
          {| num_points := num_points g; attributes := attributes g;
             faces := <[face_index := face]> (faces g) |}) d
      else (UB OutOfRange, d)
    else (UB NullDereference, d).

(** Modelled from the spec: [PointCloud::AddAttribute] allocates one new
    attribute with a buffer of [num_attribute_values] zeroed tuples and gives
    it the next free id. *)
Definition AddAttribute (va : GeometryAttribute) (identity : bool)
    (num_attribute_values : nat) : Dec nat :=
  fun d =>
    let g := out_point_cloud_ d in
    (Done (length (attributes g)),
     {| out_mesh_ := out_mesh_ d;
        out_point_cloud_ :=
          {| num_points := num_points g;
             attributes := attributes g ++
               [{| descriptor := va; identity_mapping := identity;
                   buffer := replicate num_attribute_values
                               (replicate (num_components va) 0) |}];
             faces := faces g |} |}).

Definition write_value (a : PointAttribute) (i : nat) (val : list Z)
    : PointAttribute :=
  {| descriptor := descriptor a; identity_mapping := identity_mapping a;
     buffer := <[i := take (num_components (descriptor a)) val]> (buffer a) |}.

(** [attribute(att_id)->SetAttributeValue(AttributeValueIndex(i), val)]: the
    first [num_components] entries of [val] (one stride) are copied to
    tuple [i] of the buffer. *)
Definition SetAttributeValue (att_id : nat) (i : nat) (val : list Z)
    : Dec unit :=
  fun d =>
    match attributes (out_point_cloud_ d) !! att_id with
    | Some a =>
        if decide (i < length (buffer a))%nat then
          update_geometry (fun g =>
            {| num_points := num_points g;
               attributes := <[att_id := write_value a i val]> (attributes g);
               faces := faces g |}) d
        else (UB OutOfRange, d)
    | None => (UB OutOfRange, d)
    end.

(** *** Property readers *)

(** Modelled from the spec: [PlyPropertyReader<T>] (ply_property_reader.h is
    not among the sources) reads the values of one property by index, as
    values of its read type [T].  It is built over a property pointer and
    reads through it, which is undefined when the property is absent. *)
Record PlyPropertyReader : Type := {
  read_type : DataType;
  property_ : PlyProperty;
}.

(** [PlyPropertyReader<T> reader(property)]. *)
Definition new_PlyPropertyReader (T : DataType) (property : option PlyProperty)
    : Dec PlyPropertyReader :=
  match property with
  | Some p => ret {| read_type := T; property_ := p |}
  | None => undefined NullDereference
  end.

(** Modelled from the spec: [ReadValue] takes the stored value, of the
    property's data type, and converts it to the read type with
    [static_cast].  The reader has a conversion from each of the eight types
    a PLY file can declare (the integer types of 8, 16 and 32 bits, float32
    and float64). *)
Definition ReadValue (r : PlyPropertyReader) (value_id : Z) : Z :=
  static_cast (data_type (property_ r)) (read_type r)
    (GetDataEntry (property_ r) value_id).

(** ** CountNumTriangles *)

(** The loop over the entries of the face element.  Entry counts are [int]s
    that are never negative and are kept in [nat]; list sizes and the sum are
    [int64_t], kept in [Z] (the sum stays far below 2^63 for any table that
    fits in memory). *)
Definition CountNumTriangles (face_element : PlyElement)
    (vertex_indices : PlyProperty) : Z :=
  fold_left
    (fun num_triangles i =>
       let list_size := GetListEntryNumValues vertex_indices i in
       if list_size <? 3 then num_triangles
       else num_triangles + (list_size - 2))
    (seq 0 (num_entries face_element)) 0.

(** ** PlyDecoder::DecodeFaceData *)

(** The loop variables of the polygon loop. *)
Record FaceLoop : Type := { face : Face; face_index : nat }.

(** The body of the triangle loop, [for (ti = 0; ti < num_triangles; ++ti)]:
    the inner loop on [c] sets [face[1]] and [face[2]], then the face is
    stored and [face_index] incremented. *)
Definition triangle_step (vertex_index_reader : PlyPropertyReader)
    (list_offset : Z) (ti : nat) (l : FaceLoop) : Dec FaceLoop :=
  let face' :=
    fold_left (fun f c =>
      face_set f c
        (PointIndex_of
           (ReadValue vertex_index_reader
              (static_cast_int (list_offset + Z.of_nat ti + c)))))
      [1; 2] (face l) in
  SetFace (face_index l) face' ;;;
  ret {| face := face'; face_index := S (face_index l) |}.

(** The body of the polygon loop, [for (i = 0; i < num_polygons; ++i)]. *)
Definition polygon_step (vertex_indices : PlyProperty)
    (vertex_index_reader : PlyPropertyReader) (i : nat) (l : FaceLoop)
    : Dec FaceLoop :=
  let list_offset := GetListEntryOffset vertex_indices i in
  let list_size := GetListEntryNumValues vertex_indices i in
  if list_size <? 3 then ret l
  else
    let num_triangles := list_size - 2 in
    let face0 :=
      face_set (face l) 0
        (PointIndex_of
           (ReadValue vertex_index_reader (static_cast_int list_offset))) in
    for_range 0 (Z.to_nat num_triangles)
      (triangle_step vertex_index_reader list_offset)
      {| face := face0; face_index := face_index l |}.

Definition DecodeFaceData (face_element : option PlyElement) : Dec unit :=
  match face_element with
  | None => ret tt
  | Some face_element =>
      let vertex_indices :=
        match GetPropertyByName face_element "vertex_indices" with
        | Some p => Some p
        | None => GetPropertyByName face_element "vertex_index"
        end in
      match vertex_indices with
      | None => fail DRACO_ERROR "No faces defined"
      | Some vi =>
          if negb (is_list vi) then fail DRACO_ERROR "No faces defined"
          else
            SetNumFaces (CountNumTriangles face_element vi) ;;;
            let num_polygons := num_entries face_element in
            vertex_index_reader <-
              new_PlyPropertyReader DT_UINT32 vertex_indices ;;
            l <- for_range 0 num_polygons
                   (polygon_step vi vertex_index_reader)
                   {| face := default_face; face_index := 0%nat |} ;;
            SetNumFaces (Z.of_nat (face_index l))
      end
  end.

(** ** PlyDecoder::ReadPropertiesToAttribute *)

Fixpoint new_readers (T : DataType) (properties : list (option PlyProperty))
    : Dec (list PlyPropertyReader) :=
  match properties with
  | [] => ret []
  | p :: ps =>
      r <- new_PlyPropertyReader T p ;;
      rs <- new_readers T ps ;;
      ret (r :: rs)
  end.

Definition ReadPropertiesToAttribute (T : DataType)
    (properties : list (option PlyProperty)) (attribute : nat)
    (num_vertices : nat) : Dec bool :=
  readers <- new_readers T properties ;;
  for_range 0 num_vertices (fun i _ =>
    let memory := map (fun r => ReadValue r (Z.of_nat i)) readers in
    SetAttributeValue attribute i memory) tt ;;;
  ret true.

(** ** PlyDecoder::DecodeVertexData *)

(** The blocks of [DecodeVertexData], in the order of the source; each takes
    the vertex element and [num_vertices]. *)

(** "Decode normals if present." *)
Definition decode_normals (vertex_element : PlyElement) (num_vertices : nat)
    : Dec unit :=
  let n_x_prop := GetPropertyByName vertex_element "nx" in
  let n_y_prop := GetPropertyByName vertex_element "ny" in
  let n_z_prop := GetPropertyByName vertex_element "nz" in
  match n_x_prop, n_y_prop, n_z_prop with
  | Some nx, Some ny, Some nz =>
      if decide (data_type nx = DT_FLOAT32 /\ data_type ny = DT_FLOAT32 /\
                 data_type nz = DT_FLOAT32) then
        x_reader <- new_PlyPropertyReader DT_FLOAT32 (Some nx) ;;
        y_reader <- new_PlyPropertyReader DT_FLOAT32 (Some ny) ;;
        z_reader <- new_PlyPropertyReader DT_FLOAT32 (Some nz) ;;
        let va := Init NORMAL 3 DT_FLOAT32 false (4 * 3) 0 in
        att_id <- AddAttribute va true num_vertices ;;
        for_range 0 num_vertices (fun i _ =>
          let val := [ReadValue x_reader (Z.of_nat i);
                      ReadValue y_reader (Z.of_nat i);
                      ReadValue z_reader (Z.of_nat i)] in
          SetAttributeValue att_id i val) tt
      else ret tt
  | _, _, _ => ret tt
  end.

(** "Decode fdcs if present." *)
Definition decode_fdc (vertex_element : PlyElement) (num_vertices : nat)
    : Dec unit :=
  let fdc0_prop := GetPropertyByName vertex_element "f_dc_0" in
  let fdc1_prop := GetPropertyByName vertex_element "f_dc_1" in
  let fdc2_prop := GetPropertyByName vertex_element "f_dc_2" in
  match fdc0_prop, fdc1_prop, fdc2_prop with
  | Some fdc0, Some fdc1, Some fdc2 =>
      if decide (data_type fdc0 = DT_FLOAT32 /\ data_type fdc1 = DT_FLOAT32 /\
                 data_type fdc2 = DT_FLOAT32) then
        fdc0_reader <- new_PlyPropertyReader DT_FLOAT32 (Some fdc0) ;;
        fdc1_reader <- new_PlyPropertyReader DT_FLOAT32 (Some fdc1) ;;
        fdc2_reader <- new_PlyPropertyReader DT_FLOAT32 (Some fdc2) ;;
        let va := Init FDC 3 DT_FLOAT32 false (4 * 3) 0 in
        att_id <- AddAttribute va true num_vertices ;;
        for_range 0 num_vertices (fun i _ =>
          let val := [ReadValue fdc0_reader (Z.of_nat i);
                      ReadValue fdc1_reader (Z.of_nat i);
                      ReadValue fdc2_reader (Z.of_nat i)] in
          SetAttributeValue att_id i val) tt
      else ret tt
  | _, _, _ => ret tt
  end.

(** The 45 names looked up for the coefficient bank, [f_rest_0] to
    [f_rest_44]. *)
Definition f_rest_names : list string :=
  ["f_rest_0"; "f_rest_1"; "f_rest_2"; "f_rest_3"; "f_rest_4"; "f_rest_5";
   "f_rest_6"; "f_rest_7"; "f_rest_8"; "f_rest_9"; "f_rest_10"; "f_rest_11";
   "f_rest_12"; "f_rest_13"; "f_rest_14"; "f_rest_15"; "f_rest_16";
   "f_rest_17"; "f_rest_18"; "f_rest_19"; "f_rest_20"; "f_rest_21";
   "f_rest_22"; "f_rest_23"; "f_rest_24"; "f_rest_25"; "f_rest_26";
   "f_rest_27"; "f_rest_28"; "f_rest_29"; "f_rest_30"; "f_rest_31";
   "f_rest_32"; "f_rest_33"; "f_rest_34"; "f_rest_35"; "f_rest_36";
   "f_rest_37"; "f_rest_38"; "f_rest_39"; "f_rest_40"; "f_rest_41";
   "f_rest_42"; "f_rest_43"; "f_rest_44"].

(** "Decode f_rest_0 to f_rest_44 if present."  Only the first three
    pointers are tested; the 45 readers are then built in order, each over
    the pointer its lookup returned, and no data type is tested. *)
Definition decode_frest (vertex_element : PlyElement) (num_vertices : nat)
    : Dec unit :=
  let f_rest_props := map (GetPropertyByName vertex_element) f_rest_names in
  let f_rest_0_prop := GetPropertyByName vertex_element "f_rest_0" in
  let f_rest_1_prop := GetPropertyByName vertex_element "f_rest_1" in
  let f_rest_2_prop := GetPropertyByName vertex_element "f_rest_2" in
  match f_rest_0_prop, f_rest_1_prop, f_rest_2_prop with
  | Some _, Some _, Some _ =>
      f_rest_readers <- new_readers DT_FLOAT32 f_rest_props ;;
      let va := Init FREST 45 DT_FLOAT32 false (4 * 45) 0 in
      att_id <- AddAttribute va true num_vertices ;;
      for_range 0 num_vertices (fun i _ =>
        let val := map (fun r => ReadValue r (Z.of_nat i)) f_rest_readers in
        SetAttributeValue att_id i val) tt
  | _, _, _ => ret tt
  end.

(** "Decode opacity if present" *)
Definition decode_opacity (vertex_element : PlyElement) (num_vertices : nat)
    : Dec unit :=
  let opacity_prop := GetPropertyByName vertex_element "opacity" in
  match opacity_prop with
  | Some opacity =>
      if decide (data_type opacity = DT_FLOAT32) then
        opacity_reader <- new_PlyPropertyReader DT_FLOAT32 (Some opacity) ;;
        let va := Init OPACITY 1 DT_FLOAT32 false (4 * 1) 0 in
        att_id <- AddAttribute va true num_vertices ;;
        for_range 0 num_vertices (fun i _ =>
          let val := [ReadValue opacity_reader (Z.of_nat i)] in
          SetAttributeValue att_id i val) tt
      else ret tt
  | None => ret tt
  end.

(** "Decode scales if present" *)
Definition decode_scale (vertex_element : PlyElement) (num_vertices : nat)
    : Dec unit :=
  let scale_0_prop := GetPropertyByName vertex_element "scale_0" in
  let scale_1_prop := GetPropertyByName vertex_element "scale_1" in
  let scale_2_prop := GetPropertyByName vertex_element "scale_2" in
  match scale_0_prop, scale_1_prop, scale_2_prop with
  | Some scale_0, Some scale_1, Some scale_2 =>
      if decide (data_type scale_0 = DT_FLOAT32 /\
                 data_type scale_1 = DT_FLOAT32 /\
                 data_type scale_2 = DT_FLOAT32) then
        scale_0_reader <- new_PlyPropertyReader DT_FLOAT32 (Some scale_0) ;;
        scale_1_reader <- new_PlyPropertyReader DT_FLOAT32 (Some scale_1) ;;
        scale_2_reader <- new_PlyPropertyReader DT_FLOAT32 (Some scale_2) ;;
        let va := Init SCALE 3 DT_FLOAT32 false (4 * 3) 0 in
        att_id <- AddAttribute va true num_vertices ;;
        for_range 0 num_vertices (fun i _ =>
          let val := [ReadValue scale_0_reader (Z.of_nat i);
                      ReadValue scale_1_reader (Z.of_nat i);
                      ReadValue scale_2_reader (Z.of_nat i)] in
          SetAttributeValue att_id i val) tt
      else ret tt
  | _, _, _ => ret tt
  end.

(** "Decode rots if present" *)
Definition decode_rot (vertex_element : PlyElement) (num_vertices : nat)
    : Dec unit :=
  let rot_0_prop := GetPropertyByName vertex_element "rot_0" in
  let rot_1_prop := GetPropertyByName vertex_element "rot_1" in
  let rot_2_prop := GetPropertyByName vertex_element "rot_2" in
  let rot_3_prop := GetPropertyByName vertex_element "rot_3" in
  match rot_0_prop, rot_1_prop, rot_2_prop, rot_3_prop with
  | Some rot_0, Some rot_1, Some rot_2, Some rot_3 =>
      if decide (data_type rot_0 = DT_FLOAT32 /\ data_type rot_1 = DT_FLOAT32 /\
                 data_type rot_2 = DT_FLOAT32 /\ data_type rot_3 = DT_FLOAT32)
      then
        rot_0_reader <- new_PlyPropertyReader DT_FLOAT32 (Some rot_0) ;;
        rot_1_reader <- new_PlyPropertyReader DT_FLOAT32 (Some rot_1) ;;
        rot_2_reader <- new_PlyPropertyReader DT_FLOAT32 (Some rot_2) ;;
        rot_3_reader <- new_PlyPropertyReader DT_FLOAT32 (Some rot_3) ;;
        let va := Init ROT 4 DT_FLOAT32 false (4 * 4) 0 in
        att_id <- AddAttribute va true num_vertices ;;
        for_range 0 num_vertices (fun i _ =>
          let val := [ReadValue rot_0_reader (Z.of_nat i);
                      ReadValue rot_1_reader (Z.of_nat i);
                      ReadValue rot_2_reader (Z.of_nat i);
                      ReadValue rot_3_reader (Z.of_nat i)] in
          SetAttributeValue att_id i val) tt
      else ret tt
  | _, _, _, _ => ret tt
  end.

(** One of the four channel steps of the colour block: a present channel must
    be of type uint8 (the debug-only [DRACO_DCHECK_EQ] before the test has no
    effect in a release build), and its reader is pushed on
    [color_readers]. *)
Definition push_color_reader (p : option PlyProperty) (message : string)
    (color_readers : list PlyPropertyReader) : Dec (list PlyPropertyReader) :=
  match p with
  | Some prop =>
      if decide (data_type prop <> DT_UINT8) then
        fail INVALID_PARAMETER message
      else
        r <- new_PlyPropertyReader DT_UINT8 (Some prop) ;;
        ret (color_readers ++ [r])
  | None => ret color_readers
  end.

Definition count_if_present (p : option PlyProperty) (num_colors : nat) : nat :=
  match p with
  | Some _ => S num_colors
  | None => num_colors
  end.

(** "Decode color data if present." *)
Definition decode_color (vertex_element : PlyElement) (num_vertices : nat)
    : Dec unit :=
  let num_colors := 0%nat in
  let r_prop := GetPropertyByName vertex_element "red" in
  let g_prop := GetPropertyByName vertex_element "green" in
  let b_prop := GetPropertyByName vertex_element "blue" in
  let a_prop := GetPropertyByName vertex_element "alpha" in
  let num_colors := count_if_present r_prop num_colors in
  let num_colors := count_if_present g_prop num_colors in
  let num_colors := count_if_present b_prop num_colors in
  let num_colors := count_if_present a_prop num_colors in
  if (num_colors =? 0)%nat then ret tt
  else
    color_readers <-
      push_color_reader r_prop "Type of 'red' property must be uint8" [] ;;
    color_readers <-
      push_color_reader g_prop "Type of 'green' property must be uint8"
        color_readers ;;
    color_readers <-
      push_color_reader b_prop "Type of 'blue' property must be uint8"
        color_readers ;;
    color_readers <-
      push_color_reader a_prop "Type of 'alpha' property must be uint8"
        color_readers ;;
    let va := Init COLOR num_colors DT_UINT8 true (1 * Z.of_nat num_colors) 0 in
    att_id <- AddAttribute va true num_vertices ;;
    for_range 0 num_vertices (fun i _ =>
      val <- for_range 0 num_colors (fun j val =>
               match color_readers !! j with
               | Some reader => ret (<[j := ReadValue reader (Z.of_nat i)]> val)
               | None => undefined OutOfRange
               end) [0; 0; 0; 0] ;;
      SetAttributeValue att_id i val) tt.

Definition DecodeVertexData (vertex_element : option PlyElement) : Dec unit :=
  match vertex_element with
  | None => fail INVALID_PARAMETER "vertex_element is null"
  | Some vertex_element =>
      let x_prop := GetPropertyByName vertex_element "x" in
      let y_prop := GetPropertyByName vertex_element "y" in
      let z_prop := GetPropertyByName vertex_element "z" in
      match x_prop, y_prop, z_prop with
      | Some x, Some y, Some z =>
          let num_vertices := num_entries vertex_element in
          set_num_points num_vertices ;;;
          (* Decode vertex positions. *)
          (if decide (data_type x <> data_type y \/
                      data_type y <> data_type z) then
             fail INVALID_PARAMETER
               "x, y, and z properties must have the same type"
           else
             let dt := data_type x in
             if decide (dt <> DT_FLOAT32 /\ dt <> DT_INT32) then
               fail INVALID_PARAMETER
                 "x, y, and z properties must be of type float32 or int32"
             else
               let va := Init POSITION 3 dt false (DataTypeLength dt * 3) 0 in
               att_id <- AddAttribute va true num_vertices ;;
               let properties := [Some x; Some y; Some z] in
               if decide (dt = DT_FLOAT32) then
                 ReadPropertiesToAttribute DT_FLOAT32 properties att_id
                   num_vertices ;;; ret tt
               else if decide (dt = DT_INT32) then
                 ReadPropertiesToAttribute DT_INT32 properties att_id
                   num_vertices ;;; ret tt
               else ret tt) ;;;
          decode_normals vertex_element num_vertices ;;;
          decode_fdc vertex_element num_vertices ;;;
          decode_frest vertex_element num_vertices ;;;
          decode_opacity vertex_element num_vertices ;;;
          decode_scale vertex_element num_vertices ;;;
          decode_rot vertex_element num_vertices ;;;
          decode_color vertex_element num_vertices
      | _, _, _ =>
          fail INVALID_PARAMETER "x, y, or z property is missing"
      end
  end.

(** ** PlyDecoder::DecodeInternal *)

(** Modelled from the spec: the optional deduplication pass, an external
    capability.  Each of its two steps is compiled in or not
    ([DRACO_ATTRIBUTE_VALUES_DEDUPLICATION_SUPPORTED],
    [DRACO_ATTRIBUTE_INDICES_DEDUPLICATION_SUPPORTED]); the first one can
    report a failure. *)
Record Deduplication : Type := {
  values_deduplication_supported : bool;
  DeduplicateAttributeValues : Geometry -> bool * Geometry;
  indices_deduplication_supported : bool;
  DeduplicatePointIds : Geometry -> Geometry;
}.

(** The last step of [DecodeInternal]: "In case there are no faces this is
    just a point cloud which does not require deduplication." *)
Definition deduplicate (cfg : Deduplication) : Dec unit :=
  fun d =>
    if out_mesh_ d && negb (num_faces (out_point_cloud_ d) =? 0)%nat then
      ((if values_deduplication_supported cfg then
          fun d =>
            let '(ok, g) := DeduplicateAttributeValues cfg (out_point_cloud_ d) in
            let d' := {| out_mesh_ := out_mesh_ d; out_point_cloud_ := g |} in
            if ok then (Done tt, d')
            else fail DRACO_ERROR "Could not deduplicate attribute values" d'
        else ret tt) ;;;
       (if indices_deduplication_supported cfg then
          update_geometry (DeduplicatePointIds cfg)
        else ret tt)) d
    else (Done tt, d).

(** [DecodeInternal], given what [ply_reader.Read(buffer())] returned: an
    error status, or the parsed table. *)
Definition DecodeInternal (cfg : Deduplication) (Read : Status + PlyReader)
    : Dec unit :=
  match Read with
  | inl status => fun d => (Failed status, d)
  | inr ply_reader =>
      (* First, decode the connectivity data. *)
      (fun d =>
         if out_mesh_ d then
           DecodeFaceData (GetElementByName ply_reader "face") d
         else (Done tt, d)) ;;;
      (* Decode all attributes. *)
      DecodeVertexData (GetElementByName ply_reader "vertex") ;;;
      deduplicate cfg
  end.

(** ** The entry points: DecodeFromBuffer and DecodeFromFile *)

(** The decoder holds two pointers; the embedding holds the object
    [out_point_cloud_] points to and whether [out_mesh_] is set, a set
    [out_mesh_] standing for a pointer to that same object.  This is the
    state of a decoder from its construction on, as long as it is not given
    a mesh first and another output object later (the point cloud overloads
    leave [out_mesh_] alone, so it would go on pointing to the earlier
    mesh); such a reuse is outside the embedding. *)

(** [DecodeFromBuffer(buffer, PointCloud *out_point_cloud)]; [Read] is what
    the parser returns on the buffer. *)
Definition DecodeFromBuffer_PointCloud (cfg : Deduplication)
    (Read : Status + PlyReader) (out_point_cloud : Geometry) : Dec unit :=
  fun d =>
    DecodeInternal cfg Read
      {| out_mesh_ := out_mesh_ d; out_point_cloud_ := out_point_cloud |}.

(** [DecodeFromBuffer(buffer, Mesh *out_mesh)] sets [out_mesh_] and goes on
    with the point cloud overload on the same object. *)
Definition DecodeFromBuffer_Mesh (cfg : Deduplication)
    (Read : Status + PlyReader) (out_mesh : Geometry) : Dec unit :=
  fun d =>
    DecodeFromBuffer_PointCloud cfg Read out_mesh
      {| out_mesh_ := true; out_point_cloud_ := out_point_cloud_ d |}.

(** [DecodeFromFile(file_name, PointCloud *out_point_cloud)].
    [ReadFileToBuffer] is what reading the file gives, [None] when it cannot
    be read, and [Read] is the parser on the bytes read. *)
Definition DecodeFromFile_PointCloud (cfg : Deduplication)
    (ReadFileToBuffer : string -> option (list Z))
    (Read : list Z -> Status + PlyReader) (file_name : string)
    (out_point_cloud : Geometry) : Dec unit :=
  fun d =>
    match ReadFileToBuffer file_name with
    | None => fail DRACO_ERROR "Unable to read input file." d
    | Some data =>
        DecodeFromBuffer_PointCloud cfg (Read data) out_point_cloud d
    end.

(** [DecodeFromFile(file_name, Mesh *out_mesh)]. *)
Definition DecodeFromFile_Mesh (cfg : Deduplication)
    (ReadFileToBuffer : string -> option (list Z))
    (Read : list Z -> Status + PlyReader) (file_name : string)
    (out_mesh : Geometry) : Dec unit :=
  fun d =>
    DecodeFromFile_PointCloud cfg ReadFileToBuffer Read file_name out_mesh
      {| out_mesh_ := true; out_point_cloud_ := out_point_cloud_ d |}.

(** ** Building concrete property tables *)

Definition read_list (vals : list Z) (value_id : Z) : Z :=
  if value_id <? 0 then 0 else nth (Z.to_nat value_id) vals 0.

(** A scalar property holding [vals], one value per entry. *)
Definition scalar_property (dt : DataType) (vals : list Z) : PlyProperty :=
  {| data_type := dt; is_list := false;
     GetListEntryOffset := fun _ => 0;
     GetListEntryNumValues := fun _ => 0;
     GetDataEntry := read_list vals |}.

(** A list-valued property holding one value list per entry, stored one
    after the other. *)
Definition list_property (dt : DataType) (lists : list (list Z))
    : PlyProperty :=
  {| data_type := dt; is_list := true;
     GetListEntryOffset := fun i => Z.of_nat (length (concat (take i lists)));
     GetListEntryNumValues := fun i => Z.of_nat (length (nth i lists []));
     GetDataEntry := read_list (concat lists) |}.

Fixpoint lookup_property (props : list (string * PlyProperty)) (name : string)
    : option PlyProperty :=
  match props with
  | [] => None
  | (k, p) :: rest =>
      match lookup_property rest name with
      | Some q => Some q
      | None => if String.eqb k name then Some p else None
      end
  end.

Definition element (entries : nat) (props : list (string * PlyProperty))
    : PlyElement :=
  {| num_entries := entries; GetPropertyByName := lookup_property props |}.

Definition new_decoder (mesh : bool) : PlyDecoder :=
  {| out_mesh_ := mesh; out_point_cloud_ := empty_geometry |}.

(** ** Sample inputs *)

(** A face element of three polygons, the second one degenerate. *)
Definition sample_indices : PlyProperty :=
  list_property DT_INT32 [[10; 11; 12; 13; 14]; [1; 2]; [5; 6; 7]].

Definition sample_faces : PlyElement :=
  element 3 [("vertex_indices", sample_indices)].

(** A face element whose only property is a scalar one. *)
Definition sample_no_list : PlyElement :=
  element 2 [("vertex_indices", scalar_property DT_INT32 [0; 1])].

Definition sample_xyz (dt : DataType) : list (string * PlyProperty) :=
  [("x", scalar_property dt [1; 2]); ("y", scalar_property dt [3; 4]);
   ("z", scalar_property dt [5; 6])].

Definition sample_red_blue : PlyElement :=
  element 2 (sample_xyz DT_FLOAT32 ++
             [("red", scalar_property DT_UINT8 [7; 8]);
              ("blue", scalar_property DT_UINT8 [9; 10])]).

Definition sample_groups : PlyElement :=
  element 2 (sample_xyz DT_FLOAT32 ++
             [("red", scalar_property DT_UINT8 [7; 8]);
              ("opacity", scalar_property DT_FLOAT32 [20; 21]);
              ("nx", scalar_property DT_FLOAT32 [30; 31]);
              ("ny", scalar_property DT_FLOAT32 [32; 33]);
              ("nz", scalar_property DT_FLOAT32 [34; 35])]).

Definition sample_red_float : PlyElement :=
  element 2 (sample_xyz DT_FLOAT32 ++
             [("red", scalar_property DT_FLOAT32 [7; 8])]).

Definition sample_partial_bank : PlyElement :=
  element 2 (sample_xyz DT_FLOAT32 ++
             [("f_rest_0", scalar_property DT_FLOAT32 [1; 2]);
              ("f_rest_1", scalar_property DT_FLOAT32 [3; 4]);
              ("f_rest_2", scalar_property DT_FLOAT32 [5; 6])]).

(** A vertex element whose colour-DC group and whose complete coefficient
    bank are of type int32. *)
Definition sample_bank_int32 : PlyElement :=
  element 1 ([("x", scalar_property DT_FLOAT32 [1]);
              ("y", scalar_property DT_FLOAT32 [2]);
              ("z", scalar_property DT_FLOAT32 [3]);
              ("f_dc_0", scalar_property DT_INT32 [4]);
              ("f_dc_1", scalar_property DT_INT32 [5]);
              ("f_dc_2", scalar_property DT_INT32 [6])] ++
             map (fun name => (name, scalar_property DT_INT32 [7]))
               f_rest_names).

Definition sample_empty_red_float : PlyElement :=
  element 0 [("x", scalar_property DT_FLOAT32 []);
             ("y", scalar_property DT_FLOAT32 []);
             ("z", scalar_property DT_FLOAT32 []);
             ("red", scalar_property DT_FLOAT32 [])].

Definition sample_empty : PlyElement :=
  element 0 [("x", scalar_property DT_INT32 []);
             ("y", scalar_property DT_INT32 []);
             ("z", scalar_property DT_INT32 []);
             ("opacity", scalar_property DT_FLOAT32 []);
             ("green", scalar_property DT_UINT8 [])].

(** A face element with a scalar [vertex_indices] and a list-valued
    [vertex_index]. *)
Definition sample_both_names : PlyElement :=
  element 1 [("vertex_indices", scalar_property DT_INT32 [0]);
             ("vertex_index", list_property DT_INT32 [[0; 1; 2]])].

(** A face element whose index lists go under the name [vertex_index]. *)
Definition sample_vertex_index : PlyElement :=
  element 3 [("vertex_index", sample_indices)].

(** A face element whose polygons all have fewer than three indices. *)
Definition sample_degenerate : PlyElement :=
  element 2 [("vertex_indices", list_property DT_INT32 [[4; 5]; [6]])].

(** A vertex element with properties the decoder does not know. *)
Definition sample_unknown : PlyElement :=
  element 2 (sample_xyz DT_FLOAT32 ++
             [("confidence", scalar_property DT_FLOAT32 [40; 41]);
              ("intensity", scalar_property DT_UINT8 [50; 51])]).

Definition sample_only_xyz : PlyElement :=
  element 2 (sample_xyz DT_FLOAT32).

(** A vertex element with a complete float32 coefficient bank; property
    [f_rest_k] holds [100 + k] and [200 + k]. *)
Definition sample_bank : PlyElement :=
  element 2 (sample_xyz DT_FLOAT32 ++
             map (fun k => (nth k f_rest_names "",
                            scalar_property DT_FLOAT32
                              [100 + Z.of_nat k; 200 + Z.of_nat k]))
               (seq 0 45)).

(** A vertex element that has every bank property but [f_rest_0]. *)
Definition sample_bank_headless : PlyElement :=
  element 2 (sample_xyz DT_FLOAT32 ++
             map (fun name => (name, scalar_property DT_FLOAT32 [1; 2]))
               (drop 1 f_rest_names)).

(** A vertex element whose green and alpha channels are of a wrong type. *)
Definition sample_green_alpha : PlyElement :=
  element 2 (sample_xyz DT_FLOAT32 ++
             [("red", scalar_property DT_UINT8 [7; 8]);
              ("green", scalar_property DT_UINT16 [9; 10]);
              ("alpha", scalar_property DT_FLOAT32 [11; 12])]).


(** A table with a vertex element only, and one with degenerate polygons. *)
Definition sample_cloud_table : PlyReader :=
  {| GetElementByName := fun name =>
       if String.eqb name "vertex" then Some sample_groups else None |}.

Definition sample_degenerate_table : PlyReader :=
  {| GetElementByName := fun name =>
       if String.eqb name "vertex" then Some sample_groups
       else if String.eqb name "face" then Some sample_degenerate
       else None |}.

(** A table with a face element and no vertex element. *)
Definition sample_faces_only_table : PlyReader :=
  {| GetElementByName := fun name =>
       if String.eqb name "face" then Some sample_faces else None |}.

(** A deduplication pass that is compiled in and changes nothing. *)
Definition sample_deduplication : Deduplication :=
  {| values_deduplication_supported := true;
     DeduplicateAttributeValues := fun g => (true, g);
     indices_deduplication_supported := true;
     DeduplicatePointIds := fun g => g |}.

(** A file system with no readable file, and a parser. *)
Definition sample_no_file : string -> option (list Z) := fun _ => None.

Definition sample_parser : list Z -> Status + PlyReader :=
  fun _ => inr sample_cloud_table.

(** * Definitions used in the statements *)

(** ** Decoder states *)

(** The decoder [d] with its output geometry given the attributes [atts]. *)
Definition with_attributes (atts : list PointAttribute) (d : PlyDecoder)
    : PlyDecoder :=
  {| out_mesh_ := out_mesh_ d;
     out_point_cloud_ :=
       {| num_points := num_points (out_point_cloud_ d);
          attributes := atts;
          faces := faces (out_point_cloud_ d) |} |}.

Definition add_attributes (new : list PointAttribute) (d : PlyDecoder)
    : PlyDecoder :=
  with_attributes (attributes (out_point_cloud_ d) ++ new) d.

Definition with_num_points (n : nat) (d : PlyDecoder) : PlyDecoder :=
  {| out_mesh_ := out_mesh_ d;
     out_point_cloud_ :=
       {| num_points := n;
          attributes := attributes (out_point_cloud_ d);
          faces := faces (out_point_cloud_ d) |} |}.

Definition with_faces (fs : list Face) (d : PlyDecoder) : PlyDecoder :=
  {| out_mesh_ := out_mesh_ d;
     out_point_cloud_ :=
       {| num_points := num_points (out_point_cloud_ d);
          attributes := attributes (out_point_cloud_ d);
          faces := fs |} |}.

(** The attribute a matched group leaves in the geometry: descriptor [va],
    and for each of the [n] vertices the first [num_components] entries of
    the tuple [vals i]. *)
Definition filled (va : GeometryAttribute) (n : nat) (vals : nat -> list Z)
    : PointAttribute :=
  {| descriptor := va; identity_mapping := true;
     buffer := map (fun i => take (num_components va) (vals i)) (seq 0 n) |}.

Definition semantic (a : PointAttribute) : AttributeType :=
  attribute_type (descriptor a).

(** ** The schema of the vertex attribute groups *)

(** All the properties of a group, when none is absent. *)
Fixpoint all_present (props : list (option PlyProperty))
    : option (list PlyProperty) :=
  match props with
  | [] => Some []
  | Some p :: rest =>
      match all_present rest with
      | Some ps => Some (p :: ps)
      | None => None
      end
  | None :: _ => None
  end.

(** The interleaved tuple of vertex [i]: the value of each property of the
    group at entry [i], in the order of the group. *)
Definition tuple_of (props : list PlyProperty) (i : nat) : list Z :=
  map (fun p => GetDataEntry p (Z.of_nat i)) props.

(** The same tuple as readers of type [T] give it: each value converted to
    [T]. *)
Definition tuple_as (T : DataType) (props : list PlyProperty) (i : nat)
    : list Z :=
  map (fun p => static_cast (data_type p) T (GetDataEntry p (Z.of_nat i)))
    props.

Definition all_float32 (props : list PlyProperty) : bool :=
  forallb (fun p => bool_decide (data_type p = DT_FLOAT32)) props.

(** An optional group with required properties [names], all of type float32:
    the attribute it contributes, if any. *)
Definition float_group (sem : AttributeType) (names : list string)
    (ve : PlyElement) : list PointAttribute :=
  match all_present (map (GetPropertyByName ve) names) with
  | Some ps =>
      if all_float32 ps then
        [filled (Init sem (length names) DT_FLOAT32 false
                   (4 * Z.of_nat (length names)) 0)
           (num_entries ve) (tuple_of ps)]
      else []
  | None => []
  end.

Definition normal_names : list string := ["nx"; "ny"; "nz"].
Definition fdc_names : list string := ["f_dc_0"; "f_dc_1"; "f_dc_2"].
Definition opacity_names : list string := ["opacity"].
Definition scale_names : list string := ["scale_0"; "scale_1"; "scale_2"].
Definition rot_names : list string := ["rot_0"; "rot_1"; "rot_2"; "rot_3"].
Definition color_names : list string := ["red"; "green"; "blue"; "alpha"].

(** The type of the position group: the common type of [x], [y], [z] when all
    three are present, agree, and are float32 or int32. *)
Definition position_type (ve : PlyElement) : option DataType :=
  match GetPropertyByName ve "x", GetPropertyByName ve "y",
        GetPropertyByName ve "z" with
  | Some x, Some y, Some z =>
      if bool_decide (data_type x = data_type y) &&
         bool_decide (data_type y = data_type z) &&
         (bool_decide (data_type x = DT_FLOAT32) ||
          bool_decide (data_type x = DT_INT32))
      then Some (data_type x) else None
  | _, _, _ => None
  end.

Definition position_group (ve : PlyElement) : list PointAttribute :=
  match position_type ve,
        all_present (map (GetPropertyByName ve) ["x"; "y"; "z"]) with
  | Some dt, Some ps =>
      [filled (Init POSITION 3 dt false (DataTypeLength dt * 3) 0)
         (num_entries ve) (tuple_of ps)]
  | _, _ => []
  end.

(** The coefficient bank as the code decodes it: the 45 properties present,
    whatever their type, read as float32 values. *)
Definition frest_group (ve : PlyElement) : list PointAttribute :=
  match all_present (map (GetPropertyByName ve) f_rest_names) with
  | Some ps =>
      [filled (Init FREST 45 DT_FLOAT32 false (4 * 45) 0)
         (num_entries ve) (tuple_as DT_FLOAT32 ps)]
  | None => []
  end.

(** The presence test of the bank: its first three properties. *)
Definition frest_committed (ve : PlyElement) : bool :=
  match GetPropertyByName ve "f_rest_0", GetPropertyByName ve "f_rest_1",
        GetPropertyByName ve "f_rest_2" with
  | Some _, Some _, Some _ => true
  | _, _, _ => false
  end.

(** The bank is complete when none of its 45 properties is absent. *)
Definition frest_complete (ve : PlyElement) : bool :=
  match all_present (map (GetPropertyByName ve) f_rest_names) with
  | Some _ => true
  | None => false
  end.

(** The colour channels present, in the order red, green, blue, alpha. *)
Definition color_channels (ve : PlyElement) : list PlyProperty :=
  omap (GetPropertyByName ve) color_names.

Definition all_uint8 (props : list PlyProperty) : bool :=
  forallb (fun p => bool_decide (data_type p = DT_UINT8)) props.

Definition color_group (ve : PlyElement) : list PointAttribute :=
  match color_channels ve with
  | [] => []
  | ch =>
      [filled (Init COLOR (length ch) DT_UINT8 true
                 (1 * Z.of_nat (length ch)) 0)
         (num_entries ve) (tuple_of ch)]
  end.

Definition color_messages : list string :=
  ["Type of 'red' property must be uint8";
   "Type of 'green' property must be uint8";
   "Type of 'blue' property must be uint8";
   "Type of 'alpha' property must be uint8"].

(** The message of the colour check: that of the first channel, in the order
    red, green, blue, alpha, which is present with a type other than uint8. *)
Definition color_error (ve : PlyElement) : option string :=
  head (omap (fun '(name, message) =>
                match GetPropertyByName ve name with
                | Some p =>
                    if bool_decide (data_type p = DT_UINT8) then None
                    else Some message
                | None => None
                end) (zip color_names color_messages)).

Definition optional_groups (ve : PlyElement) : list PointAttribute :=
  float_group NORMAL normal_names ve ++ float_group FDC fdc_names ve ++
  frest_group ve ++ float_group OPACITY opacity_names ve ++
  float_group SCALE scale_names ve ++ float_group ROT rot_names ve.

(** The bank does not send the decode through an absent property: either it
    is not committed to, or it is complete. *)
Definition frest_safe (ve : PlyElement) : bool :=
  implb (frest_committed ve) (frest_complete ve).

(** ** The triangles of the face assembler *)

(** The reader [DecodeFaceData] builds over the index-list property. *)
Definition reader_of (vi : PlyProperty) : PlyPropertyReader :=
  {| read_type := DT_UINT32; property_ := vi |}.

(** The point index that reader gives for the value at [value_id]. *)
Definition index_at (vi : PlyProperty) (value_id : Z) : PointIndex :=
  PointIndex_of (ReadValue (reader_of vi) value_id).

(** The triangles the polygon loop writes for entry [i], as the reads the
    source performs. *)
Definition emitted (vi : PlyProperty) (i : nat) : list Face :=
  let list_offset := GetListEntryOffset vi i in
  let list_size := GetListEntryNumValues vi i in
  if list_size <? 3 then []
  else
    map (fun ti =>
           (index_at vi (static_cast_int list_offset),
            index_at vi (static_cast_int (list_offset + Z.of_nat ti + 1)),
            index_at vi (static_cast_int (list_offset + Z.of_nat ti + 2))))
      (seq 0 (Z.to_nat (list_size - 2))).

(** The number of triangles of a polygon of [list_size] indices. *)
Definition triangles_of_size (list_size : Z) : Z :=
  if list_size <? 3 then 0 else list_size - 2.

Definition list_sizes (fe : PlyElement) (vi : PlyProperty) : list Z :=
  map (GetListEntryNumValues vi) (seq 0 (num_entries fe)).

Definition sum_Z (l : list Z) : Z := fold_right Z.add 0 l.

(** Triangle [ti] of the polygon whose values start at [list_offset], as the
    reads the source performs. *)
Definition triangle (vi : PlyProperty) (list_offset : Z) (ti : nat) : Face :=
  (index_at vi (static_cast_int list_offset),
   index_at vi (static_cast_int (list_offset + Z.of_nat ti + 1)),
   index_at vi (static_cast_int (list_offset + Z.of_nat ti + 2))).

(** The index-list property of the face element: [vertex_indices], or, when
    there is no property of that name, [vertex_index]. *)
Definition face_indices_property (fe : PlyElement) : option PlyProperty :=
  match GetPropertyByName fe "vertex_indices" with
  | Some p => Some p
  | None => GetPropertyByName fe "vertex_index"
  end.

(** ** Fan triangulation *)

(** The index list of polygon entry [i] of a property of an integer type:
    its values, from the entry's offset on, each as a 32-bit unsigned point
    index. *)
Definition polygon (vi : PlyProperty) (i : nat) : list PointIndex :=
  map (fun k =>
         PointIndex_of (GetDataEntry vi (GetListEntryOffset vi i + Z.of_nat k)))
    (seq 0 (Z.to_nat (GetListEntryNumValues vi i))).

(** Fan triangulation of an index list of length L: L - 2 triangles,
    triangle [t] made of the first index and the indices at offsets [t + 1]
    and [t + 2]; none for a list of fewer than three indices. *)
Definition fan_triangulation (poly : list PointIndex) : list Face :=
  map (fun t => (nth 0 poly (PointIndex_of 0),
                 nth (t + 1) poly (PointIndex_of 0),
                 nth (t + 2) poly (PointIndex_of 0)))
    (seq 0 (length poly - 2)).

(** The integer types a PLY file can declare: [char], [uchar], [short],
    [ushort], [int] and [uint]. *)
Definition ply_integer (dt : DataType) : bool :=
  match dt with
  | DT_INT8 | DT_UINT8 | DT_INT16 | DT_UINT16 | DT_INT32 | DT_UINT32 => true
  | _ => false
  end.

(** The index-list property has one of these integer types. *)
Definition integer_indices (vi : PlyProperty) : Prop :=
  ply_integer (data_type vi) = true.

(** The face of three indices given as numerals. *)
Definition face_of (a b c : Z) : Face :=
  (PointIndex_of a, PointIndex_of b, PointIndex_of c).

(** The three indices of a face, as numerals. *)
Definition face_values (f : Face) : Z * Z * Z :=
  (value f.1.1, value f.1.2, value f.2).

(** The values a 32-bit unsigned integer can hold. *)
Definition fits_uint32 (z : Z) : Prop := 0 <= z < 2 ^ 32.

(** The values of every polygon that is triangulated lie at indices a 32-bit
    [int] can hold. *)
Definition indices_fit_int (fe : PlyElement) (vi : PlyProperty) : Prop :=
  forall i, (i < num_entries fe)%nat ->
    3 <= GetListEntryNumValues vi i ->
    - 2 ^ 31 <= GetListEntryOffset vi i /\
    GetListEntryOffset vi i + GetListEntryNumValues vi i <= 2 ^ 31.

(** ** The scan order of the groups *)

(** The groups in the order [DecodeVertexData] scans them. *)
Definition scan_order : list AttributeType :=
  [POSITION; NORMAL; FDC; FREST; OPACITY; SCALE; ROT; COLOR].

(** A float32 group matches when its required properties are all present and
    all of type float32. *)
Definition float_matched (names : list string) (ve : PlyElement) : bool :=
  match all_present (map (GetPropertyByName ve) names) with
  | Some ps => all_float32 ps
  | None => false
  end.

(** The groups that match on a vertex element, by the tests the code makes:
    the position group when its type is valid, a float32 group when present
    and float32, the coefficient bank when its first three properties are
    present, the colour group when a channel is present. *)
Definition group_matched (ve : PlyElement) (sem : AttributeType) : bool :=
  match sem with
  | POSITION => match position_type ve with Some _ => true | None => false end
  | NORMAL => float_matched normal_names ve
  | FDC => float_matched fdc_names ve
  | FREST => frest_committed ve
  | OPACITY => float_matched opacity_names ve
  | SCALE => float_matched scale_names ve
  | ROT => float_matched rot_names ve
  | COLOR => match color_channels ve with [] => false | _ => true end
  | _ => false
  end.

(** The attributes a successful decode adds. *)
Definition decoded_groups (ve : PlyElement) : list PointAttribute :=
  position_group ve ++ optional_groups ve ++ color_group ve.

(** ** Effects and errors of the decoder *)

(** The point count after a run that set it, or did not. *)
Definition maybe_points (n : option nat) (d : PlyDecoder) : PlyDecoder :=
  match n with
  | Some k => with_num_points k d
  | None => d
  end.

(** The float32 groups with their required properties, in scan order. *)
Definition float_groups : list (AttributeType * list string) :=
  [(NORMAL, normal_names); (FDC, fdc_names); (OPACITY, opacity_names);
   (SCALE, scale_names); (ROT, rot_names)].

(** The statuses [DecodeFaceData], [DecodeVertexData] and the deduplication
    step of [DecodeInternal] build. *)
Definition decoder_errors : list Status :=
  [mkStatus DRACO_ERROR "No faces defined";
   mkStatus INVALID_PARAMETER "vertex_element is null";
   mkStatus INVALID_PARAMETER "x, y, or z property is missing";
   mkStatus INVALID_PARAMETER "x, y, and z properties must have the same type";
   mkStatus INVALID_PARAMETER
     "x, y, and z properties must be of type float32 or int32";
   mkStatus INVALID_PARAMETER "Type of 'red' property must be uint8";
   mkStatus INVALID_PARAMETER "Type of 'green' property must be uint8";
   mkStatus INVALID_PARAMETER "Type of 'blue' property must be uint8";
   mkStatus INVALID_PARAMETER "Type of 'alpha' property must be uint8";
   mkStatus DRACO_ERROR "Could not deduplicate attribute values"].

(** An attribute whose buffer agrees with its descriptor for [n] points:
    [n] tuples of [num_components] values each, identity mapping, a stride of
    [num_components] values of the data type and no offset. *)
Definition attribute_sized (n : nat) (a : PointAttribute) : Prop :=
  length (buffer a) = n /\
  Forall (fun t => length t = num_components (descriptor a)) (buffer a) /\
  identity_mapping a = true /\
  byte_stride (descriptor a) =
    DataTypeLength (att_data_type (descriptor a)) *
    Z.of_nat (num_components (descriptor a)) /\
  byte_offset (descriptor a) = 0.

(** The property names [DecodeVertexData] looks up. *)
Definition recognised_names : list string :=
  ["x"; "y"; "z"] ++ normal_names ++ fdc_names ++ f_rest_names ++
  opacity_names ++ scale_names ++ rot_names ++ color_names.

(** The names of the optional groups. *)
Definition optional_names : list string :=
  normal_names ++ fdc_names ++ f_rest_names ++ opacity_names ++
  scale_names ++ rot_names ++ color_names.

(** * Properties *)

(** ** Describing runs *)

Lemma add_attributes_nil d : add_attributes [] d = d.
Proof.
  destruct d as [m [np atts fs]]. unfold add_attributes, with_attributes.
  simpl. now rewrite app_nil_r.
Qed.

Lemma add_attributes_add l1 l2 d :
  add_attributes l2 (add_attributes l1 d) = add_attributes (l1 ++ l2) d.
Proof.
  unfold add_attributes, with_attributes. simpl. now rewrite app_assoc.
Qed.

Lemma attributes_add_attributes l d :
  attributes (out_point_cloud_ (add_attributes l d)) =
  attributes (out_point_cloud_ d) ++ l.
Proof. reflexivity. Qed.

Lemma for_range_ext {St : Type} (body1 body2 : nat -> St -> Dec St) :
  (forall i s d, body1 i s d = body2 i s d) ->
  forall count start s d,
    for_range start count body1 s d = for_range start count body2 s d.
Proof.
  intros Hext count. induction count as [|count IH]; intros start s d.
  - reflexivity.
  - simpl. unfold bind. rewrite Hext.
    destruct (body2 start s d) as [[s'| |] d']; auto.
Qed.

(** The per-vertex loop writes tuple after tuple: after [start] iterations
    the first [start] tuples of the buffer are final. *)
Lemma fill_loop (att_id : nat) (vals : nat -> list Z) :
  forall count start a d pre post,
    attributes (out_point_cloud_ d) !! att_id = Some a ->
    buffer a = pre ++ post ->
    length pre = start ->
    length post = count ->
    for_range start count
      (fun i _ => SetAttributeValue att_id i (vals i)) tt d =
    (Done tt,
     with_attributes
       (<[att_id :=
            {| descriptor := descriptor a;
               identity_mapping := identity_mapping a;
               buffer := pre ++ map (fun i =>
                           take (num_components (descriptor a)) (vals i))
                           (seq start count) |}]>
          (attributes (out_point_cloud_ d))) d).
Proof.
  induction count as [|count IH]; intros start a d pre post Hlook Hbuf Hpre Hpost.
  - destruct post; [|discriminate]. simpl. unfold ret. f_equal.
    rewrite !app_nil_r in *. rewrite <- Hbuf.
    destruct d as [m [np atts fs]]. unfold with_attributes. simpl in *.
    rewrite list_insert_id; [reflexivity|].
    rewrite Hlook. now destruct a.
  - destruct post as [|x post]; [discriminate|].
    simpl in Hpost. injection Hpost as Hpost.
    simpl. unfold bind at 1. unfold SetAttributeValue at 1. rewrite Hlook.
    rewrite Hbuf. rewrite decide_True by (rewrite length_app; simpl; lia).
    unfold update_geometry.
    set (a1 := write_value a start (vals start)).
    set (d1 := {| out_mesh_ := out_mesh_ d; out_point_cloud_ := _ |}).
    assert (Hlt : (att_id < length (attributes (out_point_cloud_ d)))%nat)
      by (eapply lookup_lt_Some; eauto).
    rewrite (IH (S start) a1 d1 (pre ++ [take (num_components (descriptor a))
                                          (vals start)]) post).
    + f_equal. unfold with_attributes, d1. simpl.
      rewrite list_insert_insert_eq. rewrite <- app_assoc. reflexivity.
    + unfold d1. simpl. now apply list_lookup_insert_eq.
    + unfold a1, write_value. simpl. rewrite Hbuf.
      rewrite <- Hpre. rewrite insert_app_r_alt by lia.
      rewrite Nat.sub_diag. simpl. now rewrite <- app_assoc.
    + rewrite length_app. simpl. lia.
    + exact Hpost.
Qed.

(** Allocating an attribute and running the per-vertex loop over it leaves
    exactly one new, filled attribute at the end of the attribute list. *)
Lemma add_and_fill (va : GeometryAttribute) (n : nat) (vals : nat -> list Z)
    (d : PlyDecoder) :
  (att_id <- AddAttribute va true n ;;
   for_range 0 n (fun i _ => SetAttributeValue att_id i (vals i)) tt) d =
  (Done tt, add_attributes [filled va n vals] d).
Proof.
  unfold bind, AddAttribute.
  set (a := {| descriptor := va; identity_mapping := true; buffer := _ |}).
  set (d1 := {| out_mesh_ := out_mesh_ d; out_point_cloud_ := _ |}).
  rewrite (fill_loop _ vals n 0 a d1 [] (buffer a)).
  - f_equal. unfold add_attributes, with_attributes, d1, filled. simpl.
    replace (length (attributes (out_point_cloud_ d)))
      with (length (attributes (out_point_cloud_ d)) + 0)%nat by lia.
    rewrite insert_app_r. reflexivity.
  - unfold d1. simpl. rewrite lookup_app_r by lia.
    now rewrite Nat.sub_diag.
  - reflexivity.
  - reflexivity.
  - unfold a. simpl. now rewrite length_replicate.
Qed.

Lemma bind_done {A B} (m : Dec A) (k : A -> Dec B) d a d' :
  m d = (Done a, d') -> bind m k d = k a d'.
Proof. intros H. unfold bind. now rewrite H. Qed.

Lemma bind_failed {A B} (m : Dec A) (k : A -> Dec B) d s d' :
  m d = (Failed s, d') -> bind m k d = (Failed s, d').
Proof. intros H. unfold bind. now rewrite H. Qed.

Lemma bind_ub {A B} (m : Dec A) (k : A -> Dec B) d u d' :
  m d = (UB u, d') -> bind m k d = (UB u, d').
Proof. intros H. unfold bind. now rewrite H. Qed.

Lemma bind_assoc {A B C} (m : Dec A) (f : A -> Dec B) (g : B -> Dec C) d :
  bind (bind m f) g d = bind m (fun x => bind (f x) g) d.
Proof. unfold bind. destruct (m d) as [[a| |] d']; reflexivity. Qed.

Lemma add_and_fill_ext (va : GeometryAttribute) (n : nat)
    (body : nat -> nat -> unit -> Dec unit) (vals : nat -> list Z)
    (d : PlyDecoder) :
  (forall att_id i u d',
     body att_id i u d' = SetAttributeValue att_id i (vals i) d') ->
  (att_id <- AddAttribute va true n ;; for_range 0 n (body att_id) tt) d =
  (Done tt, add_attributes [filled va n vals] d).
Proof.
  intros Hbody. rewrite <- (add_and_fill va n vals d).
  unfold bind. destruct (AddAttribute va true n d) as [[att_id| |] d']; auto.
  apply for_range_ext. intros i u d''. apply Hbody.
Qed.

Lemma filled_ext va n vals1 vals2 :
  (forall i, take (num_components va) (vals1 i) =
             take (num_components va) (vals2 i)) ->
  filled va n vals1 = filled va n vals2.
Proof.
  intros H. unfold filled. f_equal. apply map_ext. intros i. apply H.
Qed.

(** ** Reading a property through a reader of its own type *)

Lemma static_cast_same T v : static_cast T T v = v.
Proof. unfold static_cast. now rewrite decide_True. Qed.

Lemma tuple_as_same T ps i :
  Forall (fun p => data_type p = T) ps -> tuple_as T ps i = tuple_of ps i.
Proof.
  intros Hps. unfold tuple_as, tuple_of. apply map_ext_in. intros p Hp.
  rewrite Forall_forall in Hps. rewrite <- (Hps p).
  - apply static_cast_same.
  - now apply list_elem_of_In.
Qed.

Lemma filled_tuple_as va n T ps :
  Forall (fun p => data_type p = T) ps ->
  filled va n (tuple_as T ps) = filled va n (tuple_of ps).
Proof.
  intros Hps. unfold filled. f_equal. apply map_ext. intros i.
  now rewrite tuple_as_same.
Qed.

Lemma all_float32_Forall ps :
  all_float32 ps = true -> Forall (fun p => data_type p = DT_FLOAT32) ps.
Proof.
  unfold all_float32. rewrite forallb_forall, Forall_forall.
  intros H p Hp. apply list_elem_of_In, H in Hp.
  now apply bool_decide_eq_true_1 in Hp.
Qed.

(** The properties in the context, each with the data type its test
    established. *)
Ltac own_types :=
  repeat match goal with
  | p : PlyProperty |- _ => destruct p
  end;
  cbn [data_type] in *; subst.

Ltac fill_group d :=
  own_types;
  match goal with
  | |- _ = (_, add_attributes [filled _ _ (tuple_of ?ps)] _) =>
      exact (add_and_fill _ _ (tuple_of ps) d)
  end.

(** ** The blocks of DecodeVertexData *)

Ltac split_lookup ve s :=
  let p := fresh "p" in
  let H := fresh "H" in
  destruct (GetPropertyByName ve s) as [p|] eqn:H.

Ltac float_block ve :=
  unfold float_group;
  cbn [map normal_names fdc_names opacity_names scale_names rot_names];
  repeat match goal with
  | |- context [GetPropertyByName ve ?s] => split_lookup ve s
  end;
  cbn [all_present all_float32 forallb];
  try (rewrite add_attributes_nil; reflexivity);
  repeat case_bool_decide; cbn [andb];
  match goal with
  | |- context [decide ?P] => destruct (decide P)
  end;
  try (exfalso; tauto);
  try (rewrite add_attributes_nil; reflexivity).

Lemma decode_normals_run ve d :
  decode_normals ve (num_entries ve) d =
  (Done tt, add_attributes (float_group NORMAL normal_names ve) d).
Proof.
  unfold decode_normals. float_block ve.
  fill_group d.
Qed.

Lemma decode_fdc_run ve d :
  decode_fdc ve (num_entries ve) d =
  (Done tt, add_attributes (float_group FDC fdc_names ve) d).
Proof.
  unfold decode_fdc. float_block ve.
  fill_group d.
Qed.

Lemma decode_opacity_run ve d :
  decode_opacity ve (num_entries ve) d =
  (Done tt, add_attributes (float_group OPACITY opacity_names ve) d).
Proof.
  unfold decode_opacity. float_block ve.
  fill_group d.
Qed.

Lemma decode_scale_run ve d :
  decode_scale ve (num_entries ve) d =
  (Done tt, add_attributes (float_group SCALE scale_names ve) d).
Proof.
  unfold decode_scale. float_block ve.
  fill_group d.
Qed.

Lemma decode_rot_run ve d :
  decode_rot ve (num_entries ve) d =
  (Done tt, add_attributes (float_group ROT rot_names ve) d).
Proof.
  unfold decode_rot. float_block ve.
  fill_group d.
Qed.

Lemma new_readers_run T props d :
  new_readers T props d =
  match all_present props with
  | Some ps => (Done (map (Build_PlyPropertyReader T) ps), d)
  | None => (UB NullDereference, d)
  end.
Proof.
  revert d. induction props as [|[p|] props IH]; intros d; simpl.
  - reflexivity.
  - unfold bind at 1. simpl. unfold bind at 1. rewrite IH.
    destruct (all_present props); reflexivity.
  - reflexivity.
Qed.

Lemma all_present_absent props k :
  props !! k = Some None -> all_present props = None.
Proof.
  revert k. induction props as [|[p|] props IH]; intros k Hk.
  - discriminate.
  - destruct k as [|k]; [discriminate|]. simpl in *.
    now rewrite (IH k Hk).
  - reflexivity.
Qed.

Lemma all_present_length props ps :
  all_present props = Some ps -> length ps = length props.
Proof.
  revert ps. induction props as [|[p|] props IH]; intros ps H; simpl in *.
  - now inversion H.
  - destruct (all_present props); [|discriminate].
    inversion H. simpl. f_equal. now apply IH.
  - discriminate.
Qed.

Lemma frest_complete_committed ve :
  frest_complete ve = true -> frest_committed ve = true.
Proof.
  unfold frest_complete, frest_committed.
  change f_rest_names with
    ("f_rest_0" :: "f_rest_1" :: "f_rest_2" :: drop 3 f_rest_names).
  cbn [map all_present].
  destruct (GetPropertyByName ve "f_rest_0"); [|discriminate].
  destruct (GetPropertyByName ve "f_rest_1"); [|discriminate].
  destruct (GetPropertyByName ve "f_rest_2"); [|discriminate].
  reflexivity.
Qed.

(** The bank is skipped when one of its first three properties is absent. *)
Lemma decode_frest_skip ve d :
  frest_committed ve = false ->
  decode_frest ve (num_entries ve) d = (Done tt, d) /\ frest_group ve = [].
Proof.
  intros Hc. split.
  - unfold decode_frest. unfold frest_committed in Hc.
    destruct (GetPropertyByName ve "f_rest_0");
      destruct (GetPropertyByName ve "f_rest_1");
      destruct (GetPropertyByName ve "f_rest_2"); try discriminate;
      reflexivity.
  - unfold frest_group.
    destruct (all_present (map (GetPropertyByName ve) f_rest_names)) eqn:E;
      [|reflexivity].
    assert (frest_complete ve = true) as Hcomp
      by (unfold frest_complete; now rewrite E).
    apply frest_complete_committed in Hcomp. congruence.
Qed.

(** The bank is decoded when its 45 properties are present. *)
Lemma decode_frest_complete ve d :
  frest_complete ve = true ->
  decode_frest ve (num_entries ve) d =
  (Done tt, add_attributes (frest_group ve) d).
Proof.
  intros Hcomp. pose proof (frest_complete_committed ve Hcomp) as Hc.
  unfold decode_frest, frest_group. unfold frest_committed in Hc.
  unfold frest_complete in Hcomp.
  destruct (GetPropertyByName ve "f_rest_0"); [|discriminate].
  destruct (GetPropertyByName ve "f_rest_1"); [|discriminate].
  destruct (GetPropertyByName ve "f_rest_2"); [|discriminate].
  destruct (all_present (map (GetPropertyByName ve) f_rest_names))
    as [ps|] eqn:E; [|discriminate].
  unfold bind at 1. rewrite new_readers_run, E.
  apply (add_and_fill_ext _ _ _ (tuple_as DT_FLOAT32 ps) d).
  intros att_id i u d'. unfold tuple_as. now rewrite map_map.
Qed.

(** The bank is read through an absent property when its first three
    properties are present and a later one is not: the decode stops there,
    before the attribute is allocated. *)
Lemma decode_frest_partial ve d :
  frest_committed ve = true -> frest_complete ve = false ->
  decode_frest ve (num_entries ve) d = (UB NullDereference, d).
Proof.
  intros Hc Hcomp. unfold decode_frest.
  unfold frest_committed in Hc. unfold frest_complete in Hcomp.
  destruct (GetPropertyByName ve "f_rest_0"); [|discriminate].
  destruct (GetPropertyByName ve "f_rest_1"); [|discriminate].
  destruct (GetPropertyByName ve "f_rest_2"); [|discriminate].
  destruct (all_present (map (GetPropertyByName ve) f_rest_names))
    as [ps|] eqn:E; [discriminate|].
  unfold bind at 1. now rewrite new_readers_run, E.
Qed.

(** The inner loop of the colour block gathers the values of the channel
    readers at the front of the four-entry scratch array. *)
Lemma color_tuple (readers : list PlyPropertyReader) (i : nat) d :
  (length readers <= 4)%nat ->
  for_range 0 (length readers) (fun j val =>
    match readers !! j with
    | Some reader => ret (<[j := ReadValue reader (Z.of_nat i)]> val)
    | None => undefined OutOfRange
    end) [0; 0; 0; 0] d =
  (Done (map (fun r => ReadValue r (Z.of_nat i)) readers ++
         replicate (4 - length readers) 0), d).
Proof.
  intros Hlen.
  do 5 (destruct readers as [|? readers]; [reflexivity|]).
  simpl in Hlen. lia.
Qed.

Lemma color_loop (readers : list PlyPropertyReader) (k : nat)
    (va : GeometryAttribute) (n : nat) d :
  k = length readers -> (k <= 4)%nat -> num_components va = k ->
  (att_id <- AddAttribute va true n ;;
   for_range 0 n (fun i _ =>
     val <- for_range 0 k (fun j val =>
              match readers !! j with
              | Some reader => ret (<[j := ReadValue reader (Z.of_nat i)]> val)
              | None => undefined OutOfRange
              end) [0; 0; 0; 0] ;;
     SetAttributeValue att_id i val) tt) d =
  (Done tt,
   add_attributes
     [filled va n (fun i => map (fun r => ReadValue r (Z.of_nat i)) readers)]
     d).
Proof.
  intros -> Hlen Hva.
  rewrite (add_and_fill_ext va n _
             (fun i => map (fun r => ReadValue r (Z.of_nat i)) readers ++
                       replicate (4 - length readers) 0) d).
  - f_equal. f_equal. f_equal. apply filled_ext. intros i.
    rewrite Hva. rewrite take_app_length'; [|now rewrite length_map].
    rewrite firstn_all2; [reflexivity|]. rewrite length_map. lia.
  - intros att_id i u d'. unfold bind at 1. now rewrite color_tuple.
Qed.

Lemma decode_color_run ve d :
  decode_color ve (num_entries ve) d =
  match color_error ve with
  | Some message => (Failed (mkStatus INVALID_PARAMETER message), d)
  | None => (Done tt, add_attributes (color_group ve) d)
  end.
Proof.
  unfold decode_color, color_error, color_group, color_channels.
  cbn [color_names color_messages zip zip_with omap list_omap].
  repeat match goal with
  | |- context [GetPropertyByName ve ?s] => split_lookup ve s
  end;
  cbn [count_if_present Nat.eqb head push_color_reader];
  try (rewrite add_attributes_nil; reflexivity);
  repeat case_bool_decide;
  repeat match goal with
  | |- context [decide ?P] => destruct (decide P)
  end;
  try (exfalso; tauto);
  cbn [bind fail ret new_PlyPropertyReader app head];
  try reflexivity.
  all: own_types.
  all: match goal with
       | |- _ = (_, add_attributes [filled _ _ (tuple_of ?ps)] _) =>
           refine (color_loop (map (Build_PlyPropertyReader DT_UINT8) ps)
                     _ _ _ d _ _ _); [reflexivity | simpl; lia | reflexivity]
       end.
Qed.

(** ** ReadPropertiesToAttribute and the position block *)

Lemma ReadPropertiesToAttribute_run T va n props ps d :
  all_present props = Some ps ->
  (att_id <- AddAttribute va true n ;;
   ReadPropertiesToAttribute T props att_id n) d =
  (Done true, add_attributes [filled va n (tuple_as T ps)] d).
Proof.
  intros Hps.
  pose proof (add_and_fill va n (tuple_as T ps) d) as Hfill.
  unfold bind in *. unfold ReadPropertiesToAttribute, bind.
  destruct (AddAttribute va true n d) as [[att_id| |] d1]; try discriminate.
  rewrite new_readers_run, Hps.
  rewrite (for_range_ext _
             (fun i _ => SetAttributeValue att_id i (tuple_as T ps i))).
  - destruct (for_range 0 n _ tt d1) as [[[]| |] d2]; try discriminate.
    now inversion Hfill.
  - intros i u d'. unfold tuple_as. now rewrite map_map.
Qed.

Lemma decode_frest_safe ve d :
  frest_safe ve = true ->
  decode_frest ve (num_entries ve) d =
  (Done tt, add_attributes (frest_group ve) d).
Proof.
  unfold frest_safe. intros Hsafe.
  destruct (frest_complete ve) eqn:Hcomp.
  - now apply decode_frest_complete.
  - destruct (frest_committed ve) eqn:Hc; [discriminate|].
    destruct (decode_frest_skip ve d Hc) as [-> ->].
    now rewrite add_attributes_nil.
Qed.

(** With a valid position group the decode reaches the coefficient bank with
    the point count set and the position, normal and colour-DC groups
    decoded. *)
Lemma DecodeVertexData_prefix ve d dt :
  position_type ve = Some dt ->
  DecodeVertexData (Some ve) d =
  (decode_frest ve (num_entries ve) ;;;
   decode_opacity ve (num_entries ve) ;;;
   decode_scale ve (num_entries ve) ;;;
   decode_rot ve (num_entries ve) ;;;
   decode_color ve (num_entries ve))
    (add_attributes
       (position_group ve ++ float_group NORMAL normal_names ve ++
        float_group FDC fdc_names ve)
       (with_num_points (num_entries ve) d)).
Proof.
  intros Hpos. unfold DecodeVertexData, position_group. rewrite Hpos.
  unfold position_type in Hpos. cbn [map all_present].
  destruct (GetPropertyByName ve "x") as [x|]; [|discriminate].
  destruct (GetPropertyByName ve "y") as [y|]; [|discriminate].
  destruct (GetPropertyByName ve "z") as [z|]; [|discriminate].
  destruct (bool_decide (data_type x = data_type y)) eqn:Hxy;
    [|discriminate].
  destruct (bool_decide (data_type y = data_type z)) eqn:Hyz;
    [|discriminate].
  apply bool_decide_eq_true_1 in Hxy, Hyz.
  cbn [andb] in Hpos.
  destruct (bool_decide (data_type x = DT_FLOAT32) ||
            bool_decide (data_type x = DT_INT32)) eqn:Hty; [|discriminate].
  inversion Hpos; subst dt. clear Hpos.
  apply orb_true_iff in Hty.
  rewrite (bind_done _ _ d tt (with_num_points (num_entries ve) d))
    by reflexivity.
  set (d0 := with_num_points (num_entries ve) d).
  set (va := Init POSITION 3 (data_type x) false
               (DataTypeLength (data_type x) * 3) 0).
  assert (Hblock : forall T, data_type x = T ->
    (att_id <- AddAttribute va true (num_entries ve) ;;
     ReadPropertiesToAttribute T [Some x; Some y; Some z] att_id
       (num_entries ve) ;;; ret tt) d0 =
    (Done tt,
     add_attributes [filled va (num_entries ve) (tuple_of [x; y; z])] d0)).
  { intros T HT. rewrite <- bind_assoc.
    erewrite bind_done;
      [|apply (ReadPropertiesToAttribute_run T va _ _ [x; y; z]);
        reflexivity].
    rewrite filled_tuple_as; [reflexivity|].
    repeat constructor; congruence. }
  rewrite (bind_done _ _ d0 tt
             (add_attributes
                [filled va (num_entries ve) (tuple_of [x; y; z])] d0)).
  - rewrite (bind_done _ _ _ _ _ (decode_normals_run ve _)).
    rewrite (bind_done _ _ _ _ _ (decode_fdc_run ve _)).
    rewrite !add_attributes_add. reflexivity.
  - rewrite decide_False by (intros [?|?]; congruence).
    rewrite decide_False
      by (intros [H1 H2]; destruct Hty as [H%bool_decide_eq_true_1|
                                           H%bool_decide_eq_true_1];
          congruence).
    destruct (decide (data_type x = DT_FLOAT32)); [now apply Hblock|].
    destruct (decide (data_type x = DT_INT32)); [now apply Hblock|].
    destruct Hty as [H%bool_decide_eq_true_1|H%bool_decide_eq_true_1];
      congruence.
Qed.

(** The outcome of a decode that does not meet an absent bank property. *)
Lemma DecodeVertexData_run ve d dt :
  position_type ve = Some dt -> frest_safe ve = true ->
  DecodeVertexData (Some ve) d =
  match color_error ve with
  | Some message =>
      (Failed (mkStatus INVALID_PARAMETER message),
       add_attributes (position_group ve ++ optional_groups ve)
         (with_num_points (num_entries ve) d))
  | None =>
      (Done tt,
       add_attributes
         (position_group ve ++ optional_groups ve ++ color_group ve)
         (with_num_points (num_entries ve) d))
  end.
Proof.
  intros Hpos Hsafe. rewrite (DecodeVertexData_prefix ve d dt Hpos).
  rewrite (bind_done _ _ _ _ _ (decode_frest_safe ve _ Hsafe)).
  rewrite (bind_done _ _ _ _ _ (decode_opacity_run ve _)).
  rewrite (bind_done _ _ _ _ _ (decode_scale_run ve _)).
  rewrite (bind_done _ _ _ _ _ (decode_rot_run ve _)).
  rewrite decode_color_run. rewrite !add_attributes_add.
  unfold optional_groups. rewrite <- !app_assoc.
  destruct (color_error ve); reflexivity.
Qed.

(** The outcome of a decode that commits to an incomplete bank. *)
Lemma DecodeVertexData_partial_bank ve d dt :
  position_type ve = Some dt ->
  frest_committed ve = true -> frest_complete ve = false ->
  DecodeVertexData (Some ve) d =
  (UB NullDereference,
   add_attributes
     (position_group ve ++ float_group NORMAL normal_names ve ++
      float_group FDC fdc_names ve)
     (with_num_points (num_entries ve) d)).
Proof.
  intros Hpos Hc Hcomp. rewrite (DecodeVertexData_prefix ve d dt Hpos).
  now rewrite (bind_ub _ _ _ _ _ (decode_frest_partial ve _ Hc Hcomp)).
Qed.

(** ** The face assembler *)

Lemma with_faces_with_faces fs1 fs2 d :
  with_faces fs2 (with_faces fs1 d) = with_faces fs2 d.
Proof. reflexivity. Qed.

Lemma with_faces_same d : with_faces (faces (out_point_cloud_ d)) d = d.
Proof. now destruct d as [m [np atts fs]]. Qed.

Lemma triangles_of_size_nonneg s : 0 <= triangles_of_size s.
Proof. unfold triangles_of_size. destruct (Z.ltb_spec s 3); lia. Qed.

Lemma length_emitted vi i :
  length (emitted vi i) =
  Z.to_nat (triangles_of_size (GetListEntryNumValues vi i)).
Proof.
  unfold emitted, triangles_of_size.
  destruct (GetListEntryNumValues vi i <? 3); [reflexivity|].
  now rewrite length_map, length_seq.
Qed.

Lemma CountNumTriangles_from vi :
  forall count start acc,
    fold_left
      (fun num_triangles i =>
         let list_size := GetListEntryNumValues vi i in
         if list_size <? 3 then num_triangles
         else num_triangles + (list_size - 2))
      (seq start count) acc =
    acc + sum_Z (map triangles_of_size
                   (map (GetListEntryNumValues vi) (seq start count))).
Proof.
  induction count as [|count IH]; intros start acc; simpl.
  - lia.
  - rewrite IH. unfold triangles_of_size at 2.
    destruct (GetListEntryNumValues vi start <? 3); lia.
Qed.

Lemma CountNumTriangles_sum fe vi :
  CountNumTriangles fe vi = sum_Z (map triangles_of_size (list_sizes fe vi)).
Proof.
  unfold CountNumTriangles, list_sizes.
  now rewrite CountNumTriangles_from.
Qed.

Lemma sum_emitted vi :
  forall count start,
    Z.of_nat (length (concat (map (emitted vi) (seq start count)))) =
    sum_Z (map triangles_of_size
             (map (GetListEntryNumValues vi) (seq start count))).
Proof.
  induction count as [|count IH]; intros start; simpl.
  - reflexivity.
  - rewrite length_app, Nat2Z.inj_add, IH, length_emitted.
    rewrite Z2Nat.id by apply triangles_of_size_nonneg. reflexivity.
Qed.

(** The triangle loop fills the next [count] slots of the sized face list;
    the shared first index stays in [face[0]]. *)
Lemma triangle_loop (vi : PlyProperty) (list_offset : Z) :
  forall count start l d written slack,
    out_mesh_ d = true ->
    faces (out_point_cloud_ d) = written ++ slack ->
    length written = face_index l ->
    (count <= length slack)%nat ->
    (face l).1.1 = index_at vi (static_cast_int list_offset) ->
    exists f',
      for_range start count (triangle_step (reader_of vi) list_offset) l d =
      (Done {| face := f'; face_index := (face_index l + count)%nat |},
       with_faces
         (written ++ map (triangle vi list_offset) (seq start count) ++
          drop count slack) d) /\
      f'.1.1 = index_at vi (static_cast_int list_offset).
Proof.
  induction count as [|count IH];
    intros start l d written slack Hmesh Hfaces Hlen Hroom Hfirst.
  - exists (face l). split; [|exact Hfirst]. simpl. unfold ret.
    rewrite Nat.add_0_r, drop_0. rewrite <- Hfaces, with_faces_same.
    now destruct l.
  - destruct slack as [|s slack]; [simpl in Hroom; lia|].
    simpl in Hroom.
    destruct l as [[[f0 f1] f2] fi]. simpl in Hfirst, Hlen. subst f0.
    set (t := triangle vi list_offset start).
    set (l1 := {| face := t; face_index := S fi |}).
    set (d1 := with_faces ((written ++ [t]) ++ slack) d).
    assert (Hstep : triangle_step (reader_of vi) list_offset start
                      {| face := (index_at vi
                                    (static_cast_int list_offset), f1, f2);
                         face_index := fi |} d = (Done l1, d1)).
    { unfold triangle_step, bind, SetFace. simpl. rewrite Hmesh, Hfaces.
      rewrite decide_True by (rewrite length_app; simpl; lia).
      unfold update_geometry, ret, l1, d1, with_faces. simpl.
      rewrite Hfaces. rewrite <- Hlen.
      rewrite insert_app_r_alt by lia. rewrite Nat.sub_diag. simpl.
      rewrite <- app_assoc. reflexivity. }
    destruct (IH (S start) l1 d1 (written ++ [t]) slack) as [f' [Hrun Hf']].
    + exact Hmesh.
    + reflexivity.
    + rewrite length_app. simpl. lia.
    + lia.
    + reflexivity.
    + exists f'. split; [|exact Hf'].
      cbn [for_range]. rewrite (bind_done _ _ _ _ _ Hstep). rewrite Hrun.
      unfold d1. rewrite with_faces_with_faces. simpl.
      rewrite <- app_assoc. simpl.
      replace (fi + S count)%nat with (S (fi + count)) by lia.
      reflexivity.
Qed.

(** The polygon loop appends the triangles of each entry, in entry order,
    to the part of the sized face list already written. *)
Lemma polygon_loop (vi : PlyProperty) :
  forall count start l d written slack,
    out_mesh_ d = true ->
    faces (out_point_cloud_ d) = written ++ slack ->
    length written = face_index l ->
    (length (concat (map (emitted vi) (seq start count))) <= length slack)%nat ->
    exists f',
      for_range start count (polygon_step vi (reader_of vi)) l d =
      (Done {| face := f';
               face_index :=
                 (face_index l +
                  length (concat (map (emitted vi) (seq start count))))%nat |},
       with_faces
         (written ++ concat (map (emitted vi) (seq start count)) ++
          drop (length (concat (map (emitted vi) (seq start count)))) slack)
         d).
Proof.
  induction count as [|count IH];
    intros start l d written slack Hmesh Hfaces Hlen Hroom.
  - exists (face l). simpl. unfold ret. rewrite Nat.add_0_r, drop_0.
    rewrite <- Hfaces, with_faces_same. now destruct l.
  - cbn [seq map concat] in *. rewrite length_app in Hroom.
    assert (Hstep : exists f1,
      polygon_step vi (reader_of vi) start l d =
      (Done {| face := f1;
               face_index := (face_index l + length (emitted vi start))%nat |},
       with_faces (written ++ emitted vi start ++
                   drop (length (emitted vi start)) slack) d)).
    { unfold polygon_step, emitted.
      destruct (GetListEntryNumValues vi start <? 3) eqn:Hsize.
      - exists (face l). simpl. unfold ret. rewrite Nat.add_0_r, drop_0.
        rewrite <- Hfaces, with_faces_same. now destruct l.
      - pose proof (length_emitted vi start) as Hn.
        unfold emitted, triangles_of_size in Hn. rewrite Hsize in Hn.
        destruct l as [[[f0 f1] f2] fi].
        destruct (triangle_loop vi (GetListEntryOffset vi start)
                    (Z.to_nat (GetListEntryNumValues vi start - 2)) 0
                    {| face := face_set (f0, f1, f2) 0
                                 (index_at vi
                                    (static_cast_int
                                       (GetListEntryOffset vi start)));
                       face_index := fi |} d written slack)
          as [f' [Hrun _]]; auto.
        + unfold emitted in Hroom. rewrite Hsize in Hroom.
          rewrite length_map, length_seq in Hroom. lia.
        + exists f'. cbn [face face_index] in *.
          fold (index_at vi (static_cast_int (GetListEntryOffset vi start))).
          rewrite Hrun. rewrite length_map, length_seq. reflexivity. }
    destruct Hstep as [f1 Hstep].
    set (l1 := {| face := f1;
                  face_index :=
                    (face_index l + length (emitted vi start))%nat |}) in *.
    set (d1 := with_faces (written ++ emitted vi start ++
                           drop (length (emitted vi start)) slack) d) in *.
    destruct (IH (S start) l1 d1 (written ++ emitted vi start)
                (drop (length (emitted vi start)) slack))
      as [f' Hrun].
    + exact Hmesh.
    + unfold d1. simpl. now rewrite app_assoc.
    + rewrite length_app. unfold l1. simpl. lia.
    + rewrite length_drop. lia.
    + exists f'. cbn [for_range]. rewrite (bind_done _ _ _ _ _ Hstep).
      rewrite Hrun. unfold d1, l1. rewrite with_faces_with_faces. simpl.
      rewrite length_app, drop_drop. rewrite <- !app_assoc.
      rewrite Nat.add_assoc. reflexivity.
Qed.

Lemma DecodeFaceData_run fe vi d :
  out_mesh_ d = true ->
  face_indices_property fe = Some vi ->
  is_list vi = true ->
  DecodeFaceData (Some fe) d =
  (Done tt,
   with_faces (concat (map (emitted vi) (seq 0 (num_entries fe)))) d).
Proof.
  intros Hmesh Hvi Hlist. unfold DecodeFaceData.
  unfold face_indices_property in Hvi. rewrite Hvi, Hlist.
  cbn [negb].
  set (total := concat (map (emitted vi) (seq 0 (num_entries fe)))).
  assert (Hcount : Z.to_nat (CountNumTriangles fe vi) = length total).
  { rewrite CountNumTriangles_sum. unfold list_sizes, total.
    rewrite <- sum_emitted. apply Nat2Z.id. }
  set (slack := resize (length total) default_face (faces (out_point_cloud_ d))).
  rewrite (bind_done _ _ d tt (with_faces slack d)).
  2:{ unfold SetNumFaces, through_out_mesh. rewrite Hmesh, Hcount.
      reflexivity. }
  rewrite (bind_done _ _ _ (reader_of vi) (with_faces slack d))
    by reflexivity.
  destruct (polygon_loop vi (num_entries fe) 0
              {| face := default_face; face_index := 0 |}
              (with_faces slack d) [] slack) as [f' Hrun]; auto.
  - fold total. unfold slack. now rewrite length_resize.
  - rewrite (bind_done _ _ _ _ _ Hrun). fold total. cbn [face_index].
    unfold SetNumFaces, through_out_mesh. cbn [out_mesh_ with_faces].
    rewrite Hmesh. unfold update_geometry, with_faces. simpl.
    rewrite Nat2Z.id. f_equal. f_equal. f_equal.
    rewrite drop_ge by (unfold slack; rewrite length_resize; lia).
    rewrite app_nil_r. apply resize_all.
Qed.

(** ** The point indices read from an index list *)

Lemma PointIndex_eq (a b : PointIndex) : value a = value b -> a = b.
Proof.
  destruct a as [a Ha], b as [b Hb]. simpl. intros ->. f_equal.
  apply proof_irrel.
Qed.

Lemma PointIndex_of_mod z : PointIndex_of (z mod 2 ^ 32) = PointIndex_of z.
Proof. apply PointIndex_eq. simpl. apply Z.mod_mod. discriminate. Qed.

(** A value of an integer type read through the index reader is the stored
    value reduced modulo 2^32. *)
Lemma index_at_integer vi value_id :
  integer_indices vi ->
  index_at vi value_id = PointIndex_of (GetDataEntry vi value_id).
Proof.
  unfold integer_indices. intros Hty.
  unfold index_at, ReadValue, static_cast.
  cbn [reader_of read_type property_].
  destruct (decide (data_type vi = DT_UINT32)); [reflexivity|].
  cbn [integer_type].
  destruct (data_type vi); try discriminate; try congruence;
    apply PointIndex_of_mod.
Qed.

(** ** Fan triangulation *)

Lemma static_cast_int_fits z :
  - 2 ^ 31 <= z < 2 ^ 31 -> static_cast_int z = z.
Proof.
  intros Hz. unfold static_cast_int.
  change (2 ^ 31) with 2147483648 in *.
  change (2 ^ 32) with 4294967296.
  rewrite Z.mod_small by lia. lia.
Qed.

Lemma nth_map_seq {A} (f : nat -> A) n k (x : A) :
  (k < n)%nat -> nth k (map f (seq 0 n)) x = f k.
Proof.
  intros Hk. rewrite (nth_indep _ x (f 0%nat)) by (now rewrite length_map, length_seq).
  rewrite map_nth. now rewrite seq_nth.
Qed.

Lemma emitted_fan vi i :
  integer_indices vi ->
  (3 <= GetListEntryNumValues vi i ->
   - 2 ^ 31 <= GetListEntryOffset vi i /\
   GetListEntryOffset vi i + GetListEntryNumValues vi i <= 2 ^ 31) ->
  emitted vi i = fan_triangulation (polygon vi i).
Proof.
  intros Hint Hfit. unfold emitted, fan_triangulation, polygon.
  rewrite length_map, length_seq.
  destruct (Z.ltb_spec (GetListEntryNumValues vi i) 3) as [Hlt|Hge].
  - replace (Z.to_nat (GetListEntryNumValues vi i) - 2)%nat with 0%nat by lia.
    reflexivity.
  - specialize (Hfit Hge). destruct Hfit as [Hlo Hhi].
    replace (Z.to_nat (GetListEntryNumValues vi i) - 2)%nat
      with (Z.to_nat (GetListEntryNumValues vi i - 2)) by lia.
    apply map_ext_in. intros t Ht. apply in_seq in Ht.
    rewrite !nth_map_seq by lia.
    change (2 ^ 31) with 2147483648 in Hlo, Hhi.
    rewrite !static_cast_int_fits
      by (change (2 ^ 31) with 2147483648; lia).
    rewrite !index_at_integer by exact Hint.
    replace (GetListEntryOffset vi i + Z.of_nat 0)
      with (GetListEntryOffset vi i) by lia.
    replace (GetListEntryOffset vi i + Z.of_nat (t + 1))
      with (GetListEntryOffset vi i + Z.of_nat t + 1) by lia.
    replace (GetListEntryOffset vi i + Z.of_nat (t + 2))
      with (GetListEntryOffset vi i + Z.of_nat t + 2) by lia.
    reflexivity.
Qed.

Lemma emitted_fan_all fe vi :
  integer_indices vi ->
  indices_fit_int fe vi ->
  concat (map (emitted vi) (seq 0 (num_entries fe))) =
  concat (map (fun i => fan_triangulation (polygon vi i))
            (seq 0 (num_entries fe))).
Proof.
  intros Hint Hfit. f_equal. apply map_ext_in. intros i Hi.
  apply in_seq in Hi.
  apply emitted_fan; [exact Hint|]. intros Hsize. apply Hfit; lia.
Qed.

(** ** Claims on the face assembler *)



(** C4.  For a face element whose index-list property is found,
    [DecodeFaceData] succeeds and the final number of faces is the sum, over
    the polygon entries, of L - 2 for an entry of L >= 3 indices and of 0 for
    an entry of fewer than three; this is also the count
    [CountNumTriangles] sizes the face list with before the loop. *)
Theorem face_count_is_sum (fe : PlyElement) (vi : PlyProperty)
    (d : PlyDecoder) :
  out_mesh_ d = true ->
  face_indices_property fe = Some vi ->
  is_list vi = true ->
  exists d',
    DecodeFaceData (Some fe) d = (Done tt, d') /\
    Z.of_nat (num_faces (out_point_cloud_ d')) =
      sum_Z (map triangles_of_size (list_sizes fe vi)) /\
    CountNumTriangles fe vi =
      sum_Z (map triangles_of_size (list_sizes fe vi)) /\
    (forall L, L < 3 -> triangles_of_size L = 0) /\
    (forall L, 3 <= L -> triangles_of_size L = L - 2).
Proof.
  intros Hmesh Hvi Hlist. eexists. split; [|split; [|split; [|split]]].
  - apply (DecodeFaceData_run fe vi d Hmesh Hvi Hlist).
  - unfold num_faces, with_faces, list_sizes. simpl. apply sum_emitted.
  - apply CountNumTriangles_sum.
  - intros L HL. unfold triangles_of_size.
    destruct (Z.ltb_spec L 3); [reflexivity|lia].
  - intros L HL. unfold triangles_of_size.
    destruct (Z.ltb_spec L 3); [lia|reflexivity].
Qed.

Lemma face_count_is_sum_witness :
  exists d',
    DecodeFaceData (Some sample_faces) (new_decoder true) = (Done tt, d') /\
    Z.of_nat (num_faces (out_point_cloud_ d')) = 3 + 0 + 1.
Proof.
  destruct (face_count_is_sum sample_faces sample_indices (new_decoder true)
              eq_refl eq_refl eq_refl) as [d' [Hrun [Hcount _]]].
  exists d'. split; [exact Hrun | exact Hcount].
Defined.

(** C7.  Face decoding of an absent face element succeeds and leaves the
    geometry as it is, so a fresh mesh keeps zero faces; and when the face
    element has no list-valued property named [vertex_indices] and none named
    [vertex_index], it fails with the status [DRACO_ERROR], "No faces
    defined".  [DecodeInternal] runs the face decoding exactly when a mesh was
    requested, and returns this failure. *)
Theorem face_element_optional (fe : PlyElement) (d : PlyDecoder) :
  (forall p, GetPropertyByName fe "vertex_indices" = Some p ->
             is_list p = false) ->
  (forall p, GetPropertyByName fe "vertex_index" = Some p ->
             is_list p = false) ->
  DecodeFaceData None d = (Done tt, d) /\
  num_faces (out_point_cloud_ (DecodeFaceData None (new_decoder true)).2) =
    0%nat /\
  DecodeFaceData (Some fe) d =
    (Failed (mkStatus DRACO_ERROR "No faces defined"), d) /\
  (forall cfg table,
     out_mesh_ d = true -> GetElementByName table "face" = None ->
     DecodeInternal cfg (inr table) d =
     (DecodeVertexData (GetElementByName table "vertex") ;;;
      deduplicate cfg) d) /\
  (forall cfg table,
     out_mesh_ d = true -> GetElementByName table "face" = Some fe ->
     DecodeInternal cfg (inr table) d =
     (Failed (mkStatus DRACO_ERROR "No faces defined"), d)).
Proof.
  intros Hindices Hindex.
  assert (Hfail : DecodeFaceData (Some fe) d =
                  (Failed (mkStatus DRACO_ERROR "No faces defined"), d)).
  { unfold DecodeFaceData.
    destruct (GetPropertyByName fe "vertex_indices") as [p|] eqn:E1.
    - now rewrite (Hindices p eq_refl).
    - destruct (GetPropertyByName fe "vertex_index") as [p|] eqn:E2.
      + now rewrite (Hindex p eq_refl).
      + reflexivity. }
  repeat split.
  - exact Hfail.
  - intros cfg table Hmesh Hface. unfold DecodeInternal.
    unfold bind at 1. now rewrite Hmesh, Hface.
  - intros cfg table Hmesh Hface. unfold DecodeInternal.
    unfold bind at 1. now rewrite Hmesh, Hface, Hfail.
Qed.

Lemma face_element_optional_witness :
  DecodeFaceData (Some sample_no_list) (new_decoder true) =
  (Failed (mkStatus DRACO_ERROR "No faces defined"), new_decoder true).
Proof.
  refine (proj1 (proj2 (proj2
            (face_element_optional sample_no_list (new_decoder true) _ _)))).
  - intros p Hp. simpl in Hp. inversion Hp. reflexivity.
  - intros p Hp. simpl in Hp. discriminate Hp.
Defined.

(** ** The position group *)

Lemma DecodeVertexData_missing ve d :
  GetPropertyByName ve "x" = None \/ GetPropertyByName ve "y" = None \/
  GetPropertyByName ve "z" = None ->
  DecodeVertexData (Some ve) d =
  (Failed (mkStatus INVALID_PARAMETER "x, y, or z property is missing"), d).
Proof.
  intros H. unfold DecodeVertexData.
  destruct (GetPropertyByName ve "x"), (GetPropertyByName ve "y"),
    (GetPropertyByName ve "z"); try reflexivity.
  destruct H as [H|[H|H]]; discriminate.
Qed.

Lemma DecodeVertexData_mismatch ve d x y z :
  GetPropertyByName ve "x" = Some x -> GetPropertyByName ve "y" = Some y ->
  GetPropertyByName ve "z" = Some z ->
  data_type x <> data_type y \/ data_type y <> data_type z ->
  DecodeVertexData (Some ve) d =
  (Failed (mkStatus INVALID_PARAMETER
             "x, y, and z properties must have the same type"),
   with_num_points (num_entries ve) d).
Proof.
  intros Hx Hy Hz Hty. unfold DecodeVertexData. rewrite Hx, Hy, Hz.
  rewrite (bind_done _ _ d tt (with_num_points (num_entries ve) d))
    by reflexivity.
  erewrite bind_failed; [reflexivity|].
  now rewrite decide_True.
Qed.

Lemma DecodeVertexData_bad_type ve d x y z :
  GetPropertyByName ve "x" = Some x -> GetPropertyByName ve "y" = Some y ->
  GetPropertyByName ve "z" = Some z ->
  data_type x = data_type y -> data_type y = data_type z ->
  data_type x <> DT_FLOAT32 -> data_type x <> DT_INT32 ->
  DecodeVertexData (Some ve) d =
  (Failed (mkStatus INVALID_PARAMETER
             "x, y, and z properties must be of type float32 or int32"),
   with_num_points (num_entries ve) d).
Proof.
  intros Hx Hy Hz Hxy Hyz Hf Hi. unfold DecodeVertexData.
  rewrite Hx, Hy, Hz.
  rewrite (bind_done _ _ d tt (with_num_points (num_entries ve) d))
    by reflexivity.
  erewrite bind_failed; [reflexivity|].
  rewrite decide_False by (intros [?|?]; congruence).
  now rewrite decide_True.
Qed.

Lemma position_type_valid ve x y z :
  GetPropertyByName ve "x" = Some x -> GetPropertyByName ve "y" = Some y ->
  GetPropertyByName ve "z" = Some z ->
  data_type x = data_type y -> data_type y = data_type z ->
  data_type x = DT_FLOAT32 \/ data_type x = DT_INT32 ->
  position_type ve = Some (data_type x).
Proof.
  intros Hx Hy Hz Hxy Hyz Hty. unfold position_type. rewrite Hx, Hy, Hz.
  rewrite !bool_decide_eq_true_2 by assumption. cbn [andb].
  destruct Hty as [H|H].
  - now rewrite (bool_decide_eq_true_2 _ H).
  - rewrite (bool_decide_eq_true_2 (data_type x = DT_INT32) H).
    now rewrite orb_true_r.
Qed.

Lemma position_type_None ve :
  position_type ve = None ->
  (GetPropertyByName ve "x" = None \/ GetPropertyByName ve "y" = None \/
   GetPropertyByName ve "z" = None) \/
  exists x y z,
    GetPropertyByName ve "x" = Some x /\ GetPropertyByName ve "y" = Some y /\
    GetPropertyByName ve "z" = Some z /\
    ((data_type x <> data_type y \/ data_type y <> data_type z) \/
     (data_type x = data_type y /\ data_type y = data_type z /\
      data_type x <> DT_FLOAT32 /\ data_type x <> DT_INT32)).
Proof.
  unfold position_type.
  destruct (GetPropertyByName ve "x") as [x|]; [|auto].
  destruct (GetPropertyByName ve "y") as [y|]; [|auto].
  destruct (GetPropertyByName ve "z") as [z|]; [|auto].
  intros H. right. exists x, y, z. repeat split.
  repeat case_bool_decide; simpl in H; try discriminate; auto 6.
Qed.

(** Without a valid position group the decode fails with a validation error
    and the attribute list is as it was. *)
Lemma DecodeVertexData_invalid ve d :
  position_type ve = None ->
  exists message d',
    DecodeVertexData (Some ve) d =
      (Failed (mkStatus INVALID_PARAMETER message), d') /\
    attributes (out_point_cloud_ d') = attributes (out_point_cloud_ d) /\
    faces (out_point_cloud_ d') = faces (out_point_cloud_ d).
Proof.
  intros H. apply position_type_None in H.
  destruct H as [H|(x & y & z & Hx & Hy & Hz & [H|(Hxy & Hyz & Hf & Hi)])].
  - rewrite (DecodeVertexData_missing ve d H). eauto.
  - rewrite (DecodeVertexData_mismatch ve d x y z Hx Hy Hz H). eauto.
  - rewrite (DecodeVertexData_bad_type ve d x y z Hx Hy Hz Hxy Hyz Hf Hi).
    eauto.
Qed.

Lemma frest_unsafe ve :
  frest_safe ve = false ->
  frest_committed ve = true /\ frest_complete ve = false.
Proof.
  unfold frest_safe.
  destruct (frest_committed ve), (frest_complete ve); auto; discriminate.
Qed.

(** With a valid position group, whatever the outcome, the point count is
    set and the position attribute is the first one added. *)
Lemma DecodeVertexData_position ve d dt :
  position_type ve = Some dt ->
  exists result rest,
    DecodeVertexData (Some ve) d =
    (result,
     add_attributes (position_group ve ++ rest)
       (with_num_points (num_entries ve) d)).
Proof.
  intros Hpos. destruct (frest_safe ve) eqn:Hsafe.
  - rewrite (DecodeVertexData_run ve d dt Hpos Hsafe).
    destruct (color_error ve); eauto.
  - apply frest_unsafe in Hsafe. destruct Hsafe as [Hc Hcomp].
    rewrite (DecodeVertexData_partial_bank ve d dt Hpos Hc Hcomp). eauto.
Qed.

Lemma take_tuple_of n ps i :
  n = length ps -> take n (tuple_of ps i) = tuple_of ps i.
Proof.
  intros ->. unfold tuple_of. apply firstn_all2. now rewrite length_map.
Qed.

(** A filled attribute whose component count is the size of the group holds
    the tuples themselves. *)
Lemma filled_tuples va n ps :
  num_components va = length ps ->
  filled va n (tuple_of ps) =
  {| descriptor := va; identity_mapping := true;
     buffer := map (tuple_of ps) (seq 0 n) |}.
Proof.
  intros H. unfold filled. f_equal. apply map_ext. intros i.
  now apply take_tuple_of.
Qed.

Lemma position_group_valid ve x y z :
  GetPropertyByName ve "x" = Some x -> GetPropertyByName ve "y" = Some y ->
  GetPropertyByName ve "z" = Some z ->
  position_type ve = Some (data_type x) ->
  position_group ve =
  [{| descriptor := Init POSITION 3 (data_type x) false
                      (DataTypeLength (data_type x) * 3) 0;
      identity_mapping := true;
      buffer := map (tuple_of [x; y; z]) (seq 0 (num_entries ve)) |}].
Proof.
  intros Hx Hy Hz Hpos. unfold position_group. rewrite Hpos.
  cbn [map]. rewrite Hx, Hy, Hz. cbn [all_present].
  now rewrite filled_tuples.
Qed.

(** ** Claims on the position group *)

(** C5.  Position is mandatory.  When one of [x], [y], [z] is absent, when
    their data types are not all equal, or when their common type is neither
    float32 nor int32, [DecodeVertexData] fails with an [INVALID_PARAMETER]
    status and the attribute list is unchanged; otherwise a position
    attribute of three components and of that type is added (the first
    attribute the run adds), whatever happens to the later groups. *)
Theorem position_is_mandatory (ve : PlyElement) (d : PlyDecoder) :
  (GetPropertyByName ve "x" = None \/ GetPropertyByName ve "y" = None \/
   GetPropertyByName ve "z" = None ->
   DecodeVertexData (Some ve) d =
   (Failed (mkStatus INVALID_PARAMETER "x, y, or z property is missing"),
    d)) /\
  (forall x y z,
     GetPropertyByName ve "x" = Some x -> GetPropertyByName ve "y" = Some y ->
     GetPropertyByName ve "z" = Some z ->
     (data_type x <> data_type y \/ data_type y <> data_type z ->
      exists d',
        DecodeVertexData (Some ve) d =
        (Failed (mkStatus INVALID_PARAMETER
                   "x, y, and z properties must have the same type"), d') /\
        attributes (out_point_cloud_ d') = attributes (out_point_cloud_ d)) /\
     (data_type x = data_type y -> data_type y = data_type z ->
      data_type x <> DT_FLOAT32 -> data_type x <> DT_INT32 ->
      exists d',
        DecodeVertexData (Some ve) d =
        (Failed (mkStatus INVALID_PARAMETER
                   "x, y, and z properties must be of type float32 or int32"),
         d') /\
        attributes (out_point_cloud_ d') = attributes (out_point_cloud_ d)) /\
     (data_type x = data_type y -> data_type y = data_type z ->
      data_type x = DT_FLOAT32 \/ data_type x = DT_INT32 ->
      exists result d' rest,
        DecodeVertexData (Some ve) d = (result, d') /\
        attributes (out_point_cloud_ d') =
        attributes (out_point_cloud_ d) ++
        {| descriptor := Init POSITION 3 (data_type x) false (4 * 3) 0;
           identity_mapping := true;
           buffer := map (tuple_of [x; y; z]) (seq 0 (num_entries ve)) |}
        :: rest)).
Proof.
  split; [apply DecodeVertexData_missing|].
  intros x y z Hx Hy Hz. split; [|split].
  - intros Hty. eexists. split.
    + apply (DecodeVertexData_mismatch ve d x y z Hx Hy Hz Hty).
    + reflexivity.
  - intros Hxy Hyz Hf Hi. eexists. split.
    + apply (DecodeVertexData_bad_type ve d x y z Hx Hy Hz Hxy Hyz Hf Hi).
    + reflexivity.
  - intros Hxy Hyz Hty.
    pose proof (position_type_valid ve x y z Hx Hy Hz Hxy Hyz Hty) as Hpos.
    destruct (DecodeVertexData_position ve d _ Hpos) as (result & rest & Hrun).
    exists result. eexists. exists rest. split; [exact Hrun|].
    rewrite attributes_add_attributes.
    rewrite (position_group_valid ve x y z Hx Hy Hz Hpos).
    destruct Hty as [->| ->]; reflexivity.
Qed.

Lemma position_is_mandatory_witness :
  DecodeVertexData (Some (element 2 [("x", scalar_property DT_FLOAT32 [1; 2])]))
    (new_decoder false) =
  (Failed (mkStatus INVALID_PARAMETER "x, y, or z property is missing"),
   new_decoder false) /\
  exists result d' rest,
    DecodeVertexData (Some (element 2 (sample_xyz DT_INT32)))
      (new_decoder false) = (result, d') /\
    attributes (out_point_cloud_ d') =
    {| descriptor := Init POSITION 3 DT_INT32 false 12 0;
       identity_mapping := true;
       buffer := [[1; 3; 5]; [2; 4; 6]] |} :: rest.
Proof.
  split.
  - apply (proj1 (position_is_mandatory
                    (element 2 [("x", scalar_property DT_FLOAT32 [1; 2])])
                    (new_decoder false))).
    right. left. reflexivity.
  - apply (proj2 (proj2 (proj2 (position_is_mandatory
                    (element 2 (sample_xyz DT_INT32)) (new_decoder false))
                    (scalar_property DT_INT32 [1; 2])
                    (scalar_property DT_INT32 [3; 4])
                    (scalar_property DT_INT32 [5; 6])
                    eq_refl eq_refl eq_refl))).
    + reflexivity.
    + reflexivity.
    + right. reflexivity.
Defined.

(** ** The colour group *)

Lemma color_error_all_uint8 ve :
  color_error ve = None <-> all_uint8 (color_channels ve) = true.
Proof.
  unfold color_error, all_uint8, color_channels.
  cbn [color_names color_messages zip zip_with omap list_omap].
  destruct (GetPropertyByName ve "red"), (GetPropertyByName ve "green"),
    (GetPropertyByName ve "blue"), (GetPropertyByName ve "alpha");
    cbn [forallb]; repeat case_bool_decide; cbn [head andb];
    split; intros Heq; try reflexivity; discriminate Heq.
Qed.

Lemma color_error_message ve message :
  color_error ve = Some message -> In message color_messages.
Proof.
  unfold color_error.
  cbn [color_names color_messages zip zip_with omap list_omap].
  destruct (GetPropertyByName ve "red"), (GetPropertyByName ve "green"),
    (GetPropertyByName ve "blue"), (GetPropertyByName ve "alpha");
    repeat case_bool_decide; cbn [head]; intros Heq;
    inversion Heq; subst; simpl; auto.
Qed.

Lemma color_error_red ve red :
  GetPropertyByName ve "red" = Some red -> data_type red <> DT_UINT8 ->
  color_error ve = Some "Type of 'red' property must be uint8".
Proof.
  intros Hred Hty. unfold color_error.
  cbn [color_names color_messages zip zip_with omap list_omap].
  rewrite Hred. now rewrite bool_decide_eq_false_2.
Qed.

Lemma color_group_tuples ve :
  color_group ve =
  match color_channels ve with
  | [] => []
  | ch =>
      [{| descriptor := Init COLOR (length ch) DT_UINT8 true
                          (Z.of_nat (length ch)) 0;
          identity_mapping := true;
          buffer := map (tuple_of ch) (seq 0 (num_entries ve)) |}]
  end.
Proof.
  unfold color_group. destruct (color_channels ve) as [|p ch]; [reflexivity|].
  rewrite filled_tuples by reflexivity. reflexivity.
Qed.

(** ** The semantics of the groups *)

Lemma semantic_float_group sem names ve :
  Forall (fun a => semantic a = sem) (float_group sem names ve).
Proof.
  unfold float_group.
  destruct (all_present (map (GetPropertyByName ve) names)); [|constructor].
  destruct (all_float32 l); repeat constructor.
Qed.

Lemma semantic_position_group ve :
  Forall (fun a => semantic a = POSITION) (position_group ve).
Proof.
  unfold position_group. destruct (position_type ve); [|constructor].
  destruct (all_present _); repeat constructor.
Qed.

Lemma semantic_frest_group ve :
  Forall (fun a => semantic a = FREST) (frest_group ve).
Proof.
  unfold frest_group. destruct (all_present _); repeat constructor.
Qed.

Lemma not_color_before_color_block ve :
  Forall (fun a => semantic a <> COLOR)
    (position_group ve ++ optional_groups ve).
Proof.
  unfold optional_groups. repeat apply Forall_app_2;
    (eapply Forall_impl;
     [ first [ apply semantic_position_group | apply semantic_float_group
             | apply semantic_frest_group ]
     | intros a Ha; simpl in Ha; rewrite Ha; discriminate ]).
Qed.

(** ** Claims on the colour group *)

(** C6.  For a decode that reaches the colour block (valid position group,
    no absent property read in the coefficient bank): when every present
    channel among red, green, blue, alpha is of type uint8 the decode
    succeeds, and a colour attribute is added exactly when a channel is
    present; it is then the last attribute, of type uint8, with as many
    components as present channels, and its value at each vertex is the tuple
    of the present channels' values in the order red, green, blue, alpha.
    When a present channel is not of type uint8 the decode fails with an
    [INVALID_PARAMETER] status naming a channel, and no colour attribute is
    added. *)
Theorem color_attribute (ve : PlyElement) (d : PlyDecoder) (dt : DataType) :
  position_type ve = Some dt ->
  frest_safe ve = true ->
  let ch := color_channels ve in
  (all_uint8 ch = true ->
   exists others,
     DecodeVertexData (Some ve) d =
     (Done tt,
      add_attributes
        (others ++
         match ch with
         | [] => []
         | _ =>
             [{| descriptor := Init COLOR (length ch) DT_UINT8 true
                                 (Z.of_nat (length ch)) 0;
                 identity_mapping := true;
                 buffer := map (tuple_of ch) (seq 0 (num_entries ve)) |}]
         end)
        (with_num_points (num_entries ve) d)) /\
     Forall (fun a => semantic a <> COLOR) others) /\
  (all_uint8 ch = false ->
   exists message others,
     DecodeVertexData (Some ve) d =
     (Failed (mkStatus INVALID_PARAMETER message),
      add_attributes others (with_num_points (num_entries ve) d)) /\
     In message color_messages /\
     Forall (fun a => semantic a <> COLOR) others).
Proof.
  intros Hpos Hsafe ch. rewrite (DecodeVertexData_run ve d dt Hpos Hsafe).
  split.
  - intros Hall. apply color_error_all_uint8 in Hall. rewrite Hall.
    exists (position_group ve ++ optional_groups ve). split.
    + rewrite color_group_tuples, <- app_assoc. subst ch.
      destruct (color_channels ve); reflexivity.
    + apply not_color_before_color_block.
  - intros Hall. destruct (color_error ve) as [message|] eqn:Herr.
    + exists message, (position_group ve ++ optional_groups ve).
      split; [reflexivity|]. split.
      * now apply color_error_message with ve.
      * apply not_color_before_color_block.
    + apply color_error_all_uint8 in Herr. fold ch in Herr. congruence.
Qed.

Lemma color_attribute_witness :
  exists others,
    DecodeVertexData (Some sample_red_blue) (new_decoder false) =
    (Done tt,
     add_attributes
       (others ++
        [{| descriptor := Init COLOR 2 DT_UINT8 true 2 0;
            identity_mapping := true;
            buffer := [[7; 9]; [8; 10]] |}])
       (with_num_points 2 (new_decoder false))) /\
    Forall (fun a => semantic a <> COLOR) others.
Proof.
  exact (proj1 (color_attribute sample_red_blue (new_decoder false)
                  DT_FLOAT32 eq_refl eq_refl) eq_refl).
Defined.

(** ** The scan order of the groups *)

Lemma map_semantic_float_group sem names ve :
  map semantic (float_group sem names ve) =
  if float_matched names ve then [sem] else [].
Proof.
  unfold float_group, float_matched.
  destruct (all_present (map (GetPropertyByName ve) names)); [|reflexivity].
  destruct (all_float32 l); reflexivity.
Qed.

Lemma map_semantic_frest_group ve :
  frest_safe ve = true ->
  map semantic (frest_group ve) =
  if frest_committed ve then [FREST] else [].
Proof.
  unfold frest_safe. intros Hsafe.
  destruct (frest_complete ve) eqn:Hcomp.
  - rewrite (frest_complete_committed ve Hcomp).
    unfold frest_complete in Hcomp. unfold frest_group.
    destruct (all_present _); [reflexivity|discriminate].
  - destruct (frest_committed ve) eqn:Hc; [discriminate|].
    unfold frest_complete in Hcomp. unfold frest_group.
    destruct (all_present _); [discriminate|reflexivity].
Qed.

Lemma position_type_present ve dt :
  position_type ve = Some dt ->
  exists ps, all_present (map (GetPropertyByName ve) ["x"; "y"; "z"]) = Some ps.
Proof.
  unfold position_type. cbn [map all_present].
  destruct (GetPropertyByName ve "x"); [|discriminate].
  destruct (GetPropertyByName ve "y"); [|discriminate].
  destruct (GetPropertyByName ve "z"); [|discriminate].
  eauto.
Qed.

Lemma map_semantic_decoded_groups ve dt :
  position_type ve = Some dt -> frest_safe ve = true ->
  map semantic (decoded_groups ve) = List.filter (group_matched ve) scan_order.
Proof.
  intros Hpos Hsafe. unfold decoded_groups, optional_groups.
  rewrite !map_app, !map_semantic_float_group,
    (map_semantic_frest_group ve Hsafe).
  destruct (position_type_present ve dt Hpos) as [ps Hps].
  unfold position_group, color_group. rewrite Hpos, Hps.
  unfold scan_order. cbn [List.filter group_matched]. rewrite Hpos.
  destruct (float_matched normal_names ve), (float_matched fdc_names ve),
    (frest_committed ve), (float_matched opacity_names ve),
    (float_matched scale_names ve), (float_matched rot_names ve),
    (color_channels ve); reflexivity.
Qed.

(** A decode that succeeds had a valid position group, met no absent bank
    property and no colour channel of a wrong type, and added the decoded
    groups. *)
Lemma DecodeVertexData_Done ve d d' :
  DecodeVertexData (Some ve) d = (Done tt, d') ->
  exists dt,
    position_type ve = Some dt /\ frest_safe ve = true /\
    color_error ve = None /\
    d' = add_attributes (decoded_groups ve)
           (with_num_points (num_entries ve) d).
Proof.
  intros Hrun. destruct (position_type ve) as [dt|] eqn:Hpos.
  - exists dt. destruct (frest_safe ve) eqn:Hsafe.
    + rewrite (DecodeVertexData_run ve d dt Hpos Hsafe) in Hrun.
      destruct (color_error ve); inversion Hrun. auto.
    + apply frest_unsafe in Hsafe. destruct Hsafe as [Hc Hcomp].
      rewrite (DecodeVertexData_partial_bank ve d dt Hpos Hc Hcomp) in Hrun.
      discriminate.
  - destruct (DecodeVertexData_invalid ve d Hpos) as (m & d'' & H & _).
    rewrite H in Hrun. discriminate.
Qed.

(** ** Claims on the order of the attributes and on partial outputs *)

(** C8.  On a successful decode the attributes are appended to the geometry
    in the scan order position, normal, colour-DC, colour-rest, opacity,
    scale, rotation, colour, restricted to the groups that matched; ids are
    the positions in the attribute list, so they follow this order and the
    position attribute has the first of the ids assigned by the run. *)
Theorem attributes_follow_scan_order (ve : PlyElement) (d d' : PlyDecoder) :
  DecodeVertexData (Some ve) d = (Done tt, d') ->
  exists added,
    attributes (out_point_cloud_ d') =
      attributes (out_point_cloud_ d) ++ added /\
    map semantic added = List.filter (group_matched ve) scan_order /\
    head (map semantic added) = Some POSITION /\
    (forall k a, added !! k = Some a ->
       attributes (out_point_cloud_ d') !!
         (length (attributes (out_point_cloud_ d)) + k)%nat = Some a).
Proof.
  intros Hrun.
  destruct (DecodeVertexData_Done ve d d' Hrun)
    as (dt & Hpos & Hsafe & _ & ->).
  exists (decoded_groups ve). split; [reflexivity|]. split; [|split].
  - apply (map_semantic_decoded_groups ve dt Hpos Hsafe).
  - rewrite (map_semantic_decoded_groups ve dt Hpos Hsafe).
    unfold scan_order. cbn [List.filter group_matched]. now rewrite Hpos.
  - intros k a Hk. rewrite attributes_add_attributes.
    rewrite lookup_app_r by (simpl; lia).
    simpl. replace (_ + k - _)%nat with k by lia. exact Hk.
Qed.

Lemma attributes_follow_scan_order_witness :
  exists d' added,
    DecodeVertexData (Some sample_groups) (new_decoder false) = (Done tt, d') /\
    attributes (out_point_cloud_ d') = added /\
    map semantic added = [POSITION; NORMAL; OPACITY; COLOR].
Proof.
  exists (DecodeVertexData (Some sample_groups) (new_decoder false)).2.
  destruct (attributes_follow_scan_order sample_groups (new_decoder false)
              (DecodeVertexData (Some sample_groups) (new_decoder false)).2
              eq_refl) as (added & Hatts & Hsem & _).
  exists added. split; [vm_compute; reflexivity|].
  split; [exact Hatts | exact Hsem].
Defined.

(** C9.  No rollback.  With [x], [y], [z] of type float32, a red channel
    present with a type other than uint8 and no absent bank property read,
    the decode returns the [INVALID_PARAMETER] status of the red check, and
    the geometry it leaves has the point count set and the position attribute
    added. *)
Theorem no_rollback_on_color_error (ve : PlyElement) (d : PlyDecoder)
    (x y z red : PlyProperty) :
  GetPropertyByName ve "x" = Some x -> GetPropertyByName ve "y" = Some y ->
  GetPropertyByName ve "z" = Some z ->
  data_type x = DT_FLOAT32 -> data_type y = DT_FLOAT32 ->
  data_type z = DT_FLOAT32 ->
  GetPropertyByName ve "red" = Some red -> data_type red <> DT_UINT8 ->
  frest_safe ve = true ->
  exists d' rest,
    DecodeVertexData (Some ve) d =
    (Failed (mkStatus INVALID_PARAMETER
               "Type of 'red' property must be uint8"), d') /\
    num_points (out_point_cloud_ d') = num_entries ve /\
    attributes (out_point_cloud_ d') =
    attributes (out_point_cloud_ d) ++
    {| descriptor := Init POSITION 3 DT_FLOAT32 false (4 * 3) 0;
       identity_mapping := true;
       buffer := map (tuple_of [x; y; z]) (seq 0 (num_entries ve)) |}
    :: rest.
Proof.
  intros Hx Hy Hz Htx Hty Htz Hred Htred Hsafe.
  assert (Hpos : position_type ve = Some (data_type x)).
  { apply (position_type_valid ve x y z); auto; congruence. }
  rewrite (DecodeVertexData_run ve d _ Hpos Hsafe).
  rewrite (color_error_red ve red Hred Htred).
  eexists. exists (optional_groups ve). split; [reflexivity|].
  split; [reflexivity|].
  rewrite attributes_add_attributes.
  rewrite (position_group_valid ve x y z Hx Hy Hz Hpos). rewrite Htx.
  reflexivity.
Qed.

Lemma no_rollback_on_color_error_witness :
  exists d' rest,
    DecodeVertexData (Some sample_red_float) (new_decoder false) =
    (Failed (mkStatus INVALID_PARAMETER
               "Type of 'red' property must be uint8"), d') /\
    num_points (out_point_cloud_ d') = 2%nat /\
    attributes (out_point_cloud_ d') =
    {| descriptor := Init POSITION 3 DT_FLOAT32 false 12 0;
       identity_mapping := true;
       buffer := [[1; 3; 5]; [2; 4; 6]] |} :: rest.
Proof.
  refine (no_rollback_on_color_error sample_red_float (new_decoder false)
            (scalar_property DT_FLOAT32 [1; 2])
            (scalar_property DT_FLOAT32 [3; 4])
            (scalar_property DT_FLOAT32 [5; 6])
            (scalar_property DT_FLOAT32 [7; 8])
            eq_refl eq_refl eq_refl eq_refl eq_refl eq_refl eq_refl _
            eq_refl).
  simpl. discriminate.
Defined.

(** ** Claims on the coefficient bank *)

Lemma frest_absent_incomplete ve k name :
  f_rest_names !! k = Some name -> GetPropertyByName ve name = None ->
  frest_complete ve = false.
Proof.
  intros Hk Hname. unfold frest_complete.
  rewrite (all_present_absent _ k); [reflexivity|].
  rewrite list_lookup_fmap, Hk. simpl. now rewrite Hname.
Qed.

(** C2.  With a valid position group, when [f_rest_0], [f_rest_1] and
    [f_rest_2] are present and some [f_rest_k], 3 <= k <= 44, is absent, the
    bank block builds a reader over the absent property: the block, and with
    it the decode, ends in the null dereference. *)
Theorem bank_reads_absent_property (ve : PlyElement) (d : PlyDecoder)
    (dt : DataType) (k : nat) (name : string) :
  position_type ve = Some dt ->
  frest_committed ve = true ->
  (3 <= k <= 44)%nat ->
  f_rest_names !! k = Some name ->
  GetPropertyByName ve name = None ->
  decode_frest ve (num_entries ve) d = (UB NullDereference, d) /\
  exists d', DecodeVertexData (Some ve) d = (UB NullDereference, d').
Proof.
  intros Hpos Hc Hk Hname Habsent.
  pose proof (frest_absent_incomplete ve k name Hname Habsent) as Hcomp.
  split.
  - apply (decode_frest_partial ve d Hc Hcomp).
  - eexists. apply (DecodeVertexData_partial_bank ve d dt Hpos Hc Hcomp).
Qed.

Lemma bank_reads_absent_property_witness :
  exists d',
    DecodeVertexData (Some sample_partial_bank) (new_decoder false) =
    (UB NullDereference, d').
Proof.
  refine (proj2 (bank_reads_absent_property sample_partial_bank
                   (new_decoder false) DT_FLOAT32 3 "f_rest_3"
                   eq_refl eq_refl _ eq_refl eq_refl)).
  lia.
Defined.

(** A float32 group whose properties are present but not all of type
    float32 contributes no attribute. *)
Lemma float_group_type_mismatch sem names ve ps :
  all_present (map (GetPropertyByName ve) names) = Some ps ->
  all_float32 ps = false ->
  float_group sem names ve = [].
Proof. intros Hps Hty. unfold float_group. now rewrite Hps, Hty. Qed.

(** C1 (the code departs from the claim on the coefficient bank).  The bank
    block tests no data type: on a vertex element whose 45 bank properties
    are present with type int32 the decode succeeds and adds the FREST
    attribute, while the colour-DC group, of type int32 too, is skipped. *)
Theorem bank_type_is_not_checked :
  forallb (fun name =>
             match GetPropertyByName sample_bank_int32 name with
             | Some p => bool_decide (data_type p = DT_INT32)
             | None => false
             end) (fdc_names ++ f_rest_names) = true /\
  exists d',
    DecodeVertexData (Some sample_bank_int32) (new_decoder false) =
      (Done tt, d') /\
    map semantic (attributes (out_point_cloud_ d')) = [POSITION; FREST].
Proof.
  split; [vm_compute; reflexivity|].
  eexists. split; vm_compute; reflexivity.
Qed.

(** ** Claims on an empty vertex element *)

Lemma empty_float_group sem names ve :
  num_entries ve = 0%nat ->
  Forall (fun a => buffer a = []) (float_group sem names ve).
Proof.
  intros Hn. unfold float_group. rewrite Hn.
  destruct (all_present _); [|constructor].
  destruct (all_float32 l); repeat constructor.
Qed.

Lemma empty_decoded_groups ve :
  num_entries ve = 0%nat ->
  Forall (fun a => buffer a = []) (decoded_groups ve).
Proof.
  intros Hn. unfold decoded_groups, optional_groups.
  repeat apply Forall_app_2; try (now apply empty_float_group).
  - unfold position_group. rewrite Hn.
    destruct (position_type ve); [|constructor].
    destruct (all_present _); repeat constructor.
  - unfold frest_group. rewrite Hn.
    destruct (all_present _); repeat constructor.
  - unfold color_group. rewrite Hn.
    destruct (color_channels ve); repeat constructor.
Qed.

(** C10, as stated, fails: a vertex element with zero entries and [x], [y],
    [z] of type float32 whose red channel is of type float32 is not decoded
    with success, the colour check fails. *)
Lemma empty_vertex_element_color_check :
  num_entries sample_empty_red_float = 0%nat /\
  position_type sample_empty_red_float = Some DT_FLOAT32 /\
  (DecodeVertexData (Some sample_empty_red_float) (new_decoder false)).1 =
    Failed (mkStatus INVALID_PARAMETER
              "Type of 'red' property must be uint8") /\
  (DecodeVertexData (Some sample_empty_red_float) (new_decoder false)).1 <>
    Done tt.
Proof.
  split; [reflexivity|]. split; [reflexivity|]. split.
  - vm_compute. reflexivity.
  - vm_compute. discriminate.
Qed.

(** C10, amended.  For a vertex element with zero entries that carries [x],
    [y], [z] of a valid common type, whose present colour channels are all of
    type uint8 and whose coefficient bank is not read through an absent
    property, the decode succeeds: the point count is set to 0, each matched
    group adds its attribute, in scan order, and every attribute added has an
    empty buffer. *)
Theorem empty_vertex_element (ve : PlyElement) (d : PlyDecoder)
    (dt : DataType) :
  num_entries ve = 0%nat ->
  position_type ve = Some dt ->
  frest_safe ve = true ->
  all_uint8 (color_channels ve) = true ->
  exists added,
    DecodeVertexData (Some ve) d =
      (Done tt, add_attributes added (with_num_points 0 d)) /\
    map semantic added = List.filter (group_matched ve) scan_order /\
    Forall (fun a => buffer a = []) added.
Proof.
  intros Hn Hpos Hsafe Hcolor. apply color_error_all_uint8 in Hcolor.
  exists (decoded_groups ve). split; [|split].
  - rewrite (DecodeVertexData_run ve d dt Hpos Hsafe), Hcolor, Hn.
    reflexivity.
  - apply (map_semantic_decoded_groups ve dt Hpos Hsafe).
  - now apply empty_decoded_groups.
Qed.

Lemma empty_vertex_element_witness :
  exists added,
    DecodeVertexData (Some sample_empty) (new_decoder false) =
      (Done tt, add_attributes added (with_num_points 0 (new_decoder false))) /\
    map semantic added = [POSITION; OPACITY; COLOR] /\
    Forall (fun a => buffer a = []) added.
Proof.
  exact (empty_vertex_element sample_empty (new_decoder false) DT_INT32
           eq_refl eq_refl eq_refl eq_refl).
Defined.

(** * Further properties of the decoder *)

(** ** Outcomes of DecodeFaceData *)

(** The four ways a run of [DecodeFaceData] ends. *)
Lemma DecodeFaceData_cases fe d :
  (fe = None /\ DecodeFaceData fe d = (Done tt, d)) \/
  (DecodeFaceData fe d =
     (Failed (mkStatus DRACO_ERROR "No faces defined"), d)) \/
  (out_mesh_ d = false /\ DecodeFaceData fe d = (UB NullDereference, d)) \/
  (exists e vi,
     fe = Some e /\ out_mesh_ d = true /\
     face_indices_property e = Some vi /\ is_list vi = true /\
     DecodeFaceData fe d =
     (Done tt,
      with_faces (concat (map (emitted vi) (seq 0 (num_entries e)))) d)).
Proof.
  destruct fe as [e|]; [|now left].
  destruct (face_indices_property e) as [vi|] eqn:Hvi.
  - destruct (is_list vi) eqn:Hlist.
    + destruct (out_mesh_ d) eqn:Hmesh.
      * right. right. right. exists e, vi. repeat split; auto.
        now apply DecodeFaceData_run.
      * right. right. left. split; [reflexivity|].
        unfold DecodeFaceData. unfold face_indices_property in Hvi.
        rewrite Hvi, Hlist. cbn [negb].
        apply bind_ub. unfold SetNumFaces, through_out_mesh.
        now rewrite Hmesh.
    + right. left. unfold DecodeFaceData.
      unfold face_indices_property in Hvi. now rewrite Hvi, Hlist.
  - right. left. unfold DecodeFaceData.
    unfold face_indices_property in Hvi. now rewrite Hvi.
Qed.

(** ** The face assembler: lookup order, frame, safety *)

(** X1.  The index-list property is looked up under [vertex_indices] first
    and under [vertex_index] only when there is no property of the first
    name: a scalar [vertex_indices] fails the decode whatever [vertex_index]
    holds; a face element is decoded like any other one with the same entry
    count and the same [vertex_indices] property, whatever [vertex_index]
    holds; and when [vertex_indices] is absent, [vertex_index] is decoded as
    if it were named [vertex_indices]. *)
Theorem face_property_lookup_order (fe : PlyElement) (d : PlyDecoder) :
  (forall p, GetPropertyByName fe "vertex_indices" = Some p ->
     is_list p = false ->
     DecodeFaceData (Some fe) d =
     (Failed (mkStatus DRACO_ERROR "No faces defined"), d)) /\
  (forall vi fe',
     GetPropertyByName fe "vertex_indices" = Some vi ->
     GetPropertyByName fe' "vertex_indices" = Some vi ->
     num_entries fe' = num_entries fe ->
     DecodeFaceData (Some fe) d = DecodeFaceData (Some fe') d) /\
  (forall vi fe',
     GetPropertyByName fe "vertex_indices" = None ->
     GetPropertyByName fe "vertex_index" = Some vi ->
     GetPropertyByName fe' "vertex_indices" = Some vi ->
     num_entries fe' = num_entries fe ->
     DecodeFaceData (Some fe) d = DecodeFaceData (Some fe') d).
Proof.
  split; [|split].
  - intros p Hp Hlist. unfold DecodeFaceData. now rewrite Hp, Hlist.
  - intros vi fe' Hvi Hvi' Hn. unfold DecodeFaceData, CountNumTriangles.
    now rewrite Hvi, Hvi', Hn.
  - intros vi fe' Hnone Hvi Hvi' Hn. unfold DecodeFaceData, CountNumTriangles.
    now rewrite Hnone, Hvi, Hvi', Hn.
Qed.

Lemma face_property_lookup_order_witness :
  DecodeFaceData (Some sample_both_names) (new_decoder true) =
    (Failed (mkStatus DRACO_ERROR "No faces defined"), new_decoder true) /\
  DecodeFaceData (Some sample_vertex_index) (new_decoder true) =
    DecodeFaceData (Some sample_faces) (new_decoder true).
Proof.
  split.
  - exact (proj1 (face_property_lookup_order sample_both_names
                    (new_decoder true))
             (scalar_property DT_INT32 [0]) eq_refl eq_refl).
  - exact (proj2 (proj2 (face_property_lookup_order sample_vertex_index
                           (new_decoder true)))
             sample_indices sample_faces eq_refl eq_refl eq_refl eq_refl).
Defined.

(** X2.  [DecodeFaceData] changes nothing but the face list: the point
    count, the attributes and [out_mesh_] are as before in every outcome,
    and a run that does not return OK leaves the whole decoder as it was. *)
Theorem DecodeFaceData_frame (fe : option PlyElement) (d : PlyDecoder) :
  num_points (out_point_cloud_ (DecodeFaceData fe d).2) =
    num_points (out_point_cloud_ d) /\
  attributes (out_point_cloud_ (DecodeFaceData fe d).2) =
    attributes (out_point_cloud_ d) /\
  out_mesh_ (DecodeFaceData fe d).2 = out_mesh_ d /\
  ((DecodeFaceData fe d).1 = Done tt \/ (DecodeFaceData fe d).2 = d).
Proof.
  destruct (DecodeFaceData_cases fe d)
    as [[_ H]|[H|[[_ H]|(e & vi & _ & _ & _ & _ & H)]]];
    rewrite H; simpl; auto.
Qed.

(** X3.  The face list [DecodeFaceData] leaves does not depend on the faces
    the mesh held before, and decoding the same face element a second time
    changes nothing: the second run returns what the first returned and
    leaves the state the first left. *)
Theorem DecodeFaceData_idempotent (fe : option PlyElement) (d : PlyDecoder) :
  (DecodeFaceData fe ;;; DecodeFaceData fe) d = DecodeFaceData fe d /\
  (forall fs e, fe = Some e ->
     (DecodeFaceData fe d).1 = Done tt ->
     DecodeFaceData fe (with_faces fs d) = DecodeFaceData fe d).
Proof.
  destruct (DecodeFaceData_cases fe d)
    as [[Hfe H]|[H|[[Hmesh H]|(e & vi & Hfe & Hmesh & Hvi & Hlist & H)]]].
  - split.
    + now rewrite (bind_done _ _ _ _ _ H).
    + intros fs e He. congruence.
  - split.
    + now rewrite (bind_failed _ _ _ _ _ H).
    + intros fs e _ Hdone. rewrite H in Hdone. discriminate.
  - split.
    + now rewrite (bind_ub _ _ _ _ _ H).
    + intros fs e _ Hdone. rewrite H in Hdone. discriminate.
  - subst fe. split.
    + rewrite (bind_done _ _ _ _ _ H), H.
      now rewrite (DecodeFaceData_run e vi (with_faces _ d) Hmesh Hvi Hlist).
    + intros fs e' _ _.
      rewrite (DecodeFaceData_run e vi (with_faces fs d) Hmesh Hvi Hlist).
      now rewrite H.
Qed.



(** ** CountNumTriangles *)

Lemma sum_Z_cons x l : sum_Z (x :: l) = x + sum_Z l.
Proof. reflexivity. Qed.

Lemma sum_triangles_nonneg sizes :
  0 <= sum_Z (map triangles_of_size sizes).
Proof.
  induction sizes as [|s sizes IH]; [reflexivity|].
  cbn [map]. rewrite sum_Z_cons.
  pose proof (triangles_of_size_nonneg s). lia.
Qed.

Lemma sum_triangles_zero sizes :
  sum_Z (map triangles_of_size sizes) = 0 <-> Forall (fun s => s < 3) sizes.
Proof.
  induction sizes as [|s sizes IH].
  - split; [constructor|reflexivity].
  - cbn [map]. rewrite sum_Z_cons.
    pose proof (triangles_of_size_nonneg s) as Hs.
    pose proof (sum_triangles_nonneg sizes) as Hsum.
    split.
    + intros H. assert (triangles_of_size s = 0) as Hz by lia.
      constructor.
      * unfold triangles_of_size in Hz. destruct (Z.ltb_spec s 3); lia.
      * apply IH. lia.
    + intros H. inversion H as [|? ? Hlt Hrest]; subst.
      apply IH in Hrest.
      assert (triangles_of_size s = 0)
        by (unfold triangles_of_size; destruct (Z.ltb_spec s 3); lia).
      lia.
Qed.

Lemma sum_triangles_le sizes :
  sum_Z (map triangles_of_size sizes) <= sum_Z (map (Z.max 0) sizes).
Proof.
  induction sizes as [|s sizes IH]; [reflexivity|].
  cbn [map]. rewrite !sum_Z_cons.
  assert (triangles_of_size s <= Z.max 0 s)
    by (unfold triangles_of_size; destruct (Z.ltb_spec s 3); lia).
  lia.
Qed.

(** X5.  [CountNumTriangles] is never negative, never exceeds the number of
    indices of the face element, and is zero exactly when every polygon
    entry has fewer than three indices. *)
Theorem CountNumTriangles_bounds (fe : PlyElement) (vi : PlyProperty) :
  0 <= CountNumTriangles fe vi /\
  CountNumTriangles fe vi <= sum_Z (map (Z.max 0) (list_sizes fe vi)) /\
  (CountNumTriangles fe vi = 0 <->
   forall i, (i < num_entries fe)%nat -> GetListEntryNumValues vi i < 3).
Proof.
  rewrite CountNumTriangles_sum. split; [apply sum_triangles_nonneg|].
  split; [apply sum_triangles_le|].
  rewrite sum_triangles_zero. unfold list_sizes. rewrite Forall_forall.
  split.
  - intros H i Hi. apply H. apply list_elem_of_In, in_map, in_seq. lia.
  - intros H s Hs. apply list_elem_of_In, in_map_iff in Hs.
    destruct Hs as (i & <- & Hi). apply in_seq in Hi. apply H. lia.
Qed.

(** ** Index lists stored one after the other *)

Lemma map_nth_seq_id {A} (l : list A) (dflt : A) :
  map (fun k => nth k l dflt) (seq 0 (length l)) = l.
Proof.
  apply nth_ext with (d := dflt) (d' := dflt).
  - now rewrite length_map, length_seq.
  - intros k Hk. rewrite length_map, length_seq in Hk.
    rewrite (nth_indep _ dflt (nth 0 l dflt))
      by (now rewrite length_map, length_seq).
    rewrite (map_nth (fun k => nth k l dflt)). now rewrite seq_nth.
Qed.

Lemma map_over_indices {A B} (f : list A -> B) (lists : list (list A)) :
  map (fun i => f (nth i lists [])) (seq 0 (length lists)) = map f lists.
Proof.
  transitivity (map f (map (fun i => nth i lists []) (seq 0 (length lists)))).
  - now rewrite map_map.
  - now rewrite map_nth_seq_id.
Qed.

Lemma length_concat_take (lists : list (list Z)) j :
  (length (concat (take j lists)) <= length (concat lists))%nat.
Proof.
  rewrite <- (take_drop j lists) at 2. rewrite concat_app, length_app. lia.
Qed.

Lemma concat_take_S (lists : list (list Z)) i l :
  lists !! i = Some l ->
  concat (take (S i) lists) = concat (take i lists) ++ l.
Proof.
  intros Hl. rewrite (take_S_r _ _ _ Hl), concat_app. simpl.
  now rewrite app_nil_r.
Qed.

(** In a property built from index lists, entry [i] is list [i], each value
    as a 32-bit unsigned integer. *)
Lemma polygon_list_property dt (lists : list (list Z)) i l :
  lists !! i = Some l ->
  polygon (list_property dt lists) i = map PointIndex_of l.
Proof.
  intros Hl. unfold polygon.
  cbn [list_property GetListEntryNumValues GetListEntryOffset].
  rewrite (nth_lookup_Some _ _ _ _ Hl). rewrite Nat2Z.id.
  transitivity (map PointIndex_of
                  (map (fun k => nth k l 0) (seq 0 (length l))));
    [|now rewrite map_nth_seq_id].
  rewrite map_map. apply map_ext_in. intros k Hk. apply in_seq in Hk.
  f_equal. cbn [list_property GetDataEntry]. unfold read_list.
  destruct (Z.ltb_spec (Z.of_nat (length (concat (take i lists))) +
                        Z.of_nat k) 0) as [Hneg|_]; [lia|].
  rewrite <- Nat2Z.inj_add, Nat2Z.id.
  rewrite <- (take_drop_middle lists i l Hl) at 2.
  rewrite concat_app. cbn [concat].
  rewrite app_nth2 by lia.
  replace (_ + k - _)%nat with k by lia.
  now rewrite app_nth1 by lia.
Qed.

Lemma list_property_fits dt (lists : list (list Z)) :
  Z.of_nat (length (concat lists)) <= 2 ^ 31 ->
  indices_fit_int
    (element (length lists) [("vertex_indices", list_property dt lists)])
    (list_property dt lists).
Proof.
  intros Hlen i Hi Hsize. cbn [num_entries element] in Hi.
  destruct (lookup_lt_is_Some_2 lists i Hi) as [l Hl].
  unfold list_property. cbn [GetListEntryOffset GetListEntryNumValues].
  rewrite (nth_lookup_Some _ _ _ _ Hl).
  split; [lia|].
  rewrite <- Nat2Z.inj_add, <- length_app, <- (concat_take_S lists i l Hl).
  pose proof (length_concat_take lists (S i)). lia.
Qed.

Lemma fan_triangulation_triangle (l : list PointIndex) :
  length l = 3%nat ->
  fan_triangulation l =
  [(nth 0 l (PointIndex_of 0), nth 1 l (PointIndex_of 0),
    nth 2 l (PointIndex_of 0))].
Proof. intros H. unfold fan_triangulation. now rewrite H. Qed.

Lemma value_PointIndex_of z : fits_uint32 z -> value (PointIndex_of z) = z.
Proof. intros Hz. simpl. now apply Z.mod_small. Qed.

(** X6.  A list of polygons stored as an index-list property of an integer
    type (at most 2^31 indices in all) decodes to the fan triangulations of
    the polygons, in order, each index reduced to a 32-bit unsigned integer;
    in particular a list of triangles whose indices fit 32 bits decodes to
    itself. *)
Theorem polygons_round_trip (dt : DataType) (lists : list (list Z))
    (d : PlyDecoder) :
  out_mesh_ d = true ->
  ply_integer dt = true ->
  Z.of_nat (length (concat lists)) <= 2 ^ 31 ->
  DecodeFaceData
    (Some (element (length lists)
             [("vertex_indices", list_property dt lists)])) d =
    (Done tt,
     with_faces
       (concat (map (fun l => fan_triangulation (map PointIndex_of l))
                  lists)) d) /\
  (Forall (fun l => length l = 3%nat) lists ->
   Forall (Forall fits_uint32) lists ->
   map face_values
     (concat (map (fun l => fan_triangulation (map PointIndex_of l)) lists)) =
   map (fun l => (nth 0 l 0, nth 1 l 0, nth 2 l 0)) lists).
Proof.
  intros Hmesh Hdt Hlen. split.
  - rewrite (DecodeFaceData_run
               (element (length lists)
                  [("vertex_indices", list_property dt lists)])
               (list_property dt lists) d Hmesh eq_refl eq_refl).
    rewrite (emitted_fan_all _ (list_property dt lists) Hdt
               (list_property_fits dt lists Hlen)).
    cbn [num_entries element]. f_equal. f_equal.
    rewrite <- (map_over_indices
                  (fun l => fan_triangulation (map PointIndex_of l)) lists).
    f_equal. apply map_ext_in. intros i Hi. apply in_seq in Hi.
    destruct (lookup_lt_is_Some_2 lists i) as [l Hl]; [lia|].
    rewrite (polygon_list_property dt lists i l Hl).
    now rewrite (nth_lookup_Some _ _ _ _ Hl).
  - clear Hlen. intros Hall Hfit.
    induction Hall as [|l lists Hl _ IH]; [reflexivity|].
    inversion Hfit as [|? ? Hl32 Hrest]; subst.
    cbn [map concat].
    rewrite (fan_triangulation_triangle (map PointIndex_of l))
      by (now rewrite length_map).
    cbn [app map]. rewrite (IH Hrest). f_equal.
    destruct l as [|a [|b [|c [|? ?]]]]; try discriminate.
    inversion Hl32 as [|? ? Ha Hl1]; subst.
    inversion Hl1 as [|? ? Hb Hl2]; subst.
    inversion Hl2 as [|? ? Hc _]; subst.
    unfold face_values. cbn [map nth fst snd].
    now rewrite !value_PointIndex_of.
Qed.

Lemma polygons_round_trip_witness :
  DecodeFaceData
    (Some (element 2 [("vertex_indices",
                       list_property DT_INT32 [[0; 1; 2]; [2; -1; 3]])]))
    (new_decoder true) =
  (Done tt,
   with_faces [face_of 0 1 2; face_of 2 4294967295 3] (new_decoder true)).
Proof.
  refine (eq_trans
            (proj1 (polygons_round_trip DT_INT32 [[0; 1; 2]; [2; -1; 3]]
                      (new_decoder true) eq_refl _ _)) _).
  - reflexivity.
  - simpl. lia.
  - cbn [map concat app fan_triangulation length Nat.sub seq nth Nat.add].
    unfold face_of.
    replace (PointIndex_of (-1)) with (PointIndex_of 4294967295)
      by (now apply PointIndex_eq).
    reflexivity.
Defined.

(** ** Effects of DecodeVertexData *)

(** Whatever the geometry it starts from, a run of [DecodeVertexData] on a
    vertex element returns the same result, sets the point count or not, and
    appends the same attributes. *)
Lemma DecodeVertexData_effect ve :
  exists r n added, forall d,
    DecodeVertexData ve d = (r, add_attributes added (maybe_points n d)).
Proof.
  destruct ve as [ve|].
  2:{ eexists. exists None, []. intros d. rewrite add_attributes_nil.
      reflexivity. }
  destruct (position_type ve) as [dt|] eqn:Hpos.
  - destruct (frest_safe ve) eqn:Hsafe.
    + destruct (color_error ve) as [message|] eqn:Herr.
      * eexists. exists (Some (num_entries ve)). eexists. intros d.
        rewrite (DecodeVertexData_run ve d dt Hpos Hsafe), Herr.
        reflexivity.
      * eexists. exists (Some (num_entries ve)). eexists. intros d.
        rewrite (DecodeVertexData_run ve d dt Hpos Hsafe), Herr.
        reflexivity.
    + apply frest_unsafe in Hsafe. destruct Hsafe as [Hc Hcomp].
      eexists. exists (Some (num_entries ve)). eexists. intros d.
      rewrite (DecodeVertexData_partial_bank ve d dt Hpos Hc Hcomp).
      reflexivity.
  - apply position_type_None in Hpos.
    destruct Hpos
      as [H|(x & y & z & Hx & Hy & Hz & [H|(Hxy & Hyz & Hf & Hi)])].
    + eexists. exists None, []. intros d.
      rewrite (DecodeVertexData_missing ve d H), add_attributes_nil.
      reflexivity.
    + eexists. exists (Some (num_entries ve)), []. intros d.
      rewrite (DecodeVertexData_mismatch ve d x y z Hx Hy Hz H),
        add_attributes_nil.
      reflexivity.
    + eexists. exists (Some (num_entries ve)), []. intros d.
      rewrite (DecodeVertexData_bad_type ve d x y z Hx Hy Hz Hxy Hyz Hf Hi),
        add_attributes_nil.
      reflexivity.
Qed.

Lemma faces_add_attributes added n d :
  faces (out_point_cloud_ (add_attributes added (maybe_points n d))) =
  faces (out_point_cloud_ d).
Proof. destruct n; reflexivity. Qed.

Lemma out_mesh_add_attributes added n d :
  out_mesh_ (add_attributes added (maybe_points n d)) = out_mesh_ d.
Proof. destruct n; reflexivity. Qed.

Lemma attributes_maybe_points added n d :
  attributes (out_point_cloud_ (add_attributes added (maybe_points n d))) =
  attributes (out_point_cloud_ d) ++ added.
Proof. destruct n; reflexivity. Qed.

(** X7.  [DecodeVertexData] never touches the face list nor [out_mesh_], and
    only appends to the attribute list; the status it returns and the
    attributes it appends depend on the vertex element alone, not on what the
    output geometry held. *)
Theorem DecodeVertexData_frame (ve : option PlyElement) (d : PlyDecoder) :
  faces (out_point_cloud_ (DecodeVertexData ve d).2) =
    faces (out_point_cloud_ d) /\
  out_mesh_ (DecodeVertexData ve d).2 = out_mesh_ d /\
  exists added, forall d',
    (DecodeVertexData ve d').1 = (DecodeVertexData ve d).1 /\
    attributes (out_point_cloud_ (DecodeVertexData ve d').2) =
      attributes (out_point_cloud_ d') ++ added.
Proof.
  destruct (DecodeVertexData_effect ve) as (r & n & added & H).
  rewrite (H d). cbn [fst snd]. split; [apply faces_add_attributes|].
  split; [apply out_mesh_add_attributes|].
  exists added. intros d'. rewrite (H d'). cbn [fst snd].
  split; [reflexivity|apply attributes_maybe_points].
Qed.

(** X8.  The point count after [DecodeVertexData] is the entry count of the
    vertex element as soon as [x], [y] and [z] are all present, whether the
    run then succeeds or not; when one of them is absent the point count is
    left as it was. *)
Theorem point_count_after_decode (ve : PlyElement) (d : PlyDecoder) :
  num_points (out_point_cloud_ (DecodeVertexData (Some ve) d).2) =
  match all_present (map (GetPropertyByName ve) ["x"; "y"; "z"]) with
  | Some _ => num_entries ve
  | None => num_points (out_point_cloud_ d)
  end.
Proof.
  destruct (position_type ve) as [dt|] eqn:Hpos.
  - destruct (position_type_present ve dt Hpos) as [ps ->].
    destruct (DecodeVertexData_position ve d dt Hpos) as (r & rest & ->).
    reflexivity.
  - apply position_type_None in Hpos. cbn [map all_present].
    destruct Hpos
      as [H|(x & y & z & Hx & Hy & Hz & [H|(Hxy & Hyz & Hf & Hi)])].
    + rewrite (DecodeVertexData_missing ve d H).
      destruct (GetPropertyByName ve "x"), (GetPropertyByName ve "y"),
        (GetPropertyByName ve "z"); try reflexivity.
      destruct H as [H|[H|H]]; discriminate.
    + rewrite (DecodeVertexData_mismatch ve d x y z Hx Hy Hz H).
      now rewrite Hx, Hy, Hz.
    + rewrite (DecodeVertexData_bad_type ve d x y z Hx Hy Hz Hxy Hyz Hf Hi).
      now rewrite Hx, Hy, Hz.
Qed.

(** X9.  The only undefined behaviour [DecodeVertexData] can meet is the
    null dereference of the coefficient bank: no write falls outside an
    attribute buffer, and a run ends in undefined behaviour only on a vertex
    element whose [f_rest_0], [f_rest_1], [f_rest_2] are present while the
    bank is incomplete. *)
Theorem DecodeVertexData_undefined_only_in_bank (ve : option PlyElement)
    (d : PlyDecoder) (u : Undefined) :
  (DecodeVertexData ve d).1 = UB u ->
  u = NullDereference /\
  exists e, ve = Some e /\ frest_committed e = true /\
            frest_complete e = false.
Proof.
  destruct ve as [ve|]; [|discriminate].
  intros Hub. destruct (position_type ve) as [dt|] eqn:Hpos.
  - destruct (frest_safe ve) eqn:Hsafe.
    + rewrite (DecodeVertexData_run ve d dt Hpos Hsafe) in Hub.
      destruct (color_error ve); discriminate.
    + apply frest_unsafe in Hsafe. destruct Hsafe as [Hc Hcomp].
      rewrite (DecodeVertexData_partial_bank ve d dt Hpos Hc Hcomp) in Hub.
      inversion Hub. split; [reflexivity|]. exists ve. auto.
  - destruct (DecodeVertexData_invalid ve d Hpos) as (m & d' & H & _).
    rewrite H in Hub. discriminate.
Qed.

Lemma DecodeVertexData_undefined_only_in_bank_witness :
  NullDereference = NullDereference /\
  exists e, Some sample_partial_bank = Some e /\
            frest_committed e = true /\ frest_complete e = false.
Proof.
  exact (DecodeVertexData_undefined_only_in_bank (Some sample_partial_bank)
           (new_decoder false) NullDereference eq_refl).
Defined.

(** X10.  [DecodeVertexData] is not idempotent: a successful run appends at
    least one attribute, and a second run on the same vertex element succeeds
    too and appends the same attributes once more, after those of the first
    run, so that it leaves another state than the first; the point count
    stays as the first run set it. *)
Theorem DecodeVertexData_twice (ve : option PlyElement) (d d' : PlyDecoder) :
  DecodeVertexData ve d = (Done tt, d') ->
  exists added d'',
    added <> [] /\
    attributes (out_point_cloud_ d') =
      attributes (out_point_cloud_ d) ++ added /\
    (DecodeVertexData ve ;;; DecodeVertexData ve) d = (Done tt, d'') /\
    attributes (out_point_cloud_ d'') =
      attributes (out_point_cloud_ d) ++ added ++ added /\
    num_points (out_point_cloud_ d'') = num_points (out_point_cloud_ d') /\
    d'' <> d'.
Proof.
  intros Hrun. destruct ve as [ve|]; [|discriminate].
  destruct (DecodeVertexData_Done ve d d' Hrun)
    as (dt & Hpos & Hsafe & Herr & Hd').
  assert (Hne : decoded_groups ve <> []).
  { destruct (position_type_present ve dt Hpos) as [ps Hps].
    unfold decoded_groups, position_group. rewrite Hpos, Hps. discriminate. }
  exists (decoded_groups ve). eexists.
  split; [exact Hne|]. split; [now rewrite Hd'|].
  rewrite (bind_done _ _ _ _ _ Hrun).
  rewrite (DecodeVertexData_run ve d' dt Hpos Hsafe), Herr.
  fold (decoded_groups ve).
  split; [reflexivity|]. split; [|split].
  - rewrite Hd'. cbn [add_attributes with_attributes with_num_points
                      out_point_cloud_ attributes].
    now rewrite app_assoc.
  - now rewrite Hd'.
  - intros Heq. apply (f_equal (fun x => length (attributes (out_point_cloud_ x))))
      in Heq.
    cbn [add_attributes with_attributes with_num_points out_point_cloud_
         attributes] in Heq.
    rewrite length_app in Heq.
    destruct (decoded_groups ve); [congruence|]. simpl in Heq. lia.
Qed.

Lemma DecodeVertexData_twice_witness :
  exists added d'',
    added <> [] /\
    attributes (out_point_cloud_
                  (DecodeVertexData (Some sample_groups)
                     (new_decoder false)).2) =
      attributes (out_point_cloud_ (new_decoder false)) ++ added /\
    (DecodeVertexData (Some sample_groups) ;;;
     DecodeVertexData (Some sample_groups)) (new_decoder false) =
      (Done tt, d'') /\
    attributes (out_point_cloud_ d'') =
      attributes (out_point_cloud_ (new_decoder false)) ++ added ++ added /\
    num_points (out_point_cloud_ d'') =
      num_points (out_point_cloud_
                    (DecodeVertexData (Some sample_groups)
                       (new_decoder false)).2) /\
    d'' <> (DecodeVertexData (Some sample_groups) (new_decoder false)).2.
Proof.
  exact (DecodeVertexData_twice (Some sample_groups) (new_decoder false)
           (DecodeVertexData (Some sample_groups) (new_decoder false)).2
           eq_refl).
Defined.

(** ** Unknown properties *)

Ltac known_name :=
  apply list_elem_of_In; apply (bool_decide_unpack _); vm_compute; exact I.

Ltac same_lookup Hsame :=
  repeat match goal with
  | |- context [GetPropertyByName ?ve ?s] =>
      lazymatch type of Hsame with
      | forall name, _ -> GetPropertyByName ve name = _ =>
          rewrite (Hsame s) by known_name
      end
  end.

Lemma same_bank ve1 ve2 :
  (forall name, In name recognised_names ->
     GetPropertyByName ve1 name = GetPropertyByName ve2 name) ->
  map (GetPropertyByName ve1) f_rest_names =
  map (GetPropertyByName ve2) f_rest_names.
Proof.
  intros Hsame. apply map_ext_in. intros name Hname. apply Hsame.
  unfold recognised_names. rewrite !in_app_iff. auto.
Qed.

(** X11.  Properties under names the decoder does not know are ignored: two
    vertex elements with the same entry count that agree on the names
    [DecodeVertexData] looks up are decoded alike. *)
Theorem unknown_properties_ignored (ve1 ve2 : PlyElement) (d : PlyDecoder) :
  num_entries ve1 = num_entries ve2 ->
  (forall name, In name recognised_names ->
     GetPropertyByName ve1 name = GetPropertyByName ve2 name) ->
  DecodeVertexData (Some ve1) d = DecodeVertexData (Some ve2) d.
Proof.
  intros Hn Hsame.
  unfold DecodeVertexData, decode_normals, decode_fdc, decode_frest,
    decode_opacity, decode_scale, decode_rot, decode_color.
  rewrite (same_bank ve1 ve2 Hsame), Hn.
  same_lookup Hsame. reflexivity.
Qed.

Lemma unknown_properties_ignored_witness :
  DecodeVertexData (Some sample_unknown) (new_decoder false) =
  DecodeVertexData (Some sample_only_xyz) (new_decoder false).
Proof.
  refine (unknown_properties_ignored sample_unknown sample_only_xyz
            (new_decoder false) eq_refl _).
  intros name Hname. apply list_elem_of_In in Hname.
  repeat (apply elem_of_cons in Hname; destruct Hname as [->|Hname];
          [reflexivity|]).
  inversion Hname.
Defined.

(** ** Groups that are absent or present *)

Lemma all_present_first_absent (lookup : string -> option PlyProperty)
    name names :
  lookup name = None -> all_present (map lookup (name :: names)) = None.
Proof. intros H. cbn [map all_present]. now rewrite H. Qed.

Lemma float_group_absent sem names ve :
  names <> [] ->
  Forall (fun name => GetPropertyByName ve name = None) names ->
  float_group sem names ve = [].
Proof.
  intros Hne Hall. destruct names as [|name names]; [congruence|].
  inversion Hall; subst. unfold float_group.
  now rewrite all_present_first_absent.
Qed.

(** X12.  A vertex element whose [x], [y], [z] form a valid position group
    and which has no property under any optional name is decoded with
    success into exactly one attribute, the position. *)
Theorem position_only (ve : PlyElement) (d : PlyDecoder) (dt : DataType) :
  position_type ve = Some dt ->
  Forall (fun name => GetPropertyByName ve name = None) optional_names ->
  DecodeVertexData (Some ve) d =
  (Done tt,
   add_attributes (position_group ve) (with_num_points (num_entries ve) d)) /\
  length (position_group ve) = 1%nat.
Proof.
  intros Hpos Hnone. unfold optional_names in Hnone.
  repeat (apply Forall_app in Hnone;
          let H := fresh "Hgroup" in destruct Hnone as [H Hnone]).
  assert (Hc : frest_committed ve = false).
  { unfold frest_committed. inversion Hgroup1 as [|? ? H0 _]; subst.
    now rewrite H0. }
  assert (Hsafe : frest_safe ve = true)
    by (unfold frest_safe; now rewrite Hc).
  assert (Hch : color_channels ve = []).
  { unfold color_channels, color_names. rewrite Forall_forall in Hnone.
    cbn [omap list_omap].
    rewrite !Hnone by (apply (bool_decide_unpack _); vm_compute; exact I).
    reflexivity. }
  assert (Herr : color_error ve = None)
    by (apply color_error_all_uint8; now rewrite Hch).
  split.
  - rewrite (DecodeVertexData_run ve d dt Hpos Hsafe), Herr.
    unfold optional_groups, color_group. rewrite Hch.
    rewrite !float_group_absent by (assumption || discriminate).
    destruct (decode_frest_skip ve d Hc) as [_ ->].
    now rewrite !app_nil_r.
  - destruct (position_type_present ve dt Hpos) as [ps Hps].
    unfold position_group. now rewrite Hpos, Hps.
Qed.

Lemma position_only_witness :
  DecodeVertexData (Some sample_only_xyz) (new_decoder false) =
  (Done tt,
   add_attributes (position_group sample_only_xyz)
     (with_num_points 2 (new_decoder false))) /\
  length (position_group sample_only_xyz) = 1%nat.
Proof.
  refine (position_only sample_only_xyz (new_decoder false) DT_FLOAT32
            eq_refl _).
  cbv [optional_names normal_names fdc_names f_rest_names opacity_names
       scale_names rot_names color_names app].
  repeat constructor.
Defined.

(** ** Values of the optional groups *)

Lemma in_decoded_optional a ve d d' :
  DecodeVertexData (Some ve) d = (Done tt, d') ->
  In a (optional_groups ve) ->
  In a (attributes (out_point_cloud_ d')).
Proof.
  intros Hrun Ha.
  destruct (DecodeVertexData_Done ve d d' Hrun) as (dt & _ & _ & _ & ->).
  rewrite attributes_add_attributes. unfold decoded_groups.
  rewrite !in_app_iff. auto.
Qed.

Lemma float_group_matched sem names ve ps :
  all_present (map (GetPropertyByName ve) names) = Some ps ->
  all_float32 ps = true ->
  float_group sem names ve =
  [{| descriptor := Init sem (length ps) DT_FLOAT32 false
                      (4 * Z.of_nat (length ps)) 0;
      identity_mapping := true;
      buffer := map (tuple_of ps) (seq 0 (num_entries ve)) |}].
Proof.
  intros Hps Hty. unfold float_group. rewrite Hps, Hty.
  pose proof (all_present_length _ _ Hps) as Hlen.
  rewrite length_map in Hlen. rewrite <- Hlen.
  now rewrite filled_tuples.
Qed.

(** X13.  On a successful decode, each of the groups normal, colour-DC,
    opacity, scale and rotation whose properties are all present with type
    float32 gives one float32 attribute of its semantic, with one component
    per property, whose value at vertex [i] is the tuple of the properties'
    values at entry [i], in the order of the names. *)
Theorem float_group_values (ve : PlyElement) (d d' : PlyDecoder)
    (sem : AttributeType) (names : list string) (ps : list PlyProperty) :
  DecodeVertexData (Some ve) d = (Done tt, d') ->
  In (sem, names) float_groups ->
  all_present (map (GetPropertyByName ve) names) = Some ps ->
  all_float32 ps = true ->
  In {| descriptor := Init sem (length ps) DT_FLOAT32 false
                        (4 * Z.of_nat (length ps)) 0;
        identity_mapping := true;
        buffer := map (tuple_of ps) (seq 0 (num_entries ve)) |}
     (attributes (out_point_cloud_ d')).
Proof.
  intros Hrun Hgroup Hps Hty.
  apply (in_decoded_optional _ ve d d' Hrun).
  pose proof (float_group_matched sem names ve ps Hps Hty) as Hfg.
  unfold optional_groups. rewrite !in_app_iff.
  unfold float_groups in Hgroup. simpl in Hgroup.
  destruct Hgroup as [H|[H|[H|[H|[H|[]]]]]]; inversion H; subst;
    rewrite Hfg; simpl; auto 10.
Qed.

Lemma float_group_values_witness :
  In {| descriptor := Init NORMAL 3 DT_FLOAT32 false 12 0;
        identity_mapping := true;
        buffer := [[30; 32; 34]; [31; 33; 35]] |}
     (attributes (out_point_cloud_
                    (DecodeVertexData (Some sample_groups)
                       (new_decoder false)).2)).
Proof.
  exact (float_group_values sample_groups (new_decoder false)
           (DecodeVertexData (Some sample_groups) (new_decoder false)).2
           NORMAL normal_names
           [scalar_property DT_FLOAT32 [30; 31];
            scalar_property DT_FLOAT32 [32; 33];
            scalar_property DT_FLOAT32 [34; 35]]
           eq_refl (or_introl eq_refl) eq_refl eq_refl).
Defined.

(** X14.  On a successful decode of a vertex element whose 45 bank
    properties are present with type float32, the FREST attribute has 45
    float32 components and its value at vertex [i] is the tuple of the values
    of [f_rest_0], ..., [f_rest_44] at entry [i], in index order. *)
Theorem bank_values (ve : PlyElement) (d d' : PlyDecoder)
    (ps : list PlyProperty) :
  DecodeVertexData (Some ve) d = (Done tt, d') ->
  map (GetPropertyByName ve) f_rest_names = map Some ps ->
  all_float32 ps = true ->
  length ps = 45%nat /\
  In {| descriptor := Init FREST 45 DT_FLOAT32 false 180 0;
        identity_mapping := true;
        buffer := map (tuple_of ps) (seq 0 (num_entries ve)) |}
     (attributes (out_point_cloud_ d')).
Proof.
  intros Hrun Hps Hty.
  assert (Hall : all_present (map (GetPropertyByName ve) f_rest_names) =
                 Some ps).
  { rewrite Hps. clear. induction ps as [|p ps IH]; [reflexivity|].
    cbn [map all_present]. now rewrite IH. }
  pose proof (all_present_length _ _ Hall) as Hlen.
  rewrite length_map in Hlen. change (length f_rest_names) with 45%nat in Hlen.
  split; [exact Hlen|].
  apply (in_decoded_optional _ ve d d' Hrun).
  unfold optional_groups, frest_group. rewrite Hall.
  rewrite filled_tuple_as by (now apply all_float32_Forall).
  rewrite filled_tuples by (now rewrite Hlen).
  rewrite !in_app_iff. simpl. auto 6.
Qed.

Lemma bank_values_witness :
  exists ps,
    length ps = 45%nat /\
    In {| descriptor := Init FREST 45 DT_FLOAT32 false 180 0;
          identity_mapping := true;
          buffer := map (tuple_of ps) (seq 0 2) |}
       (attributes (out_point_cloud_
                      (DecodeVertexData (Some sample_bank)
                         (new_decoder false)).2)) /\
    map (tuple_of ps) (seq 0 2) =
      [map (fun k => 100 + Z.of_nat k) (seq 0 45);
       map (fun k => 200 + Z.of_nat k) (seq 0 45)].
Proof.
  exists (map (fun k => scalar_property DT_FLOAT32
                          [100 + Z.of_nat k; 200 + Z.of_nat k]) (seq 0 45)).
  destruct (bank_values sample_bank (new_decoder false)
              (DecodeVertexData (Some sample_bank) (new_decoder false)).2
              (map (fun k => scalar_property DT_FLOAT32
                               [100 + Z.of_nat k; 200 + Z.of_nat k])
                 (seq 0 45))
              eq_refl eq_refl eq_refl) as [Hlen Hin].
  split; [exact Hlen|]. split; [exact Hin|]. vm_compute. reflexivity.
Defined.

(** X15.  The presence test of the bank is on its first three properties
    only: when one of [f_rest_0], [f_rest_1], [f_rest_2] is absent the bank
    gives no attribute and no absent property is read, whatever other bank
    properties the element has. *)
Theorem bank_skipped_without_first_three (ve : PlyElement) (d : PlyDecoder)
    (dt : DataType) :
  position_type ve = Some dt ->
  GetPropertyByName ve "f_rest_0" = None \/
  GetPropertyByName ve "f_rest_1" = None \/
  GetPropertyByName ve "f_rest_2" = None ->
  exists r added,
    DecodeVertexData (Some ve) d =
      (r, add_attributes added (with_num_points (num_entries ve) d)) /\
    (forall u, r <> UB u) /\
    Forall (fun a => semantic a <> FREST) added.
Proof.
  intros Hpos Habsent.
  assert (Hc : frest_committed ve = false).
  { unfold frest_committed.
    destruct (GetPropertyByName ve "f_rest_0"),
      (GetPropertyByName ve "f_rest_1"), (GetPropertyByName ve "f_rest_2");
      try reflexivity.
    destruct Habsent as [H|[H|H]]; discriminate. }
  assert (Hsafe : frest_safe ve = true)
    by (unfold frest_safe; now rewrite Hc).
  destruct (decode_frest_skip ve d Hc) as [_ Hgroup].
  assert (Hno : Forall (fun a => semantic a <> FREST)
                  (position_group ve ++ optional_groups ve ++ color_group ve)).
  { unfold optional_groups. rewrite Hgroup.
    repeat apply Forall_app_2;
      try (eapply Forall_impl;
           [ first [ apply semantic_position_group
                   | apply semantic_float_group ]
           | intros a Ha; simpl in Ha; rewrite Ha; discriminate ]).
    - constructor.
    - unfold color_group. destruct (color_channels ve); repeat constructor.
      discriminate. }
  rewrite (DecodeVertexData_run ve d dt Hpos Hsafe).
  destruct (color_error ve).
  - eexists. eexists. split; [reflexivity|]. split; [discriminate|].
    rewrite app_assoc in Hno. now apply Forall_app in Hno.
  - eexists. eexists. split; [reflexivity|]. split; [discriminate|].
    exact Hno.
Qed.

Lemma bank_skipped_without_first_three_witness :
  exists r added,
    DecodeVertexData (Some sample_bank_headless) (new_decoder false) =
      (r, add_attributes added (with_num_points 2 (new_decoder false))) /\
    (forall u, r <> UB u) /\
    Forall (fun a => semantic a <> FREST) added.
Proof.
  exact (bank_skipped_without_first_three sample_bank_headless
           (new_decoder false) DT_FLOAT32 eq_refl (or_introl eq_refl)).
Defined.

(** ** Buffers sized to the point count *)

Lemma filled_sized va n ps :
  num_components va = length ps ->
  byte_stride va = DataTypeLength (att_data_type va) *
                   Z.of_nat (num_components va) ->
  byte_offset va = 0 ->
  attribute_sized n (filled va n (tuple_of ps)).
Proof.
  intros Hcomp Hstride Hoffset. unfold attribute_sized, filled.
  cbn [buffer descriptor identity_mapping].
  split; [now rewrite length_map, length_seq|].
  split; [|auto].
  apply Forall_forall. intros t Ht. apply list_elem_of_In, in_map_iff in Ht.
  destruct Ht as (i & <- & _). rewrite take_tuple_of by exact Hcomp.
  unfold tuple_of. now rewrite length_map.
Qed.

Lemma filled_as_sized va n T ps :
  num_components va = length ps ->
  byte_stride va = DataTypeLength (att_data_type va) *
                   Z.of_nat (num_components va) ->
  byte_offset va = 0 ->
  attribute_sized n (filled va n (tuple_as T ps)).
Proof.
  intros Hcomp Hstride Hoffset. unfold attribute_sized, filled.
  cbn [buffer descriptor identity_mapping].
  split; [now rewrite length_map, length_seq|].
  split; [|auto].
  apply Forall_forall. intros t Ht. apply list_elem_of_In, in_map_iff in Ht.
  destruct Ht as (i & <- & _).
  rewrite firstn_all2 by (unfold tuple_as; rewrite length_map; lia).
  unfold tuple_as. now rewrite length_map.
Qed.

Lemma float_group_sized sem names ve :
  Forall (attribute_sized (num_entries ve)) (float_group sem names ve).
Proof.
  unfold float_group.
  destruct (all_present (map (GetPropertyByName ve) names)) as [ps|] eqn:Hps;
    [|constructor].
  destruct (all_float32 ps); [|constructor].
  pose proof (all_present_length _ _ Hps) as Hlen.
  rewrite length_map in Hlen.
  constructor; [|constructor].
  apply filled_sized; cbn [num_components byte_stride byte_offset
    att_data_type DataTypeLength]; auto; lia.
Qed.

Lemma decoded_groups_sized ve :
  Forall (attribute_sized (num_entries ve)) (decoded_groups ve).
Proof.
  unfold decoded_groups, optional_groups.
  repeat apply Forall_app_2; try apply float_group_sized.
  - unfold position_group.
    destruct (position_type ve) as [dt|]; [|constructor].
    destruct (all_present (map (GetPropertyByName ve) ["x"; "y"; "z"]))
      as [ps|] eqn:Hps; [|constructor].
    pose proof (all_present_length _ _ Hps) as Hlen.
    constructor; [|constructor].
    apply filled_sized; cbn [num_components byte_stride byte_offset
      att_data_type DataTypeLength]; auto; lia.
  - unfold frest_group.
    destruct (all_present (map (GetPropertyByName ve) f_rest_names))
      as [ps|] eqn:Hps; [|constructor].
    pose proof (all_present_length _ _ Hps) as Hlen.
    constructor; [|constructor].
    apply filled_as_sized; cbn [num_components byte_stride byte_offset
      att_data_type DataTypeLength]; auto; lia.
  - unfold color_group.
    destruct (color_channels ve) as [|p ch]; [constructor|].
    constructor; [|constructor].
    apply filled_sized; cbn [num_components byte_stride byte_offset
      att_data_type DataTypeLength]; auto; lia.
Qed.

(** X16.  After a successful decode the point count is the entry count of
    the vertex element and every attribute the run added agrees with it: its
    buffer holds one tuple per point, each of [num_components] values, with
    identity mapping, a stride of [num_components] values of its data type
    and no offset. *)
Theorem attributes_sized_to_point_count (ve : PlyElement)
    (d d' : PlyDecoder) :
  DecodeVertexData (Some ve) d = (Done tt, d') ->
  num_points (out_point_cloud_ d') = num_entries ve /\
  exists added,
    attributes (out_point_cloud_ d') =
      attributes (out_point_cloud_ d) ++ added /\
    Forall (attribute_sized (num_points (out_point_cloud_ d'))) added.
Proof.
  intros Hrun.
  destruct (DecodeVertexData_Done ve d d' Hrun) as (dt & _ & _ & _ & ->).
  split; [reflexivity|]. exists (decoded_groups ve).
  split; [reflexivity|]. apply decoded_groups_sized.
Qed.

Lemma attributes_sized_to_point_count_witness :
  num_points (out_point_cloud_
                (DecodeVertexData (Some sample_groups)
                   (new_decoder false)).2) = 2%nat /\
  exists added,
    attributes (out_point_cloud_
                  (DecodeVertexData (Some sample_groups)
                     (new_decoder false)).2) = [] ++ added /\
    Forall (attribute_sized 2) added.
Proof.
  exact (attributes_sized_to_point_count sample_groups (new_decoder false)
           (DecodeVertexData (Some sample_groups) (new_decoder false)).2
           eq_refl).
Defined.

(** ** The colour check *)

(** X17.  The colour channels are checked in the order red, green, blue,
    alpha and the first one present with a type other than uint8 decides the
    status: when the channels before channel [j] are absent or of type uint8
    and channel [j] is present with another type, the decode fails with the
    message of channel [j]. *)
Theorem first_wrong_channel_reported (ve : PlyElement) (d : PlyDecoder)
    (dt : DataType) (j : nat) (name message : string) (p : PlyProperty) :
  position_type ve = Some dt ->
  frest_safe ve = true ->
  color_names !! j = Some name ->
  color_messages !! j = Some message ->
  GetPropertyByName ve name = Some p ->
  data_type p <> DT_UINT8 ->
  (forall i earlier q, (i < j)%nat -> color_names !! i = Some earlier ->
     GetPropertyByName ve earlier = Some q -> data_type q = DT_UINT8) ->
  (DecodeVertexData (Some ve) d).1 =
  Failed (mkStatus INVALID_PARAMETER message).
Proof.
  intros Hpos Hsafe Hname Hmessage Hp Hty Hearlier.
  rewrite (DecodeVertexData_run ve d dt Hpos Hsafe).
  assert (Herr : color_error ve = Some message); [|now rewrite Herr].
  assert (Hok : forall i earlier, (i < j)%nat ->
            color_names !! i = Some earlier ->
            match GetPropertyByName ve earlier with
            | Some q =>
                if bool_decide (data_type q = DT_UINT8) then None
                else Some message
            | None => None
            end = @None string).
  { intros i earlier Hi He.
    destruct (GetPropertyByName ve earlier) as [q|] eqn:Hq; [|reflexivity].
    now rewrite (bool_decide_eq_true_2 _ (Hearlier i earlier q Hi He Hq)). }
  unfold color_error.
  cbn [color_names color_messages zip zip_with omap list_omap].
  destruct j as [|[|[|[|j]]]]; simpl in Hname, Hmessage;
    inversion Hname; inversion Hmessage; subst; clear Hname Hmessage.
  - rewrite Hp. now rewrite bool_decide_eq_false_2.
  - pose proof (Hok 0%nat "red" ltac:(lia) eq_refl) as H0.
    destruct (GetPropertyByName ve "red") as [q|];
      [destruct (bool_decide (data_type q = DT_UINT8)); [|discriminate]|];
      rewrite Hp; now rewrite bool_decide_eq_false_2.
  - pose proof (Hok 0%nat "red" ltac:(lia) eq_refl) as H0.
    pose proof (Hok 1%nat "green" ltac:(lia) eq_refl) as H1.
    destruct (GetPropertyByName ve "red") as [q|];
      [destruct (bool_decide (data_type q = DT_UINT8)); [|discriminate]|];
      (destruct (GetPropertyByName ve "green") as [q1|];
       [destruct (bool_decide (data_type q1 = DT_UINT8)); [|discriminate]|]);
      rewrite Hp; now rewrite bool_decide_eq_false_2.
  - pose proof (Hok 0%nat "red" ltac:(lia) eq_refl) as H0.
    pose proof (Hok 1%nat "green" ltac:(lia) eq_refl) as H1.
    pose proof (Hok 2%nat "blue" ltac:(lia) eq_refl) as H2.
    destruct (GetPropertyByName ve "red") as [q|];
      [destruct (bool_decide (data_type q = DT_UINT8)); [|discriminate]|];
      (destruct (GetPropertyByName ve "green") as [q1|];
       [destruct (bool_decide (data_type q1 = DT_UINT8)); [|discriminate]|]);
      (destruct (GetPropertyByName ve "blue") as [q2|];
       [destruct (bool_decide (data_type q2 = DT_UINT8)); [|discriminate]|]);
      rewrite Hp; now rewrite bool_decide_eq_false_2.
Qed.

Lemma first_wrong_channel_reported_witness :
  (DecodeVertexData (Some sample_green_alpha) (new_decoder false)).1 =
  Failed (mkStatus INVALID_PARAMETER "Type of 'green' property must be uint8").
Proof.
  refine (first_wrong_channel_reported sample_green_alpha (new_decoder false)
            DT_FLOAT32 1 "green" "Type of 'green' property must be uint8"
            (scalar_property DT_UINT16 [9; 10])
            eq_refl eq_refl eq_refl eq_refl eq_refl _ _).
  - simpl. discriminate.
  - intros i earlier q Hi He Hq.
    destruct i as [|i]; [|lia]. simpl in He. inversion He; subst.
    simpl in Hq. inversion Hq. reflexivity.
Defined.

(** ** ReadPropertiesToAttribute on its own *)




(** ** DecodeInternal and the entry points *)

Lemma deduplicate_skipped cfg d :
  out_mesh_ d = false \/ faces (out_point_cloud_ d) = [] ->
  deduplicate cfg d = (Done tt, d).
Proof.
  intros H. unfold deduplicate, num_faces.
  destruct H as [-> | ->]; [reflexivity|].
  now rewrite andb_false_r.
Qed.

Lemma vertex_then_deduplicate cfg ve d :
  out_mesh_ d = false \/ faces (out_point_cloud_ d) = [] ->
  (DecodeVertexData ve ;;; deduplicate cfg) d = DecodeVertexData ve d.
Proof.
  intros H. destruct (DecodeVertexData_effect ve) as (r & n & added & Hrun).
  unfold bind. rewrite (Hrun d). destruct r as [[]| |]; try reflexivity.
  apply deduplicate_skipped.
  rewrite out_mesh_add_attributes, faces_add_attributes. exact H.
Qed.

Lemma emitted_degenerate vi n :
  (forall i, (i < n)%nat -> GetListEntryNumValues vi i < 3) ->
  concat (map (emitted vi) (seq 0 n)) = [].
Proof.
  intros H. apply concat_nil_Forall. apply Forall_forall.
  intros l Hl. apply list_elem_of_In, in_map_iff in Hl.
  destruct Hl as (i & <- & Hi). apply in_seq in Hi.
  unfold emitted. destruct (Z.ltb_spec (GetListEntryNumValues vi i) 3);
    [reflexivity|]. specialize (H i). lia.
Qed.

(** Without a mesh, [DecodeInternal] is the vertex decode. *)
Lemma DecodeInternal_without_mesh cfg table d :
  out_mesh_ d = false ->
  DecodeInternal cfg (inr table) d =
  DecodeVertexData (GetElementByName table "vertex") d.
Proof.
  intros Hmesh. unfold DecodeInternal.
  rewrite (bind_done _ _ d tt d) by (now rewrite Hmesh).
  apply vertex_then_deduplicate. now left.
Qed.

(** X19.  A decode into a point cloud, by a decoder that was given no
    mesh, is the vertex decode alone: the face element of the table is never
    looked at and no deduplication is run, whatever the table holds and
    however deduplication is configured. *)
Theorem point_cloud_decode_is_vertex_decode (cfg : Deduplication)
    (table : PlyReader) (out : Geometry) (d : PlyDecoder) :
  out_mesh_ d = false ->
  DecodeFromBuffer_PointCloud cfg (inr table) out d =
    DecodeVertexData (GetElementByName table "vertex")
      {| out_mesh_ := false; out_point_cloud_ := out |} /\
  DecodeInternal cfg (inr table) d =
    DecodeVertexData (GetElementByName table "vertex") d.
Proof.
  intros Hmesh. split.
  - unfold DecodeFromBuffer_PointCloud. rewrite Hmesh.
    now apply DecodeInternal_without_mesh.
  - now apply DecodeInternal_without_mesh.
Qed.

Lemma point_cloud_decode_is_vertex_decode_witness :
  DecodeFromBuffer_PointCloud sample_deduplication
    (inr sample_degenerate_table) empty_geometry (new_decoder false) =
    DecodeVertexData (Some sample_groups) (new_decoder false) /\
  DecodeInternal sample_deduplication (inr sample_degenerate_table)
    (new_decoder false) =
    DecodeVertexData (Some sample_groups) (new_decoder false).
Proof.
  exact (point_cloud_decode_is_vertex_decode sample_deduplication
           sample_degenerate_table empty_geometry (new_decoder false)
           eq_refl).
Defined.

(** X20.  On a fresh decoder, a table without a face element decodes into
    an empty mesh as it decodes into a point cloud: same status, same point
    count and attributes, no face, and no deduplication. *)
Theorem mesh_without_faces_is_point_cloud (cfg : Deduplication)
    (table : PlyReader) (out : Geometry) (d : PlyDecoder) :
  out_mesh_ d = false ->
  GetElementByName table "face" = None ->
  faces out = [] ->
  (DecodeFromBuffer_Mesh cfg (inr table) out d).1 =
    (DecodeFromBuffer_PointCloud cfg (inr table) out d).1 /\
  out_point_cloud_ (DecodeFromBuffer_Mesh cfg (inr table) out d).2 =
    out_point_cloud_ (DecodeFromBuffer_PointCloud cfg (inr table) out d).2 /\
  faces (out_point_cloud_ (DecodeFromBuffer_Mesh cfg (inr table) out d).2) =
    [].
Proof.
  intros Hmesh Hface Hfaces.
  unfold DecodeFromBuffer_Mesh, DecodeFromBuffer_PointCloud.
  rewrite Hmesh. cbn [out_mesh_].
  rewrite (DecodeInternal_without_mesh cfg table
             {| out_mesh_ := false; out_point_cloud_ := out |})
    by reflexivity.
  unfold DecodeInternal.
  rewrite (bind_done _ _ _ tt {| out_mesh_ := true; out_point_cloud_ := out |})
    by (cbn [out_mesh_]; now rewrite Hface).
  rewrite vertex_then_deduplicate by (now right).
  destruct (DecodeVertexData_effect (GetElementByName table "vertex"))
    as (r & n & added & Hrun).
  rewrite !Hrun. cbn [fst snd]. split; [reflexivity|].
  split; [now destruct n|].
  rewrite faces_add_attributes. exact Hfaces.
Qed.

Lemma mesh_without_faces_is_point_cloud_witness :
  (DecodeFromBuffer_Mesh sample_deduplication (inr sample_cloud_table)
     empty_geometry (new_decoder false)).1 =
    (DecodeFromBuffer_PointCloud sample_deduplication
       (inr sample_cloud_table) empty_geometry (new_decoder false)).1 /\
  out_point_cloud_
    (DecodeFromBuffer_Mesh sample_deduplication (inr sample_cloud_table)
       empty_geometry (new_decoder false)).2 =
    out_point_cloud_
      (DecodeFromBuffer_PointCloud sample_deduplication
         (inr sample_cloud_table) empty_geometry (new_decoder false)).2 /\
  faces (out_point_cloud_
           (DecodeFromBuffer_Mesh sample_deduplication
              (inr sample_cloud_table) empty_geometry
              (new_decoder false)).2) = [].
Proof.
  exact (mesh_without_faces_is_point_cloud sample_deduplication
           sample_cloud_table empty_geometry (new_decoder false)
           eq_refl eq_refl eq_refl).
Defined.

(** X21.  When a mesh was requested and every polygon entry of the face
    element has fewer than three indices, the face decode leaves an empty
    face list and the deduplication is not run: [DecodeInternal] is the
    vertex decode on the mesh with no face. *)
Theorem degenerate_polygons_give_point_cloud (cfg : Deduplication)
    (table : PlyReader) (fe : PlyElement) (vi : PlyProperty)
    (d : PlyDecoder) :
  out_mesh_ d = true ->
  GetElementByName table "face" = Some fe ->
  face_indices_property fe = Some vi ->
  is_list vi = true ->
  (forall i, (i < num_entries fe)%nat -> GetListEntryNumValues vi i < 3) ->
  DecodeFaceData (Some fe) d = (Done tt, with_faces [] d) /\
  DecodeInternal cfg (inr table) d =
    DecodeVertexData (GetElementByName table "vertex") (with_faces [] d).
Proof.
  intros Hmesh Hface Hvi Hlist Hsizes.
  assert (Hrun : DecodeFaceData (Some fe) d = (Done tt, with_faces [] d)).
  { rewrite (DecodeFaceData_run fe vi d Hmesh Hvi Hlist).
    now rewrite (emitted_degenerate vi _ Hsizes). }
  split; [exact Hrun|]. unfold DecodeInternal.
  rewrite (bind_done _ _ d tt (with_faces [] d))
    by (now rewrite Hmesh, Hface).
  apply vertex_then_deduplicate. now right.
Qed.

Lemma degenerate_polygons_give_point_cloud_witness :
  DecodeFaceData (Some sample_degenerate) (new_decoder true) =
    (Done tt, with_faces [] (new_decoder true)) /\
  DecodeInternal sample_deduplication (inr sample_degenerate_table)
    (new_decoder true) =
    DecodeVertexData (GetElementByName sample_degenerate_table "vertex")
      (with_faces [] (new_decoder true)).
Proof.
  refine (degenerate_polygons_give_point_cloud sample_deduplication
            sample_degenerate_table sample_degenerate
            (list_property DT_INT32 [[4; 5]; [6]]) (new_decoder true)
            eq_refl eq_refl eq_refl eq_refl _).
  intros i Hi. destruct i as [|[|i]]; simpl in *; lia.
Defined.

(** X22.  The faces are decoded before the vertex element is looked up: when
    a mesh was requested and the table has a face element but no vertex
    element, the face decode succeeds and [DecodeInternal] then fails with
    "vertex_element is null", leaving the decoder in the state the face
    decode left, with the [CountNumTriangles] faces it decoded in the mesh. *)
Theorem faces_kept_without_vertex_element (cfg : Deduplication)
    (table : PlyReader) (fe : PlyElement) (vi : PlyProperty)
    (d : PlyDecoder) :
  out_mesh_ d = true ->
  GetElementByName table "face" = Some fe ->
  face_indices_property fe = Some vi ->
  is_list vi = true ->
  GetElementByName table "vertex" = None ->
  (DecodeFaceData (Some fe) d).1 = Done tt /\
  DecodeInternal cfg (inr table) d =
    (Failed (mkStatus INVALID_PARAMETER "vertex_element is null"),
     (DecodeFaceData (Some fe) d).2) /\
  Z.of_nat (num_faces (out_point_cloud_ (DecodeInternal cfg (inr table) d).2)) =
    CountNumTriangles fe vi.
Proof.
  intros Hmesh Hface Hvi Hlist Hvertex.
  pose proof (DecodeFaceData_run fe vi d Hmesh Hvi Hlist) as Hrun.
  assert (Hint : DecodeInternal cfg (inr table) d =
                 (Failed (mkStatus INVALID_PARAMETER "vertex_element is null"),
                  (DecodeFaceData (Some fe) d).2)).
  { unfold DecodeInternal.
    erewrite bind_done by (rewrite Hmesh, Hface; exact Hrun).
    rewrite Hvertex, Hrun. reflexivity. }
  split; [now rewrite Hrun|]. split; [exact Hint|].
  rewrite Hint, Hrun. cbn [snd]. unfold num_faces, with_faces.
  cbn [out_point_cloud_ faces].
  rewrite CountNumTriangles_sum. unfold list_sizes. apply sum_emitted.
Qed.

Lemma faces_kept_without_vertex_element_witness :
  DecodeInternal sample_deduplication (inr sample_faces_only_table)
    (new_decoder true) =
  (Failed (mkStatus INVALID_PARAMETER "vertex_element is null"),
   with_faces
     [face_of 10 11 12; face_of 10 12 13; face_of 10 13 14; face_of 5 6 7]
     (new_decoder true)).
Proof.
  exact (proj1 (proj2
           (faces_kept_without_vertex_element sample_deduplication
              sample_faces_only_table sample_faces sample_indices
              (new_decoder true) eq_refl eq_refl eq_refl eq_refl eq_refl))).
Defined.

(** ** The statuses of the decoder *)

Lemma DecodeFaceData_failed fe d s :
  (DecodeFaceData fe d).1 = Failed s ->
  s = mkStatus DRACO_ERROR "No faces defined".
Proof.
  destruct (DecodeFaceData_cases fe d)
    as [[_ H]|[H|[[_ H]|(e & vi & _ & _ & _ & _ & H)]]];
    rewrite H; simpl; intros Hs; inversion Hs; reflexivity.
Qed.

Lemma DecodeVertexData_failed ve d s :
  (DecodeVertexData ve d).1 = Failed s -> In s decoder_errors.
Proof.
  destruct ve as [ve|].
  2:{ simpl. intros H. inversion H. simpl. auto. }
  destruct (position_type ve) as [dt|] eqn:Hpos.
  - destruct (frest_safe ve) eqn:Hsafe.
    + rewrite (DecodeVertexData_run ve d dt Hpos Hsafe).
      destruct (color_error ve) as [message|] eqn:Herr; [|discriminate].
      simpl. intros H. inversion H.
      apply color_error_message in Herr. simpl in Herr.
      destruct Herr as [<-|[<-|[<-|[<-|[]]]]]; simpl; auto 10.
    + apply frest_unsafe in Hsafe. destruct Hsafe as [Hc Hcomp].
      rewrite (DecodeVertexData_partial_bank ve d dt Hpos Hc Hcomp).
      discriminate.
  - apply position_type_None in Hpos.
    destruct Hpos
      as [H|(x & y & z & Hx & Hy & Hz & [H|(Hxy & Hyz & Hf & Hi)])].
    + rewrite (DecodeVertexData_missing ve d H). simpl.
      intros Hs. inversion Hs. simpl. auto.
    + rewrite (DecodeVertexData_mismatch ve d x y z Hx Hy Hz H). simpl.
      intros Hs. inversion Hs. simpl. auto.
    + rewrite (DecodeVertexData_bad_type ve d x y z Hx Hy Hz Hxy Hyz Hf Hi).
      simpl. intros Hs. inversion Hs. simpl. auto 6.
Qed.

Lemma deduplicate_failed cfg d s :
  (deduplicate cfg d).1 = Failed s ->
  s = mkStatus DRACO_ERROR "Could not deduplicate attribute values".
Proof.
  unfold deduplicate.
  destruct (out_mesh_ d && negb (num_faces (out_point_cloud_ d) =? 0)%nat);
    [|discriminate].
  unfold bind.
  destruct (values_deduplication_supported cfg).
  - destruct (DeduplicateAttributeValues cfg (out_point_cloud_ d))
      as [[|] g].
    + destruct (indices_deduplication_supported cfg); discriminate.
    + simpl. intros H. now inversion H.
  - simpl. destruct (indices_deduplication_supported cfg); discriminate.
Qed.

Lemma DecodeInternal_failed cfg Read d s :
  (DecodeInternal cfg Read d).1 = Failed s ->
  Read = inl s \/ In s decoder_errors.
Proof.
  destruct Read as [status|table]; simpl.
  - intros H. inversion H. now left.
  - intros H. right. unfold bind in H.
    destruct (out_mesh_ d).
    + destruct (DecodeFaceData (GetElementByName table "face") d)
        as [[[]|s1|u1] d1] eqn:Hface.
      * destruct (DecodeVertexData (GetElementByName table "vertex") d1)
          as [[[]|s2|u2] d2] eqn:Hvertex.
        -- apply deduplicate_failed in H. subst s. simpl. auto 15.
        -- simpl in H. inversion H; subst.
           apply (DecodeVertexData_failed
                    (GetElementByName table "vertex") d1).
           now rewrite Hvertex.
        -- discriminate.
      * simpl in H. inversion H; subst.
        rewrite (DecodeFaceData_failed
                   (GetElementByName table "face") d s).
        { simpl. auto. }
        now rewrite Hface.
      * discriminate.
    + destruct (DecodeVertexData (GetElementByName table "vertex") d)
        as [[[]|s2|u2] d2] eqn:Hvertex.
      * apply deduplicate_failed in H. subst s. simpl. auto 15.
      * simpl in H. inversion H; subst.
        apply (DecodeVertexData_failed
                 (GetElementByName table "vertex") d).
        now rewrite Hvertex.
      * discriminate.
Qed.

(** X23.  The statuses of a decode from a file are closed: a failure is the
    read error of the entry point, the status the parser returned, or one of
    the ten statuses [DecodeFaceData], [DecodeVertexData] and the
    deduplication step build, for a mesh as for a point cloud. *)
Theorem decode_statuses (cfg : Deduplication)
    (ReadFileToBuffer : string -> option (list Z))
    (Read : list Z -> Status + PlyReader) (file_name : string)
    (out : Geometry) (d : PlyDecoder) (s : Status) :
  (DecodeFromFile_Mesh cfg ReadFileToBuffer Read file_name out d).1 =
    Failed s \/
  (DecodeFromFile_PointCloud cfg ReadFileToBuffer Read file_name out d).1 =
    Failed s ->
  (ReadFileToBuffer file_name = None /\
   s = mkStatus DRACO_ERROR "Unable to read input file.") \/
  (exists data, ReadFileToBuffer file_name = Some data /\
                Read data = inl s) \/
  In s decoder_errors.
Proof.
  unfold DecodeFromFile_Mesh, DecodeFromFile_PointCloud,
    DecodeFromBuffer_PointCloud.
  destruct (ReadFileToBuffer file_name) as [data|].
  - intros [H|H]; apply DecodeInternal_failed in H;
      (destruct H as [H|H]; [right; left; eauto | right; right; exact H]).
  - intros [H|H]; simpl in H; inversion H; left; auto.
Qed.

Lemma decode_statuses_witness :
  (sample_no_file "missing.ply" = None /\
   mkStatus DRACO_ERROR "Unable to read input file." =
   mkStatus DRACO_ERROR "Unable to read input file.") \/
  (exists data, sample_no_file "missing.ply" = Some data /\
     sample_parser data =
     inl (mkStatus DRACO_ERROR "Unable to read input file.")) \/
  In (mkStatus DRACO_ERROR "Unable to read input file.") decoder_errors.
Proof.
  exact (decode_statuses sample_deduplication sample_no_file sample_parser
           "missing.ply" empty_geometry (new_decoder false)
           (mkStatus DRACO_ERROR "Unable to read input file.")
           (or_introl eq_refl)).
Defined.
